(** * File navigator: cursor, search and screen rendering

    A shallow embedding of [src/index.ts], the request handler of the
    file-navigator server, together with the properties of its per-file
    navigation state.

    Modelling conventions.
    - JavaScript numbers that hold line numbers, counts and indices are
      integers here ([Z]); string positions are [nat].  The sums and
      differences of the code are exact on integers of magnitude up to
      2^53, which is the range the model speaks about.
    - Strings are sequences of code units ([string]).  For ASCII text (every
      code unit below 128) a code unit is a character, a position counts
      characters, and the [i] flag folds a-z to A-Z and nothing else; what
      the runtime does with other text is not modelled.  Letter case is
      the case of the letters a-z throughout, and every statement that says
      which lines a literal pattern matches is made for ASCII text
      ([Str.is_ascii]).
    - A file is the list of lines that [readFileLines] yields for it; the
      file system is a function from paths to such lists.  [None] is a path
      under which no file exists: [fs.access] and [fs.open] fail with the
      code [ENOENT].  A path that fails in another way (a component that is
      not a directory, a missing permission) or that passes the access
      check and cannot be read is not in the model.
    - The process-wide [navigatorStates] map is a [gmap string _]; a handler
      takes the table and returns the new one.
    - [new RegExp(src, 'gi')] belongs to the JavaScript runtime.  It is a
      parameter of the development (class [RegExpEngine]); what the handler
      does with the compiled object ([test], [lastIndex]) is modelled in
      full. *)

From Stdlib Require Import ZArith Lia Bool List Ascii String Sorted.
From stdpp Require Import base option list gmap strings pretty.

Local Open Scope Z_scope.

(** ** Strings *)

Module Str.

Definition newline : ascii := ascii_of_nat 10.
Definition backslash : ascii := ascii_of_nat 92.
Definition space : ascii := ascii_of_nat 32.
Definition dquote : ascii := ascii_of_nat 34.

(** [s.slice(i)] for [0 <= i]. *)
Fixpoint drop (i : nat) (s : string) : string :=
  match i, s with
  | O, _ => s
  | S _, EmptyString => EmptyString
  | S i', String _ s' => drop i' s'
  end.

(** [Array.prototype.join]. *)
Fixpoint join (sep : string) (rows : list string) : string :=
  match rows with
  | [] => EmptyString
  | [r] => r
  | r :: rest => r +:+ sep +:+ join sep rest
  end.

(** [s.padStart(w, ' ')]. *)
Definition padStart (w : nat) (s : string) : string :=
  string_of_list_ascii (replicate (w - String.length s) space) +:+ s.

(** The text is ASCII: every code unit is below 128. *)
Fixpoint is_ascii (s : string) : bool :=
  match s with
  | EmptyString => true
  | String c s' => (nat_of_ascii c <? 128)%nat && is_ascii s'
  end.

(** Case folding applied by the [i] flag to one code unit of ASCII text:
    a-z to A-Z.  On code units from 128 on it is the identity, which says
    nothing of the runtime. *)
Definition canonicalize (c : ascii) : ascii :=
  let n := nat_of_ascii c in
  if (97 <=? n)%nat && (n <=? 122)%nat then ascii_of_nat (n - 32) else c.

Fixpoint fold_case (s : string) : string :=
  match s with
  | EmptyString => EmptyString
  | String c s' => String (canonicalize c) (fold_case s')
  end.

(** [p] read at the start of [s], letters compared up to case. *)
Fixpoint prefix_ci (p s : string) : bool :=
  match p, s with
  | EmptyString, _ => true
  | String _ _, EmptyString => false
  | String a p', String b s' =>
      if Ascii.eqb (canonicalize a) (canonicalize b)
      then prefix_ci p' s' else false
  end.

End Str.

(** ** Regular expressions

    A compiled pattern is its matcher in the sense of the language
    definition: [m s i = Some e] when the pattern matches [s] starting at
    index [i] and the match ends at index [e]. *)

Definition Matcher : Type := string -> nat -> option nat.

(** A [RegExp] object with the [g] flag: the matcher and the mutable
    [lastIndex] property. *)
Record RegExp : Type := mkRegExp {
  matcher : Matcher;
  lastIndex : nat
}.

(** The matcher of a pattern made of literal characters only, under the
    [i] flag. *)
Definition literal_matcher (p : string) : Matcher :=
  fun s i =>
    if Str.prefix_ci p (Str.drop i s) then Some (i + String.length p)%nat
    else None.

(** The scan of the built-in [exec]: try index [i], then [i+1], ... for
    [n] indices in all. *)
Fixpoint exec_scan (m : Matcher) (s : string) (i n : nat) : option nat :=
  match n with
  | O => None
  | S n' =>
      match m s i with
      | Some e => Some e
      | None => exec_scan m s (S i) n'
      end
  end.

(** [r.test(s)] for a global [r]: the search starts at [lastIndex]; a
    success moves [lastIndex] to the end of the match, a failure resets it
    to 0.  Returns the answer and the object as it is afterwards. *)
Definition test (r : RegExp) (s : string) : bool * RegExp :=
  if (String.length s <? lastIndex r)%nat
  then (false, mkRegExp (matcher r) 0)
  else
    match exec_scan (matcher r) s (lastIndex r)
                    (S (String.length s - lastIndex r)) with
    | Some e => (true, mkRegExp (matcher r) e)
    | None => (false, mkRegExp (matcher r) 0)
    end.

(** The characters escaped by the literal branch of [find]:
    [. * + ? ^ $ { } ( ) | [ ] \]. *)
Definition special_chars : list ascii :=
  map ascii_of_nat [46; 42; 43; 63; 94; 36; 123; 125; 40; 41; 124; 91; 93; 92]%nat.

Definition is_special (c : ascii) : bool :=
  existsb (Ascii.eqb c) special_chars.

(** [pattern.replace(/[.*+?^${}()|[\]\\]/g, '\\$&')]. *)
Fixpoint escapeRegExp (p : string) : string :=
  match p with
  | EmptyString => EmptyString
  | String c p' =>
      if is_special c
      then String Str.backslash (String c (escapeRegExp p'))
      else String c (escapeRegExp p')
  end.

(** The constructor [new RegExp(src, 'gi')]: [None] stands for the
    [SyntaxError] it throws on a malformed source.  Four facts are used
    about the regex of an escaped source, which denotes its characters
    literally: it compiles; on ASCII text, with an ASCII pattern, it
    matches as [literal_matcher] does; the regex of the empty pattern
    matches everywhere with an empty match; and two patterns that differ in
    the case of ASCII letters only give regexes that match alike. *)
Class RegExpEngine : Type := {
  RegExp_new : string -> option Matcher;
  RegExp_new_escaped :
    forall p, exists m, RegExp_new (escapeRegExp p) = Some m;
  RegExp_new_ascii :
    forall p m s i,
      RegExp_new (escapeRegExp p) = Some m ->
      Str.is_ascii p = true ->
      Str.is_ascii s = true ->
      (i <= String.length s)%nat ->
      m s i = literal_matcher p s i;
  RegExp_new_empty :
    forall m s i,
      RegExp_new (escapeRegExp EmptyString) = Some m ->
      (i <= String.length s)%nat ->
      m s i = Some i;
  RegExp_new_case :
    forall p p' m m' s i,
      Str.fold_case p = Str.fold_case p' ->
      RegExp_new (escapeRegExp p) = Some m ->
      RegExp_new (escapeRegExp p') = Some m' ->
      (i <= String.length s)%nat ->
      m s i = m' s i
}.

(** An engine for the sources made of plain characters and of escaped
    special characters; it rejects every other source, among them the
    sources that the runtime rejects for a syntax error, such as an opening
    parenthesis alone. *)
Fixpoint unescape (src : string) : option string :=
  match src with
  | EmptyString => Some EmptyString
  | String c rest =>
      if Ascii.eqb c Str.backslash then
        match rest with
        | String d rest' =>
            if is_special d then String d <$> unescape rest' else None
        | EmptyString => None
        end
      else if is_special c then None
      else String c <$> unescape rest
  end.

Definition literal_RegExp_new (src : string) : option Matcher :=
  literal_matcher <$> unescape src.


Lemma unescape_escapeRegExp (p : string) :
  unescape (escapeRegExp p) = Some p.
Proof.
  induction p as [|c p IH]; [reflexivity|].
  cbn [escapeRegExp]. destruct (is_special c) eqn:Hc.
  - cbn [unescape]. rewrite Hc, IH.
    replace (Ascii.eqb Str.backslash Str.backslash) with true by reflexivity.
    reflexivity.
  - cbn [unescape]. rewrite Hc, IH.
    destruct (Ascii.eqb c Str.backslash) eqn:Hb; [|reflexivity].
    apply Ascii.eqb_eq in Hb. subst c. discriminate Hc.
Qed.

Lemma fold_case_length s : String.length (Str.fold_case s) = String.length s.
Proof. induction s as [|c s IH]; cbn; [reflexivity|]. rewrite IH. reflexivity. Qed.

Lemma prefix_ci_pattern_case p : forall p' s,
  Str.fold_case p = Str.fold_case p' ->
  Str.prefix_ci p s = Str.prefix_ci p' s.
Proof.
  induction p as [|a p IH]; intros p' s H;
    destruct p' as [|a' p']; try discriminate; [reflexivity|].
  cbn [Str.fold_case] in H. injection H as Ha Hp.
  destruct s as [|b s]; [reflexivity|].
  cbn [Str.prefix_ci]. rewrite Ha, (IH p' s Hp). reflexivity.
Qed.

Lemma literal_matcher_pattern_case p p' s i :
  Str.fold_case p = Str.fold_case p' ->
  literal_matcher p s i = literal_matcher p' s i.
Proof.
  intros H. unfold literal_matcher.
  rewrite (prefix_ci_pattern_case p p' _ H).
  rewrite <- (fold_case_length p), H, fold_case_length. reflexivity.
Qed.

Lemma literal_RegExp_new_escaped p m :
  literal_RegExp_new (escapeRegExp p) = Some m -> m = literal_matcher p.
Proof.
  unfold literal_RegExp_new. rewrite unescape_escapeRegExp. cbn.
  intros H. injection H as <-. reflexivity.
Qed.

Definition literal_engine : RegExpEngine.
Proof.
  refine {| RegExp_new := literal_RegExp_new |}.
  - intros p. exists (literal_matcher p). unfold literal_RegExp_new.
    rewrite unescape_escapeRegExp. reflexivity.
  - intros p m s i Hm _ _ _.
    rewrite (literal_RegExp_new_escaped p m Hm). reflexivity.
  - intros m s i Hm _.
    rewrite (literal_RegExp_new_escaped EmptyString m Hm).
    unfold literal_matcher. cbn. f_equal. apply Nat.add_0_r.
  - intros p p' m m' s i Hcase Hm Hm' _.
    rewrite (literal_RegExp_new_escaped p m Hm),
            (literal_RegExp_new_escaped p' m' Hm').
    apply literal_matcher_pattern_case, Hcase.
Defined.

(** ** Navigator state *)

(** An element of [searchMatches]. *)
Record Match : Type := mkMatch {
  line : Z;
  content : string
}.

(** An element of the array returned by [getLines]; its second field is
    named [content] in the source as well. *)
Record ScreenLine : Type := mkScreenLine {
  lineNumber : Z;
  lineContent : string
}.

Record FileNavigatorState : Type := mkState {
  currentFile : option string;
  currentLine : Z;
  screenHeight : Z;
  searchPattern : option string;
  searchMatches : list Match;
  currentMatchIndex : Z
}.

Definition DEFAULT_SCREEN_HEIGHT : Z := 30.
Definition MAX_SEARCH_RESULTS : Z := 1000.

(** Assignments to the fields of a state object. *)
Definition set_currentLine (v : Z) (st : FileNavigatorState) :=
  mkState (currentFile st) v (screenHeight st) (searchPattern st)
          (searchMatches st) (currentMatchIndex st).
Definition set_screenHeight (v : Z) (st : FileNavigatorState) :=
  mkState (currentFile st) (currentLine st) v (searchPattern st)
          (searchMatches st) (currentMatchIndex st).
Definition set_searchPattern (v : option string) (st : FileNavigatorState) :=
  mkState (currentFile st) (currentLine st) (screenHeight st) v
          (searchMatches st) (currentMatchIndex st).
Definition set_searchMatches (v : list Match) (st : FileNavigatorState) :=
  mkState (currentFile st) (currentLine st) (screenHeight st)
          (searchPattern st) v (currentMatchIndex st).
Definition set_currentMatchIndex (v : Z) (st : FileNavigatorState) :=
  mkState (currentFile st) (currentLine st) (screenHeight st)
          (searchPattern st) (searchMatches st) v.

(** The object that [getNavigatorState] stores for a path it has not seen. *)
Definition initialState (filename : string) : FileNavigatorState :=
  mkState (Some filename) 1 DEFAULT_SCREEN_HEIGHT None [] (-1).

(** [getNavigatorState]: the state object of [filename] and the table,
    which gains an entry when the path is new. *)
Definition getNavigatorState (filename : string)
    (states : gmap string FileNavigatorState)
    : FileNavigatorState * gmap string FileNavigatorState :=
  match states !! filename with
  | Some st => (st, states)
  | None => (initialState filename, <[filename := initialState filename]> states)
  end.

(** [!x] for a reference that is either an object or [null]. *)
Definition is_null {A} (x : option A) : bool :=
  match x with
  | None => true
  | Some _ => false
  end.

(** ** Failures and the handler monad *)

Inductive ErrorCode : Type := InvalidParams | MethodNotFound.

Inductive Failure : Type :=
| McpError (code : ErrorCode) (message : string)
| ENOENT          (* the error of [fs.access] and [fs.open] *)
| SyntaxError     (* [new RegExp] outside the [try] of [find] *)
| TypeError.      (* a property read on [undefined] *)

(** A computation of the handler body: it runs on the state object of the
    request's file, may mutate it, and either returns or throws.  The
    mutations made before a throw stay. *)
Definition M (A : Type) : Type :=
  FileNavigatorState -> (Failure + A) * FileNavigatorState.

Definition ret {A} (a : A) : M A := fun st => (inr a, st).
Definition throw {A} (e : Failure) : M A := fun st => (inl e, st).
Definition bind {A B} (m : M A) (k : A -> M B) : M B :=
  fun st =>
    match m st with
    | (inl e, st') => (inl e, st')
    | (inr a, st') => k a st'
    end.
Definition get {A} (f : FileNavigatorState -> A) : M A :=
  fun st => (inr (f st), st).
Definition modify (f : FileNavigatorState -> FileNavigatorState) : M unit :=
  fun st => (inr tt, f st).

Declare Scope nav_scope.
Delimit Scope nav_scope with nav.
Notation "x <- m ;; k" := (bind m (fun x => k))
  (at level 100, m at next level, right associativity) : nav_scope.
Notation "m ;;; k" := (bind m (fun _ => k))
  (at level 100, right associativity) : nav_scope.

Local Open Scope nav_scope.

(** ** Screen formatter *)

Definition last_lineNumber (lines : list ScreenLine) : Z :=
  match last lines with
  | Some l => lineNumber l
  | None => 0
  end.

(** The marker rows pushed by the loop
    [for (let i = lines.length; i < DEFAULT_SCREEN_HEIGHT; i++)]. *)
Definition filler_rows (shown width : nat) : list string :=
  replicate (Z.to_nat DEFAULT_SCREEN_HEIGHT - shown)
            (Str.padStart (width + 1) "~").

Definition eof_banner (totalLines : Z) : string :=
  "[END OF FILE - " +:+ pretty totalLines +:+ " lines total]".

Definition formatScreen (lines : list ScreenLine) (totalLines : Z) : string :=
  match lines with
  | [] => "~" +:+ String Str.newline "(empty file)"
  | _ :: _ =>
      let maxLineNumWidth :=
        Nat.max (String.length (pretty totalLines))
                (String.length (pretty (last_lineNumber lines))) in
      let formattedLines :=
        map (fun l => Str.padStart maxLineNumWidth (pretty (lineNumber l))
                      +:+ " | " +:+ lineContent l) lines in
      let formattedLines :=
        if totalLines <=? last_lineNumber lines
        then formattedLines
             ++ filler_rows (length lines) maxLineNumWidth
             ++ [eof_banner totalLines]
        else formattedLines in
      Str.join (String Str.newline "") formattedLines
  end.

(** ** Reading a file *)

(** The loop of [getLines] over the lines still to be read, [currentLine]
    being the number of the first of them. *)
Fixpoint getLines_loop (rest : list string) (currentLine startLine count : Z)
    : list ScreenLine :=
  match rest with
  | [] => []
  | l :: rest' =>
      let pushed :=
        if (startLine <=? currentLine) && (currentLine <? startLine + count)
        then [mkScreenLine currentLine l] else [] in
      if startLine + count <=? currentLine then pushed
      else pushed ++ getLines_loop rest' (currentLine + 1) startLine count
  end.

Section Handler.

(** The file system: the lines of each readable file. *)
Variable fs : string -> option (list string).
Context {engine : RegExpEngine}.

Definition readFileLines (filePath : string) : M (list string) :=
  match fs filePath with
  | Some lines => ret lines
  | None => throw ENOENT
  end.

Definition getTotalLines (filePath : string) : M Z :=
  lines <- readFileLines filePath ;;
  ret (Z.of_nat (length lines)).

Definition getLines (filePath : string) (startLine count : Z)
    : M (list ScreenLine) :=
  lines <- readFileLines filePath ;;
  ret (getLines_loop lines 1 startLine count).

(** The window at the cursor, read with the state's own fields. *)
Definition getLines_at_cursor (filename : string) : M (list ScreenLine) :=
  cur <- get currentLine ;;
  h <- get screenHeight ;;
  getLines filename cur h.

(** *** go_to_line *)

Definition go_to_line (filename : string) (line : Z)
    (screen_height : option Z) : M string :=
  totalLines <- getTotalLines filename ;;
  match screen_height with
  | Some h => if h =? 0 then ret tt else modify (set_screenHeight h)
  | None => ret tt
  end ;;;
  modify (set_currentLine (Z.max 1 (Z.min line totalLines))) ;;;
  lines <- getLines_at_cursor filename ;;
  ret (formatScreen lines totalLines).

(** *** find *)

(** The body of the scan loop, run over the lines still to be read.  The
    locals of the loop are the regex object [r], [lineNum] and
    [firstMatchAfterCursor]; the match list and the match index live in
    the state object.  The result is [firstMatchAfterCursor] at loop
    exit. *)
Fixpoint find_scan (rest : list string) (r : RegExp) (lineNum : Z)
    (firstMatchAfterCursor : option Match) : M (option Match) :=
  match rest with
  | [] => ret firstMatchAfterCursor
  | l :: rest' =>
      let (hit, r') := test r l in
      if hit then
        let m := mkMatch lineNum l in
        modify (fun st => set_searchMatches (searchMatches st ++ [m]) st) ;;;
        cur <- get currentLine ;;
        first <-
          (if is_null firstMatchAfterCursor && (cur <=? lineNum)
           then
             modify (fun st => set_currentMatchIndex
                        (Z.of_nat (length (searchMatches st)) - 1) st) ;;;
             ret (Some m)
           else ret firstMatchAfterCursor) ;;
        len <- get (fun st => Z.of_nat (length (searchMatches st))) ;;
        if MAX_SEARCH_RESULTS <=? len then ret first
        else find_scan rest' r' (lineNum + 1) first
      else find_scan rest' r' (lineNum + 1) firstMatchAfterCursor
  end.

(** The construction of [searchRegex].  In regex mode a syntax error is
    caught and thrown again as an invalid-parameter error, whose message
    ends with the text of the runtime's own error, left out here; in
    literal mode the source is escaped first and nothing is caught. *)
Definition compile (pattern : string) (isRegex : bool) : M Matcher :=
  if isRegex then
    match RegExp_new pattern with
    | Some m => ret m
    | None => throw (McpError InvalidParams "Invalid regex pattern")
    end
  else
    match RegExp_new (escapeRegExp pattern) with
    | Some m => ret m
    | None => throw SyntaxError
    end.

Definition found_header (n : nat) : string :=
  "Found match 1 of " +:+ pretty (Z.of_nat n)
  +:+ String Str.newline (String Str.newline "").

Definition not_found (pattern : string) : string :=
  "Pattern not found: " +:+ String Str.dquote pattern
  +:+ String Str.dquote "".

Definition find (filename pattern : string) (isRegex : bool) : M string :=
  modify (set_searchMatches []) ;;;
  modify (set_currentMatchIndex (-1)) ;;;
  m <- compile pattern isRegex ;;
  modify (set_searchPattern (Some pattern)) ;;;
  lines <- readFileLines filename ;;
  first <- find_scan lines (mkRegExp m 0) 1 None ;;
  matches <- get searchMatches ;;
  first <-
    match first, matches with
    | None, m0 :: _ => modify (set_currentMatchIndex 0) ;;; ret (Some m0)
    | _, _ => ret first
    end ;;
  match first with
  | Some landed =>
      modify (set_currentLine (line landed)) ;;;
      lines <- getLines_at_cursor filename ;;
      totalLines <- getTotalLines filename ;;
      n <- get (fun st => length (searchMatches st)) ;;
      ret (found_header n +:+ formatScreen lines totalLines)
  | None => ret (not_found pattern)
  end.

(** *** next_match and prev_match *)

Definition no_active_search : string :=
  "No active search. Use 'find' first.".

Definition match_header (index : Z) (n : nat) : string :=
  "Match " +:+ pretty (index + 1) +:+ " of " +:+ pretty (Z.of_nat n)
  +:+ String Str.newline (String Str.newline "").

(** [state.searchMatches[state.currentMatchIndex]] followed by the read
    of its [line] field, which throws when the element is [undefined]. *)
Definition current_match : M Match :=
  i <- get currentMatchIndex ;;
  matches <- get searchMatches ;;
  match (if i <? 0 then None else matches !! Z.to_nat i) with
  | Some m => ret m
  | None => throw TypeError
  end.

(** The part shared by the two handlers once the index is set. *)
Definition show_match (filename : string) : M string :=
  m <- current_match ;;
  modify (set_currentLine (line m)) ;;;
  lines <- getLines_at_cursor filename ;;
  totalLines <- getTotalLines filename ;;
  i <- get currentMatchIndex ;;
  n <- get (fun st => length (searchMatches st)) ;;
  ret (match_header i n +:+ formatScreen lines totalLines).

Definition next_match (filename : string) : M string :=
  n <- get (fun st => Z.of_nat (length (searchMatches st))) ;;
  if n =? 0 then ret no_active_search
  else
    modify (fun st =>
      set_currentMatchIndex (Z.rem (currentMatchIndex st + 1) n) st) ;;;
    show_match filename.

Definition prev_match (filename : string) : M string :=
  n <- get (fun st => Z.of_nat (length (searchMatches st))) ;;
  if n =? 0 then ret no_active_search
  else
    modify (fun st => set_currentMatchIndex (currentMatchIndex st - 1) st) ;;;
    i <- get currentMatchIndex ;;
    (if i <? 0 then modify (set_currentMatchIndex (n - 1)) else ret tt) ;;;
    show_match filename.

(** *** page_up and page_down

    The sum and the difference are those of the integers: they are what
    the code computes as long as the cursor, the page size and the number
    of lines have magnitude at most 2^53.  The page size is the one stored
    by [go_to_line], of either sign; [page_down] has no lower bound, as in
    the source. *)

Definition page_up (filename : string) : M string :=
  modify (fun st =>
    set_currentLine (Z.max 1 (currentLine st - screenHeight st)) st) ;;;
  lines <- getLines_at_cursor filename ;;
  totalLines <- getTotalLines filename ;;
  ret (formatScreen lines totalLines).

Definition page_down (filename : string) : M string :=
  totalLines <- getTotalLines filename ;;
  modify (fun st =>
    set_currentLine (Z.min totalLines (currentLine st + screenHeight st)) st) ;;;
  lines <- getLines_at_cursor filename ;;
  ret (formatScreen lines totalLines).

(** *** The request handler *)

Inductive Tool : Type :=
| GoToLine (line : Z) (screen_height : option Z)
| Find (pattern : string) (is_regex : bool)
| NextMatch
| PrevMatch
| PageUp
| PageDown
| Unknown (name : string).

(** The body of a [case] once [state] is bound. *)
Definition run_tool (filename : string) (tool : Tool) : M string :=
  match tool with
  | GoToLine l h => go_to_line filename l h
  | Find p r => find filename p r
  | NextMatch => next_match filename
  | PrevMatch => prev_match filename
  | PageUp => page_up filename
  | PageDown => page_down filename
  | Unknown name =>
      throw (McpError MethodNotFound ("Unknown tool: " +:+ name))
  end.

(** The [catch] clause: a missing file becomes an invalid-parameter
    error, anything else is thrown again. *)
Definition rethrow (filename : string) (e : Failure) : Failure :=
  match e with
  | ENOENT => McpError InvalidParams ("File not found: " +:+ filename)
  | _ => e
  end.

(** A tool request against the table of states.  The access check is
    skipped for an empty file name, as [if (filename)] does.  The check
    fails on a path under which no file exists, with [ENOENT], which the
    [catch] turns into [File not found]; the other failures of [fs.access]
    are outside the file-system model. *)
Definition callTool (tool : Tool) (filename : string)
    (states : gmap string FileNavigatorState)
    : (Failure + string) * gmap string FileNavigatorState :=
  if negb (String.eqb filename "") && negb (bool_decide (is_Some (fs filename)))
  then (inl (rethrow filename ENOENT), states)
  else
    match tool with
    | Unknown name =>
        (inl (McpError MethodNotFound ("Unknown tool: " +:+ name)), states)
    | _ =>
        let (st, states1) := getNavigatorState filename states in
        match run_tool filename tool st with
        | (inl e, st') => (inl (rethrow filename e), <[filename := st']> states1)
        | (inr text, st') => (inr text, <[filename := st']> states1)
        end
    end.

End Handler.

Arguments callTool fs {engine} tool filename states.
Arguments find fs {engine} filename pattern isRegex.
Arguments run_tool fs {engine} filename tool.
Arguments compile {engine} pattern isRegex.

(** ** Notions used in the statements *)

(** The state object a handler works on for [filename]. *)
Definition state_of (filename : string)
    (states : gmap string FileNavigatorState) : FileNavigatorState :=
  (getNavigatorState filename states).1.

(** [filename] is the path of a file that exists and can be read: the
    file system has lines for it. *)
Definition accessible (fs : string -> option (list string))
    (filename : string) : Prop :=
  is_Some (fs filename).

(** The pattern of a compiled matcher occurs in [s]. *)
Definition occurs (m : Matcher) (s : string) : Prop :=
  exists i e, (i <= String.length s)%nat /\ m s i = Some e.

(** [l] contains [p] up to letter case: some substring of [l] has the
    case folding of [p]. *)
Definition contains_ci (p l : string) : Prop :=
  exists pre q post,
    l = pre +:+ q +:+ post /\ Str.fold_case q = Str.fold_case p.


(** The same as a test. *)
Fixpoint includes_ci (p l : string) : bool :=
  Str.prefix_ci p l ||
  match l with
  | EmptyString => false
  | String _ l' => includes_ci p l'
  end.

(** The index the landing rule selects: the first match at or after the
    cursor, index 0 when there is none. *)
Definition landing (cursor : Z) (matches : list Match) : nat :=
  match list_find (fun m => cursor <= line m) matches with
  | Some (i, _) => i
  | None => 0%nat
  end.

(** The three conditions of the state invariant for a file of
    [totalLines] lines. *)
Definition cursor_in_range (totalLines : Z) (st : FileNavigatorState) : Prop :=
  if totalLines =? 0 then currentLine st = 1
  else 1 <= currentLine st <= totalLines.

Definition index_valid (st : FileNavigatorState) : Prop :=
  searchMatches st <> [] ->
  0 <= currentMatchIndex st < Z.of_nat (length (searchMatches st)).

Definition within_cap (st : FileNavigatorState) : Prop :=
  Z.of_nat (length (searchMatches st)) <= MAX_SEARCH_RESULTS.

(** ** Sample inputs *)

(** A file system with the one file ["f"]. *)
Definition one_file (lines : list string) : string -> option (list string) :=
  fun path => if String.eqb path "f" then Some lines else None.

(** Seven lines, two of which contain [foo]. *)
Definition seven_lines : list string :=
  ["x"; "y"; "foo"; "z"; "z"; "z"; "a foo"].


(** A state of that file with a search in progress. *)
Definition searching : FileNavigatorState :=
  mkState (Some "f") 3 30 (Some "foo") [mkMatch 3 "foo"; mkMatch 7 "a foo"] 0.

(** The state after the two assignments of [go_to_line]. *)
Definition moved_to (totalLines line : Z) (screen_height : option Z)
    (st : FileNavigatorState) : FileNavigatorState :=
  set_currentLine (Z.max 1 (Z.min line totalLines))
    (match screen_height with
     | Some h => if h =? 0 then st else set_screenHeight h st
     | None => st
     end).

(** The window shown for a state of a file. *)
Definition window (lines : list string) (st : FileNavigatorState)
    : list ScreenLine :=
  getLines_loop lines 1 (currentLine st) (screenHeight st).

(** The state after the two resets at the start of [find]. *)
Definition search_cleared (st : FileNavigatorState) : FileNavigatorState :=
  set_currentMatchIndex (-1) (set_searchMatches [] st).

(** The scan loop of [find] as a function of what it reads and writes:
    the cursor, [firstMatchAfterCursor], the match list and the match
    index.  [find_scan_scan] below shows that the loop computes it. *)
Fixpoint scan (rest : list string) (r : RegExp) (lineNum cursor : Z)
    (first : option Match) (matches : list Match) (index : Z)
    : option Match * list Match * Z :=
  match rest with
  | [] => (first, matches, index)
  | l :: rest' =>
      if (test r l).1 then
        let m := mkMatch lineNum l in
        let matches' := matches ++ [m] in
        let take := is_null first && (cursor <=? lineNum) in
        let first' := if take then Some m else first in
        let index' :=
          if take then Z.of_nat (length matches') - 1 else index in
        if MAX_SEARCH_RESULTS <=? Z.of_nat (length matches')
        then (first', matches', index')
        else scan rest' (test r l).2 (lineNum + 1) cursor first' matches' index'
      else scan rest' (test r l).2 (lineNum + 1) cursor first matches index
  end.

(** The end of [find] once the landed match is known: the cursor moves
    to it and the screen is rendered. *)
Definition land (lines : list string) (landed : Match)
    (st : FileNavigatorState) : (Failure + string) * FileNavigatorState :=
  let st' := set_currentLine (line landed) st in
  (inr (found_header (length (searchMatches st'))
        +:+ formatScreen (window lines st') (Z.of_nat (length lines))), st').

(** The state in which [find] leaves the scan loop. *)
Definition scanned (pattern : string) (matches : list Match) (index : Z)
    (st : FileNavigatorState) : FileNavigatorState :=
  mkState (currentFile st) (currentLine st) (screenHeight st) (Some pattern)
          matches index.

(** The outcome of [find] from the result of the scan. *)
Definition find_outcome (lines : list string) (pattern : string)
    (m : Matcher) (st : FileNavigatorState)
    : (Failure + string) * FileNavigatorState :=
  let '(first, matches, index) :=
    scan lines (mkRegExp m 0) 1 (currentLine st) None [] (-1) in
  let st1 := scanned pattern matches index st in
  match first, matches with
  | Some landed, _ => land lines landed st1
  | None, m0 :: _ => land lines m0 (set_currentMatchIndex 0 st1)
  | None, [] => (inr (not_found pattern), st1)
  end.

(** The relation that the loop keeps between [firstMatchAfterCursor], the
    match list and the match index. *)
Definition landing_inv (cursor : Z) (first : option Match)
    (matches : list Match) (index : Z) : Prop :=
  match first with
  | None => list_find (fun m => cursor <= line m) matches = None
  | Some m =>
      exists i : nat,
        index = Z.of_nat i
        /\ list_find (fun m => cursor <= line m) matches = Some (i, m)
  end.

(** The state with the match index at [i] and the cursor on that match. *)
Definition at_index (i : Z) (st : FileNavigatorState) : FileNavigatorState :=
  match searchMatches st !! Z.to_nat i with
  | Some m => set_currentLine (line m) (set_currentMatchIndex i st)
  | None => set_currentMatchIndex i st
  end.

(** The invariant of a state of a file of [totalLines] lines, with what
    makes it inductive: a page size of at least 1 and match lines that are
    lines of the file. *)
Definition state_ok (totalLines : Z) (st : FileNavigatorState) : Prop :=
  1 <= currentLine st <= totalLines
  /\ 1 <= screenHeight st
  /\ index_valid st
  /\ within_cap st
  /\ Forall (fun m => 1 <= line m <= totalLines) (searchMatches st).

(** A request whose page size, when given, is not negative. *)
Definition height_ok (tool : Tool) : Prop :=
  match tool with
  | GoToLine _ (Some h) => 0 <= h
  | _ => True
  end.

(** ** The line stream

    [readFileLines] over the text of a file.  The read stream delivers the
    text in chunks; the generator keeps the unfinished last piece in
    [buffer] and yields the finished ones. *)

(** [s.split('\n')]: the pieces of [s] between newlines, at least one. *)
Fixpoint split_newline (s : string) : list string :=
  match s with
  | EmptyString => [EmptyString]
  | String c s' =>
      if Ascii.eqb c Str.newline then EmptyString :: split_newline s'
      else
        match split_newline s' with
        | piece :: pieces => String c piece :: pieces
        | [] => [String c EmptyString]
        end
  end.

(** The lines yielded over the chunks still to come, from [buffer]:
    for each chunk the pieces of [buffer + chunk] but the last, which
    [lines.pop() || ''] makes the new buffer; at the end of the stream the
    buffer itself when it is not empty. *)
Fixpoint readFileLines_chunks (chunks : list string) (buffer : string)
    : list string :=
  match chunks with
  | [] =>
      match buffer with
      | EmptyString => []
      | String _ _ => [buffer]
      end
  | chunk :: rest =>
      let lines := split_newline (buffer +:+ chunk) in
      removelast lines ++ readFileLines_chunks rest (default "" (last lines))
  end.

(** The lines of a text delivered as one chunk. *)
Definition lines_of_text (text : string) : list string :=
  readFileLines_chunks [text] "".

(** The text has no newline. *)
Fixpoint newline_free (s : string) : bool :=
  match s with
  | EmptyString => true
  | String c s' => negb (Ascii.eqb c Str.newline) && newline_free s'
  end.

(** The text ends with the end-of-file banner of a file of [totalLines]
    lines. *)
Definition ends_with_banner (text : string) (totalLines : Z) : Prop :=
  exists before, text = before +:+ eof_banner totalLines.

(** ** Sequences of requests *)

(** A request as the dispatcher receives it: the file system as it is at
    that time, the tool and the file name. *)
Definition Request : Type :=
  (string -> option (list string)) * Tool * string.

(** The requests handled one after the other: the responses, and the
    table of states at the end. *)
Fixpoint run_requests {engine : RegExpEngine} (requests : list Request)
    (states : gmap string FileNavigatorState)
    : list (Failure + string) * gmap string FileNavigatorState :=
  match requests with
  | [] => ([], states)
  | (fs, tool, filename) :: rest =>
      let r := callTool fs tool filename states in
      let rs := run_requests rest r.2 in
      (r.1 :: rs.1, rs.2)
  end.

(** A handler outcome that keeps the match index valid and is neither of
    the two errors that no handler throws on purpose. *)
Definition safe_outcome (r : (Failure + string) * FileNavigatorState) : Prop :=
  index_valid r.2 /\ r.1 <> inl TypeError /\ r.1 <> inl SyntaxError.

(** ** The tools by name *)

(** The arguments of a request with the types that the tool list declares
    for them: [filename], [line], [screen_height], [pattern] and
    [is_regex], the optional ones possibly absent. *)
Record Args : Type := mkArgs {
  arg_filename : string;
  arg_line : Z;
  arg_screen_height : option Z;
  arg_pattern : string;
  arg_is_regex : option bool
}.

(** The tool list that the server answers to a listing request: each
    name with its required arguments. *)
Definition listed_tools : list (string * list string) :=
  [("go_to_line", ["filename"; "line"]);
   ("find", ["filename"; "pattern"]);
   ("next_match", ["filename"]);
   ("prev_match", ["filename"]);
   ("page_up", ["filename"]);
   ("page_down", ["filename"])].

(** The [switch (name)] of the handler with the reads of [args] that each
    case starts with; an absent [is_regex] counts as false. *)
Definition dispatch (name : string) (args : Args) : Tool :=
  if String.eqb name "go_to_line"
  then GoToLine (arg_line args) (arg_screen_height args)
  else if String.eqb name "find"
  then Find (arg_pattern args) (default false (arg_is_regex args))
  else if String.eqb name "next_match" then NextMatch
  else if String.eqb name "prev_match" then PrevMatch
  else if String.eqb name "page_up" then PageUp
  else if String.eqb name "page_down" then PageDown
  else Unknown name.

(** The handler of a tool call, from the name and the arguments. *)
Definition handleCall {engine : RegExpEngine}
    (fs : string -> option (list string)) (name : string) (args : Args)
    (states : gmap string FileNavigatorState)
    : (Failure + string) * gmap string FileNavigatorState :=
  callTool fs (dispatch name args) (arg_filename args) states.

(** * Properties *)

(** ** The handlers on a readable file *)

Section Readable.

Variable fs : string -> option (list string).
Context {engine : RegExpEngine}.
Variable filename : string.
Variable lines : list string.
Hypothesis Hfile : fs filename = Some lines.

Lemma readFileLines_readable st :
  readFileLines fs filename st = (inr lines, st).
Proof. unfold readFileLines. rewrite Hfile. reflexivity. Qed.

Lemma getTotalLines_readable st :
  getTotalLines fs filename st = (inr (Z.of_nat (length lines)), st).
Proof.
  unfold getTotalLines, bind. rewrite readFileLines_readable. reflexivity.
Qed.

Lemma getLines_at_cursor_readable st :
  getLines_at_cursor fs filename st = (inr (window lines st), st).
Proof.
  unfold getLines_at_cursor, getLines, bind, get.
  rewrite readFileLines_readable. reflexivity.
Qed.

Lemma go_to_line_readable l h st :
  go_to_line fs filename l h st =
  let st' := moved_to (Z.of_nat (length lines)) l h st in
  (inr (formatScreen (window lines st') (Z.of_nat (length lines))), st').
Proof.
  unfold go_to_line, bind. rewrite getTotalLines_readable.
  unfold moved_to.
  destruct h as [h|]; [destruct (h =? 0)|];
    cbn [ret modify]; rewrite getLines_at_cursor_readable; reflexivity.
Qed.

Lemma page_up_readable st :
  page_up fs filename st =
  let st' := set_currentLine (Z.max 1 (currentLine st - screenHeight st)) st in
  (inr (formatScreen (window lines st') (Z.of_nat (length lines))), st').
Proof.
  unfold page_up, bind, modify.
  rewrite getLines_at_cursor_readable, getTotalLines_readable. reflexivity.
Qed.

Lemma page_down_readable st :
  page_down fs filename st =
  let st' := set_currentLine
               (Z.min (Z.of_nat (length lines))
                      (currentLine st + screenHeight st)) st in
  (inr (formatScreen (window lines st') (Z.of_nat (length lines))), st').
Proof.
  unfold page_down, bind, modify. rewrite getTotalLines_readable.
  rewrite getLines_at_cursor_readable. reflexivity.
Qed.

Lemma callTool_readable tool states :
  (forall name, tool <> Unknown name) ->
  callTool fs tool filename states =
  let (st, states1) := getNavigatorState filename states in
  match run_tool fs filename tool st with
  | (inl e, st') => (inl (rethrow filename e), <[filename := st']> states1)
  | (inr text, st') => (inr text, <[filename := st']> states1)
  end.
Proof.
  intros Hknown. unfold callTool. rewrite Hfile.
  rewrite bool_decide_eq_true_2 by (eexists; reflexivity).
  rewrite andb_false_r.
  destruct tool; try reflexivity. exfalso. eapply Hknown. reflexivity.
Qed.

End Readable.

(** ** The table of states *)

Lemma getNavigatorState_table filename states :
  (getNavigatorState filename states).2
  = <[filename := state_of filename states]> states.
Proof.
  unfold state_of, getNavigatorState.
  destruct (states !! filename) as [st|] eqn:Hst; cbn.
  - symmetry. apply insert_id. exact Hst.
  - reflexivity.
Qed.

Lemma getNavigatorState_pair filename states :
  getNavigatorState filename states
  = (state_of filename states, <[filename := state_of filename states]> states).
Proof.
  rewrite <- getNavigatorState_table. unfold state_of.
  destruct (getNavigatorState filename states); reflexivity.
Qed.

Lemma state_of_insert filename st states :
  state_of filename (<[filename := st]> states) = st.
Proof.
  unfold state_of, getNavigatorState. rewrite lookup_insert_eq. reflexivity.
Qed.

Lemma state_of_present filename st states :
  states !! filename = Some st -> state_of filename states = st.
Proof.
  intros H. unfold state_of, getNavigatorState. rewrite H. reflexivity.
Qed.

(** A request on a readable file, as one step on the table. *)
Lemma callTool_step fs {engine : RegExpEngine} filename lines tool states :
  fs filename = Some lines ->
  (forall name, tool <> Unknown name) ->
  callTool fs tool filename states =
  let r := run_tool fs filename tool (state_of filename states) in
  (match r.1 with inl e => inl (rethrow filename e) | inr text => inr text end,
   <[filename := r.2]> states).
Proof.
  intros Hfile Hknown.
  rewrite (callTool_readable fs filename lines Hfile) by exact Hknown.
  rewrite getNavigatorState_pair. cbv zeta.
  destruct (run_tool fs filename tool (state_of filename states))
    as [[e|text] st']; cbn [fst snd]; rewrite insert_insert_eq; reflexivity.
Qed.

(** C9. A request for the path [p] leaves the entry of every other path
    [q] of the table as it was: absent if it was absent, the same state
    object otherwise. *)
Theorem callTool_other_path_untouched :
  forall (fs : string -> option (list string)) (engine : RegExpEngine)
         (tool : Tool) (p q : string)
         (states : gmap string FileNavigatorState),
    p <> q ->
    (callTool fs tool p states).2 !! q = states !! q.
Proof.
  intros fs engine tool p q states Hpq. unfold callTool.
  destruct (negb (p =? "")%string && negb (bool_decide (is_Some (fs p))));
    [reflexivity|].
  assert (Hget : forall st, <[p := st]> (getNavigatorState p states).2 !! q
                            = states !! q).
  { intros st. rewrite getNavigatorState_table.
    rewrite !lookup_insert_ne by exact Hpq. reflexivity. }
  destruct tool; try reflexivity;
    destruct (getNavigatorState p states) as [st states1];
    match goal with
    | |- context [run_tool ?a ?b ?c ?d] =>
        destruct (run_tool a b c d) as [[e|text] st']
    end; cbn [snd] in *; apply Hget.
Qed.

Lemma callTool_other_path_untouched_witness :
  "f" <> "g" /\
  (callTool (one_file ["a"; "b"]) (engine := literal_engine)
            (Find "b" false) "f" {["g" := searching]}).2 !! "g"
  = ({["g" := searching]} : gmap string FileNavigatorState) !! "g".
Proof.
  split; [discriminate|].
  apply callTool_other_path_untouched. discriminate.
Defined.

(** ** Match cycling without a search *)

Lemma next_match_no_search fs filename st :
  searchMatches st = [] ->
  next_match fs filename st = (inr no_active_search, st).
Proof. intros H. unfold next_match, bind, get. rewrite H. reflexivity. Qed.

Lemma prev_match_no_search fs filename st :
  searchMatches st = [] ->
  prev_match fs filename st = (inr no_active_search, st).
Proof. intros H. unfold prev_match, bind, get. rewrite H. reflexivity. Qed.

(** C8. On an accessible file whose state holds no match (no entry yet, or
    an entry with an empty match list), [next_match] and [prev_match] return
    the text "No active search. Use 'find' first." as a normal result, and
    the state of the file is the same afterwards; the table is as
    [getNavigatorState] leaves it, so it is unchanged when the file had an
    entry. *)
Theorem match_cycling_without_search :
  forall (fs : string -> option (list string)) (engine : RegExpEngine)
         (tool : Tool) (filename : string)
         (states : gmap string FileNavigatorState),
    accessible fs filename ->
    tool = NextMatch \/ tool = PrevMatch ->
    searchMatches (state_of filename states) = [] ->
    let r := callTool fs tool filename states in
    r.1 = inr no_active_search
    /\ r.2 = (getNavigatorState filename states).2
    /\ state_of filename r.2 = state_of filename states
    /\ (is_Some (states !! filename) -> r.2 = states).
Proof.
  intros fs engine tool filename states [lines Hfile] Htool Hempty r.
  assert (Hr : r = (inr no_active_search,
                    <[filename := state_of filename states]> states)).
  { subst r.
    destruct Htool as [-> | ->];
      rewrite (callTool_step fs filename lines) by (exact Hfile || discriminate);
      cbn [run_tool];
      rewrite ?next_match_no_search, ?prev_match_no_search by exact Hempty;
      reflexivity. }
  rewrite Hr. cbn [fst snd]. repeat split.
  - symmetry. apply getNavigatorState_table.
  - apply state_of_insert.
  - intros [st Hst]. apply insert_id.
    rewrite Hst. f_equal. symmetry. apply state_of_present. exact Hst.
Qed.

Lemma match_cycling_without_search_witness :
  let r := callTool (one_file ["a"]) (engine := literal_engine)
                    PrevMatch "f" ∅ in
  r.1 = inr no_active_search
  /\ r.2 = (getNavigatorState "f" ∅).2
  /\ state_of "f" r.2 = state_of "f" ∅
  /\ (is_Some ((∅ : gmap string FileNavigatorState) !! "f") -> r.2 = ∅).
Proof.
  apply match_cycling_without_search.
  - exists ["a"]. reflexivity.
  - right. reflexivity.
  - reflexivity.
Defined.

(** ** A pattern that does not compile *)

Lemma find_compile_failure fs {engine : RegExpEngine} filename pattern st :
  RegExp_new pattern = None ->
  find fs filename pattern true st
  = (inl (McpError InvalidParams "Invalid regex pattern"), search_cleared st).
Proof.
  intros Hbad. unfold find, bind, modify, compile. rewrite Hbad. reflexivity.
Qed.

(** C6, as amended. When the pattern of a regex-mode [find] does not
    compile, the request fails with the invalid-parameter error whatever
    the file contains (no line is read); the cursor line, the page size and
    the stored pattern of the file's state stay as they were, while the
    stored match list is emptied and the match index is set to -1. *)
Theorem find_invalid_regex_state :
  forall (fs : string -> option (list string)) (engine : RegExpEngine)
         (filename pattern : string)
         (states : gmap string FileNavigatorState),
    accessible fs filename ->
    RegExp_new pattern = None ->
    let st := state_of filename states in
    let r := callTool fs (Find pattern true) filename states in
    r = (inl (McpError InvalidParams "Invalid regex pattern"),
         <[filename := search_cleared st]> states)
    /\ (forall fs', accessible fs' filename ->
          callTool fs' (Find pattern true) filename states = r)
    /\ currentLine (state_of filename r.2) = currentLine st
    /\ screenHeight (state_of filename r.2) = screenHeight st
    /\ searchPattern (state_of filename r.2) = searchPattern st
    /\ searchMatches (state_of filename r.2) = []
    /\ currentMatchIndex (state_of filename r.2) = -1.
Proof.
  intros fs engine filename pattern states Hacc Hbad st r.
  assert (Hall : forall fs', accessible fs' filename ->
            callTool fs' (Find pattern true) filename states
            = (inl (McpError InvalidParams "Invalid regex pattern"),
               <[filename := search_cleared st]> states)).
  { intros fs' [lines Hfile].
    rewrite (callTool_step fs' filename lines) by (exact Hfile || discriminate).
    cbn [run_tool]. rewrite find_compile_failure by exact Hbad. reflexivity. }
  assert (Hr : r = (inl (McpError InvalidParams "Invalid regex pattern"),
                    <[filename := search_cleared st]> states))
    by (apply Hall; exact Hacc).
  split; [exact Hr|]. split; [intros fs' H'; rewrite Hr; apply Hall, H'|].
  rewrite Hr. cbn [snd]. rewrite state_of_insert. repeat split.
Qed.

Lemma find_invalid_regex_state_witness :
  let st := state_of "f" {["f" := searching]} in
  let r := callTool (one_file seven_lines) (engine := literal_engine)
                    (Find "(" true) "f" {["f" := searching]} in
  r = (inl (McpError InvalidParams "Invalid regex pattern"),
       <["f" := search_cleared st]> {["f" := searching]})
  /\ (forall fs', accessible fs' "f" ->
        callTool fs' (engine := literal_engine) (Find "(" true) "f"
                 {["f" := searching]} = r)
  /\ currentLine (state_of "f" r.2) = currentLine st
  /\ screenHeight (state_of "f" r.2) = screenHeight st
  /\ searchPattern (state_of "f" r.2) = searchPattern st
  /\ searchMatches (state_of "f" r.2) = []
  /\ currentMatchIndex (state_of "f" r.2) = -1.
Proof.
  apply (find_invalid_regex_state (one_file seven_lines) literal_engine "f" "(").
  - exists seven_lines. reflexivity.
  - reflexivity.
Defined.

(** C6, as stated, fails: the pattern made of an opening parenthesis does
    not compile, the request is answered by the invalid-parameter error, and
    the two matches that the state held before the request are gone after
    it. *)
Lemma find_invalid_regex_clears_matches :
  let states : gmap string FileNavigatorState := {["f" := searching]} in
  let r := callTool (one_file seven_lines) (engine := literal_engine)
                    (Find "(" true) "f" states in
  RegExp_new (RegExpEngine := literal_engine) "(" = None
  /\ r.1 = inl (McpError InvalidParams "Invalid regex pattern")
  /\ searchMatches (state_of "f" states) = [mkMatch 3 "foo"; mkMatch 7 "a foo"]
  /\ currentMatchIndex (state_of "f" states) = 0
  /\ searchMatches (state_of "f" r.2) = []
  /\ currentMatchIndex (state_of "f" r.2) = -1
  /\ state_of "f" r.2 <> state_of "f" states.
Proof.
  vm_compute. repeat split; discriminate.
Qed.

(** ** go_to_line *)

Lemma moved_to_idempotent total l h st :
  moved_to total l h (moved_to total l h st) = moved_to total l h st.
Proof.
  unfold moved_to. destruct h as [h|]; [destruct (h =? 0)|]; reflexivity.
Qed.

Lemma currentLine_moved_to total l h st :
  currentLine (moved_to total l h st) = Z.max 1 (Z.min l total).
Proof. reflexivity. Qed.

(** C4. On a readable file of [totalLines] lines, [go_to_line] with line
    [L] leaves the cursor at [max 1 (min L totalLines)]: at [L] when [L] is
    a line of the file, at 1 below the file, at [totalLines] beyond it, and
    at 1 when the file is empty.  The same request made a second time
    returns the same text and leaves the same table, hence the same
    cursor. *)
Theorem go_to_line_clamps_idempotent :
  forall (fs : string -> option (list string)) (engine : RegExpEngine)
         (filename : string) (lines : list string)
         (L : Z) (screen_height : option Z)
         (states : gmap string FileNavigatorState),
    fs filename = Some lines ->
    let totalLines := Z.of_nat (length lines) in
    let once := callTool fs (GoToLine L screen_height) filename states in
    let twice := callTool fs (GoToLine L screen_height) filename once.2 in
    let cursor := currentLine (state_of filename once.2) in
    cursor = Z.max 1 (Z.min L totalLines)
    /\ (1 <= totalLines ->
        (L < 1 -> cursor = 1)
        /\ (1 <= L <= totalLines -> cursor = L)
        /\ (totalLines < L -> cursor = totalLines))
    /\ (totalLines = 0 -> cursor = 1)
    /\ twice = once.
Proof.
  intros fs engine filename lines L h states Hfile totalLines once twice cursor.
  assert (Hcall : forall states',
    callTool fs (GoToLine L h) filename states'
    = (inr (formatScreen
              (window lines (moved_to totalLines L h (state_of filename states')))
              totalLines),
       <[filename := moved_to totalLines L h (state_of filename states')]>
         states')).
  { intros states'.
    rewrite (callTool_step fs filename lines) by (exact Hfile || discriminate).
    cbn [run_tool]. rewrite (go_to_line_readable fs filename lines Hfile).
    reflexivity. }
  assert (Hcursor : cursor = Z.max 1 (Z.min L totalLines)).
  { subst cursor once. rewrite Hcall. cbn [snd]. rewrite state_of_insert.
    apply currentLine_moved_to. }
  split; [exact Hcursor|]. split; [|split].
  - intros Htotal. rewrite Hcursor. repeat split; lia.
  - intros Hempty. rewrite Hcursor. lia.
  - subst twice once. rewrite (Hcall states). cbn [snd]. rewrite Hcall.
    rewrite state_of_insert, moved_to_idempotent, insert_insert_eq.
    reflexivity.
Qed.

Lemma go_to_line_clamps_idempotent_witness :
  let once := callTool (one_file seven_lines) (engine := literal_engine)
                       (GoToLine 500000 (Some 10)) "f" ∅ in
  let twice := callTool (one_file seven_lines) (engine := literal_engine)
                        (GoToLine 500000 (Some 10)) "f" once.2 in
  currentLine (state_of "f" once.2) = 7 /\ twice = once.
Proof.
  pose proof (go_to_line_clamps_idempotent (one_file seven_lines)
                literal_engine "f" seven_lines 500000 (Some 10) ∅ eq_refl)
    as (Hcursor & _ & _ & Htwice).
  split; [exact Hcursor | exact Htwice].
Defined.

(** ** The end-of-file rows *)

(** The rows of a window that has reached the end of the file. *)
Lemma formatScreen_at_eof l lines totalLines :
  totalLines <= last_lineNumber (l :: lines) ->
  let width := Nat.max (String.length (pretty totalLines))
                 (String.length (pretty (last_lineNumber (l :: lines)))) in
  formatScreen (l :: lines) totalLines
  = Str.join (String Str.newline "")
      (map (fun x => Str.padStart width (pretty (lineNumber x))
                     +:+ " | " +:+ lineContent x) (l :: lines)
       ++ replicate (30 - length (l :: lines)) (Str.padStart (width + 1) "~")
       ++ [eof_banner totalLines]).
Proof.
  intros Hlast width. unfold formatScreen.
  rewrite (proj2 (Z.leb_le _ _) Hlast). reflexivity.
Qed.

(** C5 fails on the code. The session's page size is 5 and the file has
    one line: the window at line 1 reaches the end of the file, and the
    formatter adds 29 marker rows, filling 30 rows and not 5, before the
    banner. *)
Theorem filler_rows_ignore_page_size :
  forall engine : RegExpEngine,
    let r := callTool (one_file ["x"]) (GoToLine 1 (Some 5)) "f" ∅ in
    screenHeight (state_of "f" r.2) = 5
    /\ r.1 = inr (Str.join (String Str.newline "")
                    (["1 | x"] ++ replicate 29 " ~"
                     ++ ["[END OF FILE - 1 lines total]"])).
Proof.
  intros engine r. subst r.
  rewrite (callTool_step (one_file ["x"]) "f" ["x"]) by (reflexivity || discriminate).
  cbn [run_tool]. rewrite (go_to_line_readable _ "f" ["x"] eq_refl).
  split; vm_compute; reflexivity.
Qed.

(** C3 fails on the code. On an empty file, [page_down] from the initial
    state leaves the cursor at line 0, where the invariant asks for 1. *)
Theorem page_down_empty_file_cursor :
  forall engine : RegExpEngine,
    let r := callTool (one_file []) PageDown "f" ∅ in
    r.1 = inr ("~" +:+ String Str.newline "(empty file)")
    /\ currentLine (state_of "f" r.2) = 0
    /\ ~ cursor_in_range 0 (state_of "f" r.2).
Proof.
  intros engine r. subst r.
  rewrite (callTool_step (one_file []) "f" []) by (reflexivity || discriminate).
  cbn [run_tool]. rewrite (page_down_readable _ "f" [] eq_refl).
  repeat split. vm_compute. discriminate.
Qed.

(** ** The scan loop of find *)

Lemma find_scan_scan rest : forall r lineNum first st,
  find_scan rest r lineNum first st =
  let '(first', matches', index') :=
    scan rest r lineNum (currentLine st) first
         (searchMatches st) (currentMatchIndex st) in
  (inr first', set_currentMatchIndex index' (set_searchMatches matches' st)).
Proof.
  induction rest as [|l rest IH]; intros r lineNum first st.
  - destruct st; reflexivity.
  - cbn [find_scan scan]. destruct (test r l) as [hit r']. cbn [fst snd].
    destruct hit; [|apply IH].
    unfold bind at 1. cbn [modify].
    unfold bind at 1. cbn [get].
    destruct (is_null first && (currentLine st <=? lineNum)) eqn:Htake.
    + cbn [set_searchMatches currentLine searchMatches].
      rewrite Htake. unfold bind at 1. unfold bind at 1. cbn [modify ret].
      unfold bind at 1. cbn [get set_currentMatchIndex searchMatches].
      destruct (MAX_SEARCH_RESULTS <=? _); [reflexivity|].
      rewrite IH. reflexivity.
    + cbn [set_searchMatches currentLine searchMatches].
      rewrite Htake. unfold bind at 1. cbn [ret].
      unfold bind at 1. cbn [get searchMatches].
      destruct (MAX_SEARCH_RESULTS <=? _); [destruct st; reflexivity|].
      rewrite IH. reflexivity.
Qed.

(** ** find on a readable file *)

Lemma compile_literal {engine : RegExpEngine} pattern :
  exists m,
    RegExp_new (escapeRegExp pattern) = Some m
    /\ forall st, compile pattern false st = (inr m, st).
Proof.
  destruct (RegExp_new_escaped pattern) as [m Hm]. exists m.
  split; [exact Hm|]. intros st. unfold compile. rewrite Hm. reflexivity.
Qed.

Lemma compile_regex {engine : RegExpEngine} pattern m st :
  RegExp_new pattern = Some m -> compile pattern true st = (inr m, st).
Proof. intros H. unfold compile. rewrite H. reflexivity. Qed.

(** Whether and to what the pattern of a request compiles. *)
Lemma compile_cases {engine : RegExpEngine} pattern isRegex :
  (isRegex = true /\ RegExp_new pattern = None)
  \/ exists m, forall st, compile pattern isRegex st = (inr m, st).
Proof.
  destruct isRegex.
  - destruct (RegExp_new pattern) as [m|] eqn:Hm.
    + right. exists m. intros st. apply compile_regex, Hm.
    + left. split; reflexivity.
  - right. destruct (compile_literal pattern) as (m & _ & Hm).
    exists m. exact Hm.
Qed.

Lemma find_readable fs {engine : RegExpEngine} filename lines
    pattern isRegex m st :
  fs filename = Some lines ->
  (forall st', compile pattern isRegex st' = (inr m, st')) ->
  find fs filename pattern isRegex st = find_outcome lines pattern m st.
Proof.
  intros Hfile Hm. unfold find, find_outcome.
  unfold bind at 1. cbn [modify].
  unfold bind at 1. cbn [modify].
  unfold bind at 1. rewrite Hm.
  unfold bind at 1. cbn [modify].
  unfold bind at 1. rewrite (readFileLines_readable fs filename lines Hfile).
  unfold bind at 1. rewrite find_scan_scan.
  cbn [set_searchPattern set_currentMatchIndex set_searchMatches
       currentLine searchMatches currentMatchIndex currentFile screenHeight
       searchPattern].
  destruct (scan lines (mkRegExp m 0) 1 (currentLine st) None [] (-1))
    as [[first matches] index].
  unfold bind at 1. cbn [get searchMatches set_currentMatchIndex
                         set_searchMatches].
  assert (Hland : forall landed s,
    (modify (set_currentLine (line landed));;;
     lines0 <- getLines_at_cursor fs filename;;
     totalLines <- getTotalLines fs filename;;
     n <- get (fun st0 => length (searchMatches st0));;
     ret (found_header n +:+ formatScreen lines0 totalLines)) s
    = land lines landed s).
  { intros landed s. unfold land. unfold bind at 1. cbn [modify].
    unfold bind at 1.
    rewrite (getLines_at_cursor_readable fs filename lines Hfile).
    unfold bind at 1.
    rewrite (getTotalLines_readable fs filename lines Hfile).
    reflexivity. }
  destruct first as [landed|].
  - unfold bind at 1. cbn [ret]. apply Hland.
  - destruct matches as [|m0 matches].
    + reflexivity.
    + unfold bind at 1. unfold bind at 1. cbn [modify ret]. apply Hland.
Qed.

(** ** The regex object *)

Lemma exec_scan_Some m s n : forall i e,
  exec_scan m s i n = Some e ->
  exists j, (i <= j < i + n)%nat /\ m s j = Some e.
Proof.
  induction n as [|n IH]; intros i e H; [discriminate|].
  cbn [exec_scan] in H. destruct (m s i) as [e'|] eqn:Hi.
  - exists i. split; [lia|]. congruence.
  - destruct (IH _ _ H) as (j & Hj & Hm). exists j. split; [lia|exact Hm].
Qed.

Lemma exec_scan_None m s n : forall i,
  exec_scan m s i n = None ->
  forall j, (i <= j < i + n)%nat -> m s j = None.
Proof.
  induction n as [|n IH]; intros i H j Hj; [lia|].
  cbn [exec_scan] in H. destruct (m s i) as [e'|] eqn:Hi; [discriminate|].
  destruct (decide (j = i)) as [->|Hne]; [exact Hi|].
  apply (IH (S i) H). lia.
Qed.

Lemma test_matcher r s : matcher (test r s).2 = matcher r.
Proof.
  unfold test. destruct (_ <? _)%nat; [reflexivity|].
  destruct (exec_scan _ _ _ _); reflexivity.
Qed.

(** A successful [test] has found an occurrence. *)
Lemma test_true_occurs r s : (test r s).1 = true -> occurs (matcher r) s.
Proof.
  unfold test. destruct (String.length s <? lastIndex r)%nat eqn:Hlen;
    [discriminate|].
  apply Nat.ltb_ge in Hlen.
  destruct (exec_scan _ _ _ _) as [e|] eqn:Hscan; [|discriminate].
  intros _. apply exec_scan_Some in Hscan as (j & Hj & Hm).
  exists j, e. split; [lia|exact Hm].
Qed.

(** A failed [test] leaves [lastIndex] at 0. *)
Lemma test_false_lastIndex r s :
  (test r s).1 = false -> lastIndex (test r s).2 = 0%nat.
Proof.
  unfold test. destruct (_ <? _)%nat; [reflexivity|].
  destruct (exec_scan _ _ _ _); [discriminate|reflexivity].
Qed.

(** From [lastIndex] 0, [test] finds every occurrence. *)
Lemma test_fresh_occurs r s :
  lastIndex r = 0%nat -> occurs (matcher r) s -> (test r s).1 = true.
Proof.
  intros Hfresh (i & e & Hi & Hm). unfold test. rewrite Hfresh.
  cbn [Nat.ltb Nat.leb]. rewrite Nat.sub_0_r.
  destruct (exec_scan _ _ _ _) as [e'|] eqn:Hscan; [reflexivity|].
  rewrite (exec_scan_None _ _ _ _ Hscan i) in Hm by lia. discriminate.
Qed.

(** ** What the scan collects *)

Lemma scan_landing_inv rest : forall r lineNum cursor first matches index,
  landing_inv cursor first matches index ->
  let '(first', matches', index') :=
    scan rest r lineNum cursor first matches index in
  landing_inv cursor first' matches' index'.
Proof.
  induction rest as [|l rest IH]; intros r lineNum cursor first matches index Hinv;
    [exact Hinv|].
  cbn [scan]. destruct (test r l).1; [|apply IH, Hinv].
  set (m := mkMatch lineNum l).
  assert (Hnext : landing_inv cursor
            (if is_null first && (cursor <=? lineNum) then Some m else first)
            (matches ++ [m])
            (if is_null first && (cursor <=? lineNum)
             then Z.of_nat (length (matches ++ [m])) - 1 else index)).
  { destruct first as [m1|]; cbn [is_null andb].
    - destruct Hinv as (i & Hi & Hfind). exists i. split; [exact Hi|].
      apply list_find_app_l, Hfind.
    - cbn [landing_inv] in Hinv.
      destruct (cursor <=? lineNum) eqn:Hcur.
      + apply Z.leb_le in Hcur. exists (length matches). split.
        * rewrite length_app. cbn [length]. lia.
        * rewrite list_find_app_r by exact Hinv. cbn.
          rewrite decide_True by exact Hcur. cbn. reflexivity.
      + apply Z.leb_gt in Hcur. cbn [landing_inv].
        apply list_find_app_None. split; [exact Hinv|].
        cbn. rewrite decide_False by (cbn; lia). reflexivity. }
  destruct (MAX_SEARCH_RESULTS <=? _); [exact Hnext|].
  apply IH, Hnext.
Qed.

Lemma scan_within_cap rest : forall r lineNum cursor first matches index,
  Z.of_nat (length matches) < MAX_SEARCH_RESULTS ->
  Z.of_nat (length (scan rest r lineNum cursor first matches index).1.2)
  <= MAX_SEARCH_RESULTS.
Proof.
  induction rest as [|l rest IH]; intros r lineNum cursor first matches index Hlen;
    cbn [scan]; [cbn; lia|].
  destruct (test r l).1; [|apply IH, Hlen].
  destruct (MAX_SEARCH_RESULTS <=? _) eqn:Hcap.
  - cbn [fst snd]. rewrite length_app in *. cbn [length] in *. lia.
  - apply IH. apply Z.leb_gt in Hcap. exact Hcap.
Qed.

(** Every match the scan adds is a line still to be read, recorded under
    its line number and with its text, and the pattern occurs in it; the
    matches come in the order of the file. *)
Lemma scan_collects rest : forall r lineNum cursor first matches index,
  exists new,
    (scan rest r lineNum cursor first matches index).1.2 = matches ++ new
    /\ Forall (fun m => exists k : nat,
                 rest !! k = Some (content m)
                 /\ line m = lineNum + Z.of_nat k
                 /\ occurs (matcher r) (content m)) new
    /\ StronglySorted (fun a b => line a < line b) new.
Proof.
  induction rest as [|l rest IH]; intros r lineNum cursor first matches index.
  - exists []. cbn. rewrite app_nil_r. repeat split; constructor.
  - cbn [scan]. destruct (test r l).1 eqn:Hhit.
    + set (m := mkMatch lineNum l).
      assert (Hm : exists k : nat, (l :: rest) !! k = Some (content m)
                     /\ line m = lineNum + Z.of_nat k
                     /\ occurs (matcher r) (content m)).
      { exists 0%nat. cbn. repeat split; [lia|]. apply test_true_occurs, Hhit. }
      destruct (MAX_SEARCH_RESULTS <=? _).
      * exists [m]. cbn [fst snd]. repeat split.
        -- constructor; [exact Hm|constructor].
        -- repeat constructor.
      * match goal with
        | |- context [scan rest ?r' ?n' cursor ?f' ?ms' ?i'] =>
            destruct (IH r' n' cursor f' ms' i') as (new & Heq & Hall & Hsort)
        end.
        exists (m :: new). rewrite Heq, <- app_assoc. repeat split.
        -- constructor; [exact Hm|].
           eapply Forall_impl; [exact Hall|].
           intros x (k & Hk & Hline & Hocc). exists (S k). cbn.
           rewrite test_matcher in Hocc. repeat split; [exact Hk|lia|exact Hocc].
        -- constructor; [exact Hsort|].
           eapply Forall_impl; [exact Hall|].
           intros x (k & _ & Hline & _). cbn. lia.
    + destruct (IH (test r l).2 (lineNum + 1) cursor first matches index)
        as (new & Heq & Hall & Hsort).
      exists new. split; [exact Heq|]. split; [|exact Hsort].
      eapply Forall_impl; [exact Hall|].
      intros x (k & Hk & Hline & Hocc). exists (S k). cbn.
      rewrite test_matcher in Hocc. repeat split; [exact Hk|lia|exact Hocc].
Qed.

(** Once set, [firstMatchAfterCursor] stays. *)
Lemma scan_first_kept rest : forall r lineNum cursor m matches index,
  (scan rest r lineNum cursor (Some m) matches index).1.1 = Some m.
Proof.
  induction rest as [|l rest IH]; intros r lineNum cursor m matches index;
    cbn [scan]; [reflexivity|].
  destruct (test r l).1; [|apply IH].
  cbn [is_null andb]. destruct (MAX_SEARCH_RESULTS <=? _); [reflexivity|apply IH].
Qed.

(** As long as no match at or after the cursor is met, the match index
    is not written. *)
Lemma scan_index_untouched rest : forall r lineNum cursor first matches index,
  (scan rest r lineNum cursor first matches index).1.1 = None ->
  (scan rest r lineNum cursor first matches index).2 = index.
Proof.
  induction rest as [|l rest IH]; intros r lineNum cursor first matches index;
    cbn [scan]; [reflexivity|].
  destruct (test r l).1; [|apply IH].
  destruct (is_null first && (cursor <=? lineNum)) eqn:Htake.
  - destruct (MAX_SEARCH_RESULTS <=? _); [discriminate|].
    rewrite scan_first_kept. discriminate.
  - destruct (MAX_SEARCH_RESULTS <=? _); [reflexivity|apply IH].
Qed.

(** ** Where find lands *)

(** The state after a [find] whose pattern compiled, in terms of the scan
    from the empty match list. *)
Lemma find_outcome_state lines pattern m st :
  let ms := (scan lines (mkRegExp m 0) 1 (currentLine st) None [] (-1)).1.2 in
  let st' := (find_outcome lines pattern m st).2 in
  searchMatches st' = ms
  /\ searchPattern st' = Some pattern
  /\ currentFile st' = currentFile st
  /\ screenHeight st' = screenHeight st
  /\ (ms = [] -> currentLine st' = currentLine st /\ currentMatchIndex st' = -1)
  /\ (ms <> [] ->
      currentMatchIndex st' = Z.of_nat (landing (currentLine st) ms)
      /\ exists landed,
           ms !! landing (currentLine st) ms = Some landed
           /\ currentLine st' = line landed).
Proof.
  intros ms st'. subst ms st'. unfold find_outcome.
  pose proof (scan_landing_inv lines (mkRegExp m 0) 1 (currentLine st)
                None [] (-1) eq_refl) as Hinv.
  pose proof (scan_index_untouched lines (mkRegExp m 0) 1 (currentLine st)
                None [] (-1)) as Hidx.
  destruct (scan lines (mkRegExp m 0) 1 (currentLine st) None [] (-1))
    as [[first ms] index].
  cbn [fst snd] in *. unfold landing.
  destruct first as [landed|]; cbn [landing_inv] in Hinv.
  - destruct Hinv as (i & -> & Hfind). rewrite Hfind.
    cbn. repeat split.
    + subst ms. discriminate Hfind.
    + subst ms. discriminate Hfind.
    + exists landed. split; [|reflexivity].
      apply list_find_Some in Hfind. apply Hfind.
  - rewrite Hinv. rewrite (Hidx eq_refl).
    destruct ms as [|m0 ms]; cbn; repeat split; try congruence.
    exists m0. split; reflexivity.
Qed.

Lemma callTool_state fs {engine : RegExpEngine} filename lines tool states :
  fs filename = Some lines ->
  (forall name, tool <> Unknown name) ->
  state_of filename (callTool fs tool filename states).2
  = (run_tool fs filename tool (state_of filename states)).2.
Proof.
  intros Hfile Hknown.
  rewrite (callTool_step fs filename lines tool states Hfile Hknown).
  cbn [snd]. apply state_of_insert.
Qed.

(** A [find] that leaves matches has put the index on one of them and the
    cursor on its line. *)
Lemma find_landed fs {engine : RegExpEngine} filename pattern isRegex states :
  accessible fs filename ->
  let st := state_of filename states in
  let st' := state_of filename
               (callTool fs (Find pattern isRegex) filename states).2 in
  searchMatches st' <> [] ->
  currentMatchIndex st'
  = Z.of_nat (landing (currentLine st) (searchMatches st'))
  /\ exists landed,
       searchMatches st' !! landing (currentLine st) (searchMatches st')
       = Some landed
       /\ currentLine st' = line landed.
Proof.
  intros [lines Hfile] st st'.
  assert (Hst' : st' = (find fs filename pattern isRegex st).2).
  { subst st'.
    rewrite (callTool_state fs filename lines) by (exact Hfile || discriminate).
    reflexivity. }
  destruct (compile_cases pattern isRegex) as [[-> Hbad] | [m Hm]].
  { rewrite find_compile_failure in Hst' by exact Hbad. rewrite Hst'.
    intros Habs. contradiction Habs. reflexivity. }
  rewrite (find_readable fs filename lines pattern isRegex m st Hfile Hm) in Hst'.
  pose proof (find_outcome_state lines pattern m st) as Hout.
  cbv zeta in Hout. rewrite <- Hst' in Hout.
  destruct Hout as (Hms & _ & _ & _ & _ & Hland).
  intros Hne. rewrite <- Hms in Hland. exact (Hland Hne).
Qed.

(** C2. For a [find] on an accessible file that leaves a non-empty match
    list: the match index is the index of the first collected match whose
    line is at or after the cursor held before the request, and 0 when no
    collected match is; the cursor is the line of the match at that index;
    the stored pattern is the one of the request, and the match list, the
    index and the cursor after the request are the same from any other
    prior state with that cursor, so nothing of the previous search is
    left. *)
Theorem find_lands_at_or_after_cursor :
  forall (fs : string -> option (list string)) (engine : RegExpEngine)
         (filename pattern : string) (isRegex : bool)
         (states : gmap string FileNavigatorState),
    accessible fs filename ->
    let st := state_of filename states in
    let st' := state_of filename
                 (callTool fs (Find pattern isRegex) filename states).2 in
    searchMatches st' <> [] ->
    let i := landing (currentLine st) (searchMatches st') in
    currentMatchIndex st' = Z.of_nat i
    /\ (exists landed,
          searchMatches st' !! i = Some landed
          /\ currentLine st' = line landed
          /\ ((currentLine st <= line landed
               /\ forall j m, searchMatches st' !! j = Some m ->
                              (j < i)%nat -> line m < currentLine st)
              \/ (i = 0%nat
                  /\ Forall (fun m => line m < currentLine st)
                            (searchMatches st'))))
    /\ searchPattern st' = Some pattern
    /\ (forall states0,
          currentLine (state_of filename states0) = currentLine st ->
          let st0' := state_of filename
                        (callTool fs (Find pattern isRegex) filename states0).2 in
          searchMatches st0' = searchMatches st'
          /\ currentMatchIndex st0' = currentMatchIndex st'
          /\ searchPattern st0' = searchPattern st'
          /\ currentLine st0' = currentLine st').
Proof.
  intros fs engine filename pattern isRegex states [lines Hfile] st st'.
  assert (Hst' : st' = (find fs filename pattern isRegex st).2).
  { subst st'. rewrite (callTool_state fs filename lines) by (exact Hfile || discriminate).
    reflexivity. }
  destruct (compile_cases pattern isRegex) as [[-> Hbad] | [m Hm]].
  { rewrite find_compile_failure in Hst' by exact Hbad. rewrite Hst'.
    intros H. contradiction H. reflexivity. }
  rewrite (find_readable fs filename lines pattern isRegex m st Hfile Hm) in Hst'.
  pose proof (find_outcome_state lines pattern m st) as Hout.
  cbv zeta in Hout. rewrite <- Hst' in Hout.
  destruct Hout as (Hms & Hpat & _ & _ & _ & Hland).
  intros Hne i. rewrite <- Hms in Hland.
  destruct (Hland Hne) as (Hidx & landed & Hlook & Hcur).
  split; [exact Hidx|]. split; [|split; [exact Hpat|]].
  - exists landed. split; [exact Hlook|]. split; [exact Hcur|].
    subst i. unfold landing in *.
    destruct (list_find (fun m0 => currentLine st <= line m0) (searchMatches st'))
      as [[i0 m0]|] eqn:Hfind.
    + left. apply list_find_Some in Hfind as (Hi0 & Hge & Hleast).
      rewrite Hi0 in Hlook. injection Hlook as <-. split; [exact Hge|].
      intros j mj Hj Hlt. specialize (Hleast j mj Hj Hlt). lia.
    + right. split; [reflexivity|].
      apply list_find_None in Hfind.
      eapply Forall_impl; [exact Hfind|]. intros x Hx. cbn in Hx. lia.
  - intros states0 Hsame st0'.
    assert (Hst0' : st0' = (find_outcome lines pattern m
                              (state_of filename states0)).2).
    { subst st0'.
      rewrite (callTool_state fs filename lines) by (exact Hfile || discriminate).
      cbn [run_tool].
      rewrite (find_readable fs filename lines pattern isRegex m _ Hfile Hm).
      reflexivity. }
    pose proof (find_outcome_state lines pattern m (state_of filename states0))
      as Hout0.
    cbv zeta in Hout0. rewrite <- Hst0', Hsame in Hout0.
    destruct Hout0 as (Hms0 & Hpat0 & _ & _ & _ & Hland0).
    assert (Heq : searchMatches st0' = searchMatches st') by congruence.
    rewrite <- Hms0 in Hland0. rewrite Heq in Hland0.
    destruct (Hland0 Hne) as (Hidx0 & landed0 & Hlook0 & Hcur0).
    repeat split; congruence.
Qed.

Lemma find_lands_at_or_after_cursor_witness :
  let states : gmap string FileNavigatorState :=
    {["f" := mkState (Some "f") 5 30 None [] (-1)]} in
  let st' := state_of "f"
               (callTool (one_file seven_lines) (engine := literal_engine)
                         (Find "foo" false) "f" states).2 in
  searchMatches st' = [mkMatch 3 "foo"; mkMatch 7 "a foo"]
  /\ currentMatchIndex st' = 1
  /\ currentLine st' = 7.
Proof.
  intros states st'.
  assert (Hms : searchMatches st' = [mkMatch 3 "foo"; mkMatch 7 "a foo"])
    by (vm_compute; reflexivity).
  split; [exact Hms|].
  destruct (find_lands_at_or_after_cursor (one_file seven_lines) literal_engine
              "f" "foo" false states (ex_intro _ seven_lines eq_refl))
    as (Hidx & (landed & Hlook & Hcur & _) & _).
  - fold st'. rewrite Hms. discriminate.
  - fold st' in Hidx, Hlook, Hcur. rewrite Hms in Hidx, Hlook.
    split; [exact Hidx|]. rewrite Hcur.
    vm_compute in Hlook. injection Hlook as <-. reflexivity.
Defined.

(** ** Cycling through the matches *)

Lemma show_match_readable fs filename lines st m :
  fs filename = Some lines ->
  0 <= currentMatchIndex st ->
  searchMatches st !! Z.to_nat (currentMatchIndex st) = Some m ->
  show_match fs filename st
  = let st' := set_currentLine (line m) st in
    (inr (match_header (currentMatchIndex st) (length (searchMatches st))
          +:+ formatScreen (window lines st') (Z.of_nat (length lines))), st').
Proof.
  intros Hfile Hpos Hm. unfold show_match, current_match.
  unfold bind at 1. unfold bind at 1. cbn [get]. unfold bind at 1. cbn [get].
  rewrite (proj2 (Z.ltb_ge _ _) Hpos), Hm. cbn [ret].
  unfold bind at 1. cbn [modify]. unfold bind at 1.
  rewrite (getLines_at_cursor_readable fs filename lines Hfile).
  unfold bind at 1. rewrite (getTotalLines_readable fs filename lines Hfile).
  reflexivity.
Qed.

Lemma next_match_readable fs filename lines st :
  fs filename = Some lines ->
  searchMatches st <> [] ->
  0 <= currentMatchIndex st < Z.of_nat (length (searchMatches st)) ->
  exists text,
    next_match fs filename st
    = (inr text,
       at_index ((currentMatchIndex st + 1)
                 `mod` Z.of_nat (length (searchMatches st))) st).
Proof.
  intros Hfile Hne Hidx. unfold next_match.
  unfold bind at 1. cbn [get].
  destruct (Z.eqb_spec (Z.of_nat (length (searchMatches st))) 0) as [Hz|Hz].
  { destruct (searchMatches st); [contradiction|discriminate Hz]. }
  unfold bind at 1. cbn [modify].
  rewrite Z.rem_mod_nonneg by lia.
  set (i' := (currentMatchIndex st + 1) `mod` Z.of_nat (length (searchMatches st))).
  assert (Hi' : 0 <= i' < Z.of_nat (length (searchMatches st)))
    by (apply Z.mod_pos_bound; lia).
  destruct (lookup_lt_is_Some_2 (searchMatches st) (Z.to_nat i')) as [m Hm];
    [lia|].
  eexists.
  rewrite (show_match_readable fs filename lines _ m Hfile); cbn; try lia;
    [|exact Hm].
  unfold at_index. rewrite Hm. reflexivity.
Qed.

Lemma at_index_at_index i j st :
  is_Some (searchMatches st !! Z.to_nat j) ->
  at_index j (at_index i st) = at_index j st.
Proof.
  intros [mj Hj]. unfold at_index at 2.
  destruct (searchMatches st !! Z.to_nat i) as [m|];
    unfold at_index; cbn [searchMatches set_currentLine set_currentMatchIndex];
    rewrite Hj; reflexivity.
Qed.

Lemma at_index_current st m :
  searchMatches st !! Z.to_nat (currentMatchIndex st) = Some m ->
  currentLine st = line m ->
  at_index (currentMatchIndex st) st = st.
Proof.
  intros Hm Hcur. unfold at_index. rewrite Hm, <- Hcur.
  destruct st; reflexivity.
Qed.

Lemma at_index_fields i st m :
  searchMatches st !! Z.to_nat i = Some m ->
  searchMatches (at_index i st) = searchMatches st
  /\ currentMatchIndex (at_index i st) = i
  /\ currentLine (at_index i st) = line m.
Proof. intros Hm. unfold at_index. rewrite Hm. repeat split. Qed.

Section Cycle.

Variable fs : string -> option (list string).
Context {engine : RegExpEngine}.
Variable filename : string.
Variable lines : list string.
Hypothesis Hfile : fs filename = Some lines.

(** [k] calls of [next_match] from index [i] lead to index [i + k] modulo
    the number of matches. *)
Lemma next_match_iter st (k : nat) : forall i,
  searchMatches st <> [] ->
  0 <= i < Z.of_nat (length (searchMatches st)) ->
  Nat.iter k (fun s => (next_match fs filename s).2) (at_index i st)
  = at_index ((i + Z.of_nat k) `mod` Z.of_nat (length (searchMatches st))) st.
Proof.
  intros i Hne Hi. induction k as [|k IH].
  - rewrite Z.add_0_r, Z.mod_small by lia. reflexivity.
  - rewrite Nat.iter_succ, IH.
    set (len := Z.of_nat (length (searchMatches st))) in *.
    set (ik := (i + Z.of_nat k) `mod` len).
    assert (Hik : 0 <= ik < len) by (apply Z.mod_pos_bound; lia).
    destruct (lookup_lt_is_Some_2 (searchMatches st) (Z.to_nat ik)) as [m Hm];
      [lia|].
    destruct (at_index_fields ik st m Hm) as (Hms & Hidx & _).
    destruct (next_match_readable fs filename lines (at_index ik st) Hfile)
      as [text Hnext].
    + rewrite Hms. exact Hne.
    + rewrite Hms, Hidx. exact Hik.
    + rewrite Hnext. cbn [snd]. rewrite Hms, Hidx. fold len.
      rewrite at_index_at_index
        by (apply lookup_lt_is_Some_2;
            pose proof (Z.mod_pos_bound (ik + 1) len); lia).
      f_equal. subst ik.
      rewrite Z.add_mod_idemp_l by lia. f_equal. lia.
Qed.

(** The same on the table of states. *)
Lemma callTool_next_match_iter states (k : nat) : forall st,
  Nat.iter k (fun s => (callTool fs NextMatch filename s).2)
           (<[filename := st]> states)
  = <[filename := Nat.iter k (fun s => (next_match fs filename s).2) st]> states.
Proof.
  intros st. induction k as [|k IH]; [reflexivity|].
  rewrite !Nat.iter_succ, IH.
  rewrite (callTool_step fs filename lines NextMatch) by (exact Hfile || discriminate).
  cbn [snd run_tool]. rewrite state_of_insert, insert_insert_eq. reflexivity.
Qed.

End Cycle.

(** C7. After a [find] on an accessible file that leaves a non-empty match
    list, as many [next_match] requests as there are matches bring the table
    of states back to what it was after the [find]; the cursor and the
    match index are again those of the landed match. *)
Theorem next_match_full_cycle :
  forall (fs : string -> option (list string)) (engine : RegExpEngine)
         (filename pattern : string) (isRegex : bool)
         (states : gmap string FileNavigatorState),
    accessible fs filename ->
    let after_find := (callTool fs (Find pattern isRegex) filename states).2 in
    let st := state_of filename after_find in
    searchMatches st <> [] ->
    let after_cycle :=
      Nat.iter (length (searchMatches st))
               (fun s => (callTool fs NextMatch filename s).2) after_find in
    after_cycle = after_find
    /\ currentLine (state_of filename after_cycle) = currentLine st
    /\ currentMatchIndex (state_of filename after_cycle) = currentMatchIndex st.
Proof.
  intros fs engine filename pattern isRegex states Hacc after_find st Hne
         after_cycle.
  assert (Hsame : after_cycle = after_find); [|rewrite Hsame; repeat split].
  destruct (find_landed fs filename pattern isRegex states Hacc Hne)
    as (Hidx & landed & Hlook & Hcur).
  fold after_find in Hidx, Hlook, Hcur. fold st in Hidx, Hlook, Hcur.
  destruct Hacc as [lines Hfile].
  assert (Htable : after_find = <[filename := st]> states).
  { subst st after_find.
    rewrite (callTool_step fs filename lines) by (exact Hfile || discriminate).
    cbn [snd]. rewrite state_of_insert. reflexivity. }
  subst after_cycle. rewrite Htable.
  rewrite (callTool_next_match_iter fs filename lines Hfile).
  f_equal.
  assert (Hi : 0 <= currentMatchIndex st < Z.of_nat (length (searchMatches st))).
  { rewrite Hidx. apply lookup_lt_Some in Hlook. lia. }
  assert (Hat : at_index (currentMatchIndex st) st = st).
  { apply (at_index_current st landed); [|exact Hcur].
    rewrite Hidx, Nat2Z.id. exact Hlook. }
  rewrite <- Hat at 2.
  rewrite (next_match_iter fs filename lines Hfile st _ _ Hne Hi).
  rewrite <- (Z.mul_1_l (Z.of_nat (length (searchMatches st)))) at 1.
  rewrite Z.mod_add by lia. rewrite Z.mod_small by lia. exact Hat.
Qed.

Lemma next_match_full_cycle_witness :
  let after_find :=
    (callTool (one_file seven_lines) (engine := literal_engine)
              (Find "foo" false) "f" ∅).2 in
  let st := state_of "f" after_find in
  let after_cycle :=
    Nat.iter (length (searchMatches st))
             (fun s => (callTool (one_file seven_lines)
                                 (engine := literal_engine)
                                 NextMatch "f" s).2) after_find in
  length (searchMatches st) = 2%nat
  /\ after_cycle = after_find
  /\ currentLine (state_of "f" after_cycle) = currentLine st
  /\ currentMatchIndex (state_of "f" after_cycle) = currentMatchIndex st.
Proof.
  split; [vm_compute; reflexivity|].
  apply (next_match_full_cycle (one_file seven_lines) literal_engine
           "f" "foo" false ∅).
  - exists seven_lines. reflexivity.
  - vm_compute. discriminate.
Defined.

(** ** Literal patterns and letter case *)

Lemma append_String c s t : String c s +:+ t = String c (s +:+ t).
Proof. reflexivity. Qed.

Lemma append_empty t : "" +:+ t = t.
Proof. reflexivity. Qed.

Lemma prefix_ci_split p : forall s,
  Str.prefix_ci p s = true ->
  exists q post, s = q +:+ post /\ Str.fold_case q = Str.fold_case p.
Proof.
  induction p as [|a p IH]; intros s H.
  - exists "", s. split; reflexivity.
  - destruct s as [|b s]; [discriminate|]. cbn [Str.prefix_ci] in H.
    destruct (Ascii.eqb_spec (Str.canonicalize a) (Str.canonicalize b))
      as [Hab|]; [|discriminate].
    destruct (IH s H) as (q & post & -> & Hq).
    exists (String b q), post. split; [reflexivity|].
    cbn [Str.fold_case]. rewrite Hq, Hab. reflexivity.
Qed.

Lemma prefix_ci_fold p : forall q post,
  Str.fold_case q = Str.fold_case p ->
  Str.prefix_ci p (q +:+ post) = true.
Proof.
  induction p as [|a p IH]; intros q post H; [reflexivity|].
  destruct q as [|b q]; [discriminate|].
  cbn [Str.fold_case] in H. injection H as Hab Hq.
  rewrite append_String. cbn [Str.prefix_ci]. rewrite Hab, Ascii.eqb_refl.
  apply IH, Hq.
Qed.

Lemma includes_ci_contains p l : includes_ci p l = true <-> contains_ci p l.
Proof.
  split.
  - induction l as [|c l IH]; cbn [includes_ci]; intros H.
    + rewrite orb_false_r in H.
      destruct (prefix_ci_split p _ H) as (q & post & Hl & Hq).
      exists "", q, post. split; [exact Hl|exact Hq].
    + apply orb_true_iff in H as [H|H].
      * destruct (prefix_ci_split p _ H) as (q & post & Hl & Hq).
        exists "", q, post. split; [exact Hl|exact Hq].
      * destruct (IH H) as (pre & q & post & -> & Hq).
        exists (String c pre), q, post. split; [reflexivity|exact Hq].
  - intros (pre & q & post & -> & Hq).
    induction pre as [|c pre IH].
    + rewrite append_empty.
      pose proof (prefix_ci_fold p q post Hq) as Hp.
      destruct (q +:+ post); cbn [includes_ci]; rewrite Hp; reflexivity.
    + rewrite append_String. cbn [includes_ci]. rewrite IH. apply orb_true_r.
Qed.

Lemma includes_ci_occurs p l :
  includes_ci p l = true <-> occurs (literal_matcher p) l.
Proof.
  unfold occurs, literal_matcher. split.
  - induction l as [|c l IH]; cbn [includes_ci]; intros H.
    + rewrite orb_false_r in H. exists 0%nat. eexists.
      split; [cbn; lia|]. cbn [Str.drop]. rewrite H. reflexivity.
    + apply orb_true_iff in H as [H|H].
      * exists 0%nat. eexists. split; [cbn; lia|].
        cbn [Str.drop]. rewrite H. reflexivity.
      * destruct (IH H) as (i & e & Hi & He).
        exists (S i). cbn [Str.drop String.length].
        destruct (Str.prefix_ci p (Str.drop i l)); [|discriminate].
        eexists. split; [lia|reflexivity].
  - intros (i & e & Hi & He).
    assert (Hat : Str.prefix_ci p (Str.drop i l) = true)
      by (destruct (Str.prefix_ci p (Str.drop i l)); [reflexivity|discriminate]).
    clear He e Hi. revert i Hat.
    induction l as [|c l IH]; intros i Hat.
    + destruct i; cbn [Str.drop] in Hat; cbn [includes_ci];
        rewrite Hat; reflexivity.
    + destruct i as [|i]; cbn [Str.drop] in Hat; cbn [includes_ci].
      * rewrite Hat. reflexivity.
      * rewrite (IH i Hat). apply orb_true_r.
Qed.

Lemma scan_keeps rest r lineNum cursor first matches index m :
  m ∈ matches ->
  m ∈ (scan rest r lineNum cursor first matches index).1.2.
Proof.
  intros Hm.
  destruct (scan_collects rest r lineNum cursor first matches index)
    as (new & -> & _).
  apply elem_of_app. left. exact Hm.
Qed.

(** The scan records a line that contains the literal pattern up to case,
    when the line before it does not and fewer matches than the cap allows
    can come from the lines before it. *)
Lemma scan_reports p rest :
  forall r lineNum cursor first matches index (n : nat) l,
    matcher r = literal_matcher p ->
    rest !! n = Some l ->
    includes_ci p l = true ->
    (n = 0%nat -> lastIndex r = 0%nat) ->
    (forall n' l', n = S n' -> rest !! n' = Some l' ->
                   includes_ci p l' = false) ->
    Z.of_nat (length matches
              + length (List.filter (includes_ci p) (take n rest)))
      < MAX_SEARCH_RESULTS ->
    mkMatch (lineNum + Z.of_nat n) l
      ∈ (scan rest r lineNum cursor first matches index).1.2.
Proof.
  induction rest as [|l0 rest IH];
    intros r lineNum cursor first matches index n l Hr Hn Hl Hfresh Hprev Hcap;
    [discriminate|].
  cbn [scan]. destruct n as [|n].
  - cbn in Hn. injection Hn as ->.
    rewrite test_fresh_occurs
      by (auto; rewrite Hr; apply includes_ci_occurs, Hl).
    rewrite Z.add_0_r.
    assert (Hin : mkMatch lineNum l ∈ matches ++ [mkMatch lineNum l])
      by (apply elem_of_app; right; apply list_elem_of_singleton; reflexivity).
    destruct (MAX_SEARCH_RESULTS <=? _); [exact Hin|].
    apply scan_keeps, Hin.
  - cbn [lookup list_lookup] in Hn. cbn [take List.filter] in Hcap.
    replace (lineNum + Z.of_nat (S n)) with (lineNum + 1 + Z.of_nat n) by lia.
    assert (Hprev' : forall n' l', n = S n' -> rest !! n' = Some l' ->
                       includes_ci p l' = false).
    { intros n' l' -> Hl'. apply (Hprev (S n') l'); [reflexivity|exact Hl']. }
    destruct (test r l0).1 eqn:Hhit.
    + assert (Hl0 : includes_ci p l0 = true).
      { apply includes_ci_occurs. rewrite <- Hr. apply test_true_occurs, Hhit. }
      rewrite Hl0 in Hcap. cbn [length] in Hcap.
      destruct (Z.leb_spec MAX_SEARCH_RESULTS
                  (Z.of_nat (length (matches ++ [mkMatch lineNum l0]))))
        as [Hfull|_].
      { rewrite length_app in Hfull. cbn [length] in Hfull. lia. }
      apply IH; try assumption.
      * rewrite test_matcher. exact Hr.
      * intros ->. rewrite (Hprev 0%nat l0 eq_refl eq_refl) in Hl0. discriminate.
      * rewrite length_app. cbn [length]. lia.
    + apply IH; try assumption.
      * rewrite test_matcher. exact Hr.
      * intros _. apply test_false_lastIndex, Hhit.
      * destruct (includes_ci p l0); cbn [length] in Hcap; lia.
Qed.

(** ** Engines that match alike *)

Lemma exec_scan_agree m m' s n : forall i,
  (forall j, (j <= String.length s)%nat -> m s j = m' s j) ->
  (i + n <= S (String.length s))%nat ->
  exec_scan m s i n = exec_scan m' s i n.
Proof.
  induction n as [|n IH]; intros i H Hi; [reflexivity|].
  cbn [exec_scan]. rewrite H by lia. rewrite (IH (S i) H) by lia.
  reflexivity.
Qed.

Lemma test_agree r r' s :
  (forall j, (j <= String.length s)%nat -> matcher r s j = matcher r' s j) ->
  lastIndex r = lastIndex r' ->
  (test r s).1 = (test r' s).1
  /\ lastIndex (test r s).2 = lastIndex (test r' s).2.
Proof.
  intros Hm Hl. unfold test. rewrite <- Hl.
  destruct (String.length s <? lastIndex r)%nat eqn:Hlen;
    [split; reflexivity|].
  apply Nat.ltb_ge in Hlen.
  rewrite (exec_scan_agree (matcher r) (matcher r') s _ _ Hm) by lia.
  destruct (exec_scan _ _ _ _); split; reflexivity.
Qed.

(** Two regex objects that match alike on the lines to be read make the
    scan collect the same. *)
Lemma scan_agree rest : forall r r' lineNum cursor first matches index,
  Forall (fun l => forall j, (j <= String.length l)%nat ->
                             matcher r l j = matcher r' l j) rest ->
  lastIndex r = lastIndex r' ->
  scan rest r lineNum cursor first matches index
  = scan rest r' lineNum cursor first matches index.
Proof.
  induction rest as [|l rest IH];
    intros r r' lineNum cursor first matches index Hm Hl; [reflexivity|].
  inversion Hm as [|? ? Hhere Hrest]; subst.
  cbn [scan]. destruct (test_agree r r' l Hhere Hl) as (Hhit & Hlast).
  rewrite <- Hhit.
  assert (Hrest' : Forall (fun l0 => forall j, (j <= String.length l0)%nat ->
                      matcher (test r l).2 l0 j = matcher (test r' l).2 l0 j)
                     rest)
    by (rewrite !test_matcher; exact Hrest).
  destruct (test r l).1; [destruct (MAX_SEARCH_RESULTS <=? _); [reflexivity|]|];
    apply IH; assumption.
Qed.

Lemma find_outcome_agree lines pattern m m' st :
  Forall (fun l => forall j, (j <= String.length l)%nat -> m l j = m' l j)
         lines ->
  find_outcome lines pattern m st = find_outcome lines pattern m' st.
Proof.
  intros H. unfold find_outcome.
  rewrite (scan_agree lines (mkRegExp m 0) (mkRegExp m' 0)) by (exact H || reflexivity).
  reflexivity.
Qed.

(** A literal-mode [find] with an ASCII pattern on a readable file of
    ASCII lines, whatever the engine: the regex matches as
    [literal_matcher] does. *)
Lemma find_literal_readable fs {engine : RegExpEngine} filename lines
    pattern st :
  fs filename = Some lines ->
  Str.is_ascii pattern = true ->
  Forall (fun l => Str.is_ascii l = true) lines ->
  find fs filename pattern false st
  = find_outcome lines pattern (literal_matcher pattern) st.
Proof.
  intros Hfile Hp Hlines.
  destruct (compile_literal pattern) as (m & Hnew & Hm).
  rewrite (find_readable fs filename lines pattern false m st Hfile Hm).
  apply find_outcome_agree.
  eapply Forall_impl; [exact Hlines|]. intros l Hl j Hj.
  apply (RegExp_new_ascii pattern m l j Hnew Hp Hl Hj).
Qed.

Lemma literal_find_state fs {engine : RegExpEngine} filename lines pattern
    states :
  fs filename = Some lines ->
  Str.is_ascii pattern = true ->
  Forall (fun l => Str.is_ascii l = true) lines ->
  state_of filename (callTool fs (Find pattern false) filename states).2
  = (find_outcome lines pattern (literal_matcher pattern)
                  (state_of filename states)).2.
Proof.
  intros Hfile Hp Hlines.
  rewrite (callTool_state fs filename lines) by (exact Hfile || discriminate).
  cbn [run_tool].
  rewrite (find_literal_readable fs filename lines pattern _ Hfile Hp Hlines).
  reflexivity.
Qed.

(** C1 fails on the code. The file has the lines [xxab] and [ab] and the
    literal pattern is [ab].  The pattern occurs in both lines, yet the
    scan records line 1 only: the successful test of line 1 leaves
    [lastIndex] at 4, and the test of line 2 starts there, beyond the end
    of the line. *)
Theorem find_misses_line_after_match :
  forall engine : RegExpEngine,
    let st' := state_of "f"
                 (callTool (one_file ["xxab"; "ab"]) (Find "ab" false) "f" ∅).2 in
    occurs (literal_matcher "ab") "xxab"
    /\ occurs (literal_matcher "ab") "ab"
    /\ searchMatches st' = [mkMatch 1 "xxab"]
    /\ (test (mkRegExp (literal_matcher "ab") 0) "xxab").1 = true
    /\ lastIndex (test (mkRegExp (literal_matcher "ab") 0) "xxab").2 = 4%nat
    /\ (test (mkRegExp (literal_matcher "ab") 4) "ab").1 = false
    /\ (test (mkRegExp (literal_matcher "ab") 0) "ab").1 = true.
Proof.
  intros engine st'. subst st'.
  rewrite (literal_find_state _ "f" ["xxab"; "ab"])
    by (reflexivity || (repeat constructor)).
  split; [exists 2%nat, 4%nat; split; [cbn; lia|reflexivity]|].
  split; [exists 0%nat, 2%nat; split; [cbn; lia|reflexivity]|].
  repeat split; vm_compute; reflexivity.
Qed.

(** ** The state invariant on a non-empty file *)

Lemma prev_match_readable fs filename lines st :
  fs filename = Some lines ->
  searchMatches st <> [] ->
  0 <= currentMatchIndex st < Z.of_nat (length (searchMatches st)) ->
  exists text,
    prev_match fs filename st
    = (inr text,
       at_index (if currentMatchIndex st - 1 <? 0
                 then Z.of_nat (length (searchMatches st)) - 1
                 else currentMatchIndex st - 1) st).
Proof.
  intros Hfile Hne Hidx. unfold prev_match.
  unfold bind at 1. cbn [get].
  destruct (Z.eqb_spec (Z.of_nat (length (searchMatches st))) 0) as [Hz|Hz].
  { destruct (searchMatches st); [contradiction|discriminate Hz]. }
  unfold bind at 1. cbn [modify]. unfold bind at 1. cbn [get].
  cbn [set_currentMatchIndex currentMatchIndex].
  set (len := Z.of_nat (length (searchMatches st))) in *.
  set (i' := if currentMatchIndex st - 1 <? 0 then len - 1
             else currentMatchIndex st - 1).
  assert (Hi' : 0 <= i' < len)
    by (subst i'; destruct (Z.ltb_spec (currentMatchIndex st - 1) 0); lia).
  destruct (lookup_lt_is_Some_2 (searchMatches st) (Z.to_nat i')) as [m Hm];
    [lia|].
  assert (Hshow : forall s, searchMatches s = searchMatches st ->
            currentMatchIndex s = i' ->
            exists text, show_match fs filename s
                         = (inr text, set_currentLine (line m) s)).
  { intros s Hs Hi. eexists.
    rewrite (show_match_readable fs filename lines s m Hfile);
      [reflexivity|lia|]. rewrite Hs, Hi. exact Hm. }
  unfold at_index. rewrite Hm. subst i'.
  destruct (currentMatchIndex st - 1 <? 0); unfold bind at 1; cbn [modify ret].
  - destruct (Hshow (set_currentMatchIndex (len - 1)
                       (set_currentMatchIndex (currentMatchIndex st - 1) st)))
      as [text Ht]; [reflexivity..|].
    exists text. rewrite Ht. destruct st; reflexivity.
  - destruct (Hshow (set_currentMatchIndex (currentMatchIndex st - 1) st))
      as [text Ht]; [reflexivity..|].
    exists text. rewrite Ht. reflexivity.
Qed.

Lemma state_ok_at_index totalLines i st :
  state_ok totalLines st ->
  0 <= i < Z.of_nat (length (searchMatches st)) ->
  state_ok totalLines (at_index i st).
Proof.
  intros (Hcur & Hh & Hidx & Hcap & Hall) Hi.
  destruct (lookup_lt_is_Some_2 (searchMatches st) (Z.to_nat i)) as [m Hm];
    [lia|].
  unfold at_index. rewrite Hm.
  pose proof (Forall_lookup_1 _ _ _ _ Hall Hm) as Hline. cbn in Hline.
  unfold state_ok, index_valid, within_cap in *. cbn.
  repeat split; try assumption; try lia.
Qed.

Lemma find_outcome_ok lines pattern m st :
  state_ok (Z.of_nat (length lines)) st ->
  state_ok (Z.of_nat (length lines)) (find_outcome lines pattern m st).2.
Proof.
  intros (Hcur & Hh & _ & _ & _).
  destruct (find_outcome_state lines pattern m st)
    as (Hms & _ & _ & Hheight & Hnone & Hsome).
  pose proof (scan_within_cap lines (mkRegExp m 0) 1 (currentLine st)
                None [] (-1) eq_refl) as Hcap.
  destruct (scan_collects lines (mkRegExp m 0) 1 (currentLine st) None [] (-1))
    as (new & Hnew & Hall & _).
  set (st' := (find_outcome lines pattern m st).2) in *.
  set (ms := (scan lines (mkRegExp m 0) 1 (currentLine st) None [] (-1)).1.2)
    in *.
  cbn [app] in Hnew. subst new.
  assert (Hrange : Forall (fun x => 1 <= line x <= Z.of_nat (length lines)) ms).
  { eapply Forall_impl; [exact Hall|]. intros x (k & Hk & Hline & _).
    apply lookup_lt_Some in Hk. lia. }
  unfold state_ok, index_valid, within_cap. rewrite Hms, Hheight.
  destruct (decide (ms = [])) as [Hempty|Hne].
  - destruct (Hnone Hempty) as (-> & ->). repeat split; try assumption; try lia.
    contradiction.
  - destruct (Hsome Hne) as (-> & landed & Hlook & ->).
    pose proof (Forall_lookup_1 _ _ _ _ Hrange Hlook) as Hline.
    apply lookup_lt_Some in Hlook. cbn in Hline.
    unfold MAX_SEARCH_RESULTS in *.
    repeat split; try assumption; try lia.
Qed.

(** On a file with at least one line, every request keeps the invariant
    of the file's state: the cursor is a line of the file, the match index
    is an index of the match list when that list is not empty, and the list
    holds at most 1000 matches. *)
Lemma state_ok_preserved fs {engine : RegExpEngine} filename lines tool
    states :
  fs filename = Some lines ->
  height_ok tool ->
  state_ok (Z.of_nat (length lines)) (state_of filename states) ->
  state_ok (Z.of_nat (length lines))
           (state_of filename (callTool fs tool filename states).2).
Proof.
  intros Hfile Hheight Hok.
  assert (Hunknown : forall name,
            (callTool fs (Unknown name) filename states).2 = states).
  { intros name. unfold callTool. rewrite Hfile.
    rewrite bool_decide_eq_true_2 by (eexists; reflexivity).
    rewrite andb_false_r. reflexivity. }
  pose proof Hok as (Hcur & Hh & Hidx & Hcap & Hall).
  destruct tool as [l h| p isRegex | | | | |name];
    [..|rewrite Hunknown; exact Hok];
    rewrite (callTool_state fs filename lines) by (exact Hfile || discriminate);
    set (st := state_of filename states) in *; cbn [run_tool].
  - rewrite (go_to_line_readable fs filename lines Hfile). cbn [snd].
    unfold moved_to. cbn [height_ok] in Hheight.
    destruct h as [h|]; [destruct (Z.eqb_spec h 0)|];
      (split; [|split; [|split; [exact Hidx|split; [exact Hcap|exact Hall]]]]);
      cbn; lia.
  - destruct (compile_cases p isRegex) as [[-> Hbad] | [m Hm]].
    + rewrite find_compile_failure by exact Hbad. cbn [snd].
      split; [exact Hcur|]. split; [exact Hh|].
      split; [intros Habs; contradiction Habs; reflexivity|].
      split; [unfold within_cap, MAX_SEARCH_RESULTS; cbn; lia|constructor].
    + rewrite (find_readable fs filename lines p isRegex m st Hfile Hm).
      apply find_outcome_ok, Hok.
  - destruct (decide (searchMatches st = [])) as [Hempty|Hne].
    + rewrite next_match_no_search by exact Hempty. exact Hok.
    + destruct (next_match_readable fs filename lines st Hfile Hne (Hidx Hne))
        as [text ->].
      apply state_ok_at_index; [exact Hok|]. apply Z.mod_pos_bound.
      destruct (searchMatches st); [contradiction|cbn; lia].
  - destruct (decide (searchMatches st = [])) as [Hempty|Hne].
    + rewrite prev_match_no_search by exact Hempty. exact Hok.
    + destruct (prev_match_readable fs filename lines st Hfile Hne (Hidx Hne))
        as [text ->].
      apply state_ok_at_index; [exact Hok|].
      specialize (Hidx Hne). destruct (Z.ltb_spec (currentMatchIndex st - 1) 0); lia.
  - rewrite (page_up_readable fs filename lines Hfile). cbn [snd].
    (split; [|split; [|split; [exact Hidx|split; [exact Hcap|exact Hall]]]]);
      cbn; lia.
  - rewrite (page_down_readable fs filename lines Hfile). cbn [snd].
    (split; [|split; [|split; [exact Hidx|split; [exact Hcap|exact Hall]]]]);
      cbn; lia.
Qed.

(** The state created for a new path satisfies the invariant of a file
    with at least one line. *)
Lemma state_ok_initial filename totalLines :
  1 <= totalLines -> state_ok totalLines (initialState filename).
Proof.
  intros Htotal.
  split; [cbn; lia|]. split; [cbn; unfold DEFAULT_SCREEN_HEIGHT; lia|].
  split; [intros Habs; contradiction Habs; reflexivity|].
  split; [unfold within_cap, MAX_SEARCH_RESULTS; cbn; lia|constructor].
Qed.

Lemma state_ok_invariant totalLines st :
  state_ok totalLines st ->
  cursor_in_range totalLines st /\ index_valid st /\ within_cap st.
Proof.
  intros (Hcur & _ & Hidx & Hcap & _).
  split; [|split; [exact Hidx|exact Hcap]].
  unfold cursor_in_range. destruct (Z.eqb_spec totalLines 0); lia.
Qed.

(** ** What find records *)

(** Every match recorded by a [find] whose pattern compiled to [m] is a
    line of the file, under its number and with its text, in which the
    pattern occurs; the matches are in the order of the file and there are
    at most 1000 of them. *)
Lemma find_records_matching_lines lines pattern m st :
  let ms := searchMatches (find_outcome lines pattern m st).2 in
  Forall (fun x => exists k : nat,
            lines !! k = Some (content x)
            /\ line x = Z.of_nat k + 1
            /\ occurs m (content x)) ms
  /\ StronglySorted (fun a b => line a < line b) ms
  /\ Z.of_nat (length ms) <= MAX_SEARCH_RESULTS.
Proof.
  intros ms. subst ms.
  destruct (find_outcome_state lines pattern m st) as (-> & _).
  pose proof (scan_within_cap lines (mkRegExp m 0) 1 (currentLine st)
                None [] (-1) eq_refl) as Hcap.
  destruct (scan_collects lines (mkRegExp m 0) 1 (currentLine st) None [] (-1))
    as (new & Hnew & Hall & Hsorted).
  cbn [app] in Hnew. rewrite Hnew in *.
  split; [|split; [exact Hsorted|exact Hcap]].
  eapply Forall_impl; [exact Hall|].
  intros x (k & Hk & Hline & Hocc). exists k.
  split; [exact Hk|]. split; [lia|exact Hocc].
Qed.

(** ** The letter case of the pattern *)

(** Two literal-mode searches whose regexes match alike on the lines of
    the file leave the same matches, the same match index and the same
    cursor, whatever pattern each stores. *)
Lemma find_outcome_pattern_case lines p p' m m' st :
  Forall (fun l => forall j, (j <= String.length l)%nat -> m l j = m' l j)
         lines ->
  let a := (find_outcome lines p m st).2 in
  let b := (find_outcome lines p' m' st).2 in
  searchMatches a = searchMatches b
  /\ currentMatchIndex a = currentMatchIndex b
  /\ currentLine a = currentLine b.
Proof.
  intros H a b. subst a b. unfold find_outcome.
  rewrite (scan_agree lines (mkRegExp m 0) (mkRegExp m' 0))
    by (exact H || reflexivity).
  destruct (scan lines _ 1 (currentLine st) None [] (-1))
    as [[[landed|] [|m0 ms]] index]; repeat split.
Qed.

(** ** Letter case of the text *)












Lemma contains_ci_occurs p l :
  contains_ci p l <-> occurs (literal_matcher p) l.
Proof. rewrite <- includes_ci_contains. apply includes_ci_occurs. Qed.




(** * Further properties of the code *)

(** ** The line stream *)

Lemma split_newline_nonempty s : split_newline s <> [].
Proof.
  destruct s as [|c s]; cbn [split_newline]; [discriminate|].
  destruct (Ascii.eqb c Str.newline); [discriminate|].
  destruct (split_newline s); discriminate.
Qed.

Lemma removelast_cons_nonempty {A} (x : A) l :
  l <> [] -> removelast (x :: l) = x :: removelast l.
Proof. destruct l; [contradiction|reflexivity]. Qed.

Lemma last_cons_nonempty {A} (x : A) l : l <> [] -> last (x :: l) = last l.
Proof. destruct l; [contradiction|reflexivity]. Qed.

Lemma removelast_app_nonempty {A} (l1 l2 : list A) :
  l2 <> [] -> removelast (l1 ++ l2) = l1 ++ removelast l2.
Proof.
  intros H. induction l1 as [|x l1 IH]; [reflexivity|].
  cbn [app]. rewrite removelast_cons_nonempty, IH; [reflexivity|].
  destruct l1; [exact H|discriminate].
Qed.

Lemma last_app_nonempty {A} (l1 l2 : list A) :
  l2 <> [] -> last (l1 ++ l2) = last l2.
Proof.
  intros H. induction l1 as [|x l1 IH]; [reflexivity|].
  cbn [app]. rewrite last_cons_nonempty; [exact IH|].
  destruct l1; [exact H|discriminate].
Qed.

(** Splitting a text in two parts: the pieces of the first part but the
    last, then the pieces of that last piece followed by the second part. *)
Lemma split_newline_app a : forall b,
  split_newline (a +:+ b)
  = removelast (split_newline a)
    ++ split_newline (default "" (last (split_newline a)) +:+ b).
Proof.
  induction a as [|c a IH]; intros b; [reflexivity|].
  rewrite append_String. cbn [split_newline].
  pose proof (split_newline_nonempty a) as Hne.
  destruct (Ascii.eqb c Str.newline) eqn:Hc.
  - rewrite removelast_cons_nonempty, last_cons_nonempty by exact Hne.
    rewrite IH. reflexivity.
  - rewrite IH. destruct (split_newline a) as [|p ps]; [contradiction|].
    destruct ps as [|p' ps].
    + cbn [removelast last app default from_option id]. rewrite append_String.
      cbn [split_newline]. rewrite Hc. reflexivity.
    + rewrite !removelast_cons_nonempty, !last_cons_nonempty by discriminate.
      reflexivity.
Qed.

Lemma append_assoc (a b c : string) : (a +:+ b) +:+ c = a +:+ (b +:+ c).
Proof.
  induction a as [|x a IH]; [reflexivity|].
  rewrite !append_String, IH. reflexivity.
Qed.

Lemma append_empty_r (a : string) : a +:+ "" = a.
Proof.
  induction a as [|x a IH]; [reflexivity|].
  rewrite append_String, IH. reflexivity.
Qed.

Lemma split_newline_free s : newline_free s = true -> split_newline s = [s].
Proof.
  induction s as [|c s IH]; [reflexivity|]. cbn [newline_free split_newline].
  intros [Hc Hs]%andb_true_iff. apply negb_true_iff in Hc.
  rewrite Hc, (IH Hs). reflexivity.
Qed.

Lemma split_newline_pieces s :
  Forall (fun piece => newline_free piece = true) (split_newline s).
Proof.
  induction s as [|c s IH]; cbn [split_newline]; [repeat constructor|].
  destruct (Ascii.eqb c Str.newline) eqn:Hc.
  - constructor; [reflexivity|exact IH].
  - destruct (split_newline s) as [|p ps]; [repeat constructor; cbn; rewrite Hc; reflexivity|].
    inversion IH as [|? ? Hp Hps]; subst. constructor; [|exact Hps].
    cbn [newline_free]. rewrite Hc, Hp. reflexivity.
Qed.

Lemma split_newline_last_free s :
  newline_free (default "" (last (split_newline s))) = true.
Proof.
  pose proof (split_newline_pieces s) as Hall.
  destruct (last (split_newline s)) as [p|] eqn:Hlast; [|reflexivity].
  apply last_Some_elem_of in Hlast.
  rewrite Forall_forall in Hall. exact (Hall p Hlast).
Qed.

(** The lines of a text from its pieces: all the pieces but the last,
    and the last one when it is not empty. *)
Lemma lines_of_text_pieces text :
  lines_of_text text
  = removelast (split_newline text)
    ++ match default "" (last (split_newline text)) with
       | EmptyString => []
       | String _ _ => [default "" (last (split_newline text))]
       end.
Proof. reflexivity. Qed.

Lemma readFileLines_chunks_text chunks : forall buffer,
  newline_free buffer = true ->
  readFileLines_chunks chunks buffer
  = lines_of_text (buffer +:+ foldr String.append "" chunks).
Proof.
  induction chunks as [|chunk rest IH]; intros buffer Hfree.
  - cbn [foldr readFileLines_chunks]. rewrite append_empty_r.
    rewrite lines_of_text_pieces, (split_newline_free buffer Hfree).
    destruct buffer; reflexivity.
  - cbn [foldr readFileLines_chunks].
    rewrite IH by apply split_newline_last_free.
    rewrite <- append_assoc.
    rewrite !lines_of_text_pieces.
    rewrite (split_newline_app (buffer +:+ chunk)).
    pose proof (split_newline_nonempty
                  (default "" (last (split_newline (buffer +:+ chunk)))
                   +:+ foldr String.append "" rest)) as Hne.
    rewrite removelast_app_nonempty, last_app_nonempty by exact Hne.
    rewrite <- app_assoc. reflexivity.
Qed.

(** X1. The lines that [readFileLines] yields do not depend on how the
    stream cuts the text into chunks: they are the lines of the whole text
    delivered as one chunk. *)
Theorem readFileLines_chunking_irrelevant :
  forall chunks : list string,
    readFileLines_chunks chunks ""
    = lines_of_text (foldr String.append "" chunks).
Proof.
  intros chunks. rewrite readFileLines_chunks_text by reflexivity.
  rewrite append_empty. reflexivity.
Qed.

(** X2. No line that [readFileLines] yields contains a newline, whatever
    the chunks. *)
Theorem readFileLines_lines_newline_free :
  forall chunks : list string,
    Forall (fun l => newline_free l = true) (readFileLines_chunks chunks "").
Proof.
  intros chunks. rewrite readFileLines_chunks_text by reflexivity.
  rewrite append_empty. generalize (foldr String.append "" chunks) as text.
  intros text. rewrite lines_of_text_pieces.
  pose proof (split_newline_pieces text) as Hall.
  pose proof (split_newline_nonempty text) as Hne.
  apply Forall_app. split.
  - rewrite (app_removelast_last "" Hne) in Hall.
    apply Forall_app in Hall. apply Hall.
  - pose proof (split_newline_last_free text) as Hlast.
    destruct (default "" (last (split_newline text))); repeat constructor.
    exact Hlast.
Qed.

Lemma split_newline_free_app r : forall rest,
  newline_free r = true ->
  split_newline (r +:+ String Str.newline rest) = r :: split_newline rest.
Proof.
  induction r as [|c r IH]; intros rest Hfree.
  - rewrite append_empty. cbn [split_newline].
    rewrite Ascii.eqb_refl. reflexivity.
  - cbn [newline_free] in Hfree.
    apply andb_true_iff in Hfree as [Hc Hr]. apply negb_true_iff in Hc.
    rewrite append_String. cbn [split_newline]. rewrite Hc, (IH rest Hr).
    reflexivity.
Qed.

Lemma join_cons_cons sep r r' ls :
  Str.join sep (r :: r' :: ls) = r +:+ sep +:+ Str.join sep (r' :: ls).
Proof. reflexivity. Qed.

Lemma split_newline_join ls :
  ls <> [] ->
  Forall (fun l => newline_free l = true) ls ->
  split_newline (Str.join (String Str.newline "") ls) = ls.
Proof.
  induction ls as [|r ls IH]; intros Hne Hall; [contradiction|].
  inversion Hall as [|? ? Hr Hls]; subst.
  destruct ls as [|r' ls].
  - cbn [Str.join]. apply split_newline_free, Hr.
  - rewrite join_cons_cons, append_String, append_empty.
    rewrite (split_newline_free_app r _ Hr), IH by (discriminate || exact Hls).
    reflexivity.
Qed.

(** X3. A text written as lines joined by newlines is read back as those
    lines, when no line contains a newline: without a final newline if the
    last line is not empty, and with a final newline in any case. *)
Theorem readFileLines_reads_joined_lines :
  forall ls : list string,
    ls <> [] ->
    Forall (fun l => newline_free l = true) ls ->
    (last ls <> Some "" ->
     lines_of_text (Str.join (String Str.newline "") ls) = ls)
    /\ lines_of_text (Str.join (String Str.newline "") ls
                      +:+ String Str.newline "") = ls.
Proof.
  intros ls Hne Hall. split.
  - intros Hlast. rewrite lines_of_text_pieces, split_newline_join by assumption.
    rewrite (app_removelast_last "" Hne) at 3.
    f_equal. destruct (last ls) as [b|] eqn:Hb.
    + rewrite (last_def _ "" _ Hb) || idtac.
      cbn [default from_option id]. destruct b; [contradiction Hlast; reflexivity|].
      f_equal. symmetry.
      apply last_Some in Hb as [l' ->]. apply List.last_last.
    + apply last_None in Hb. contradiction.
  - rewrite lines_of_text_pieces, split_newline_app.
    rewrite split_newline_join by assumption.
    assert (Hfree : newline_free (default "" (last ls)) = true).
    { destruct (last ls) as [b|] eqn:Hb; [|reflexivity].
      apply last_Some_elem_of in Hb. rewrite Forall_forall in Hall.
      exact (Hall b Hb). }
    rewrite (split_newline_free_app _ "" Hfree). cbn [split_newline].
    rewrite removelast_app_nonempty, last_app_nonempty by discriminate.
    cbn [removelast last default from_option id app].
    rewrite app_nil_r.
    rewrite (app_removelast_last "" Hne) at 3.
    f_equal. f_equal.
    destruct (last ls) as [b|] eqn:Hb.
    + apply last_Some in Hb as [l' ->]. symmetry. apply List.last_last.
    + apply last_None in Hb. contradiction.
Qed.

Lemma readFileLines_reads_joined_lines_witness :
  lines_of_text ("a" +:+ String Str.newline "b") = ["a"; "b"]
  /\ lines_of_text ("a" +:+ String Str.newline ("b" +:+ String Str.newline ""))
     = ["a"; "b"].
Proof.
  destruct (readFileLines_reads_joined_lines ["a"; "b"]) as [Hplain Hfinal].
  - discriminate.
  - repeat constructor.
  - split; [apply Hplain; discriminate|exact Hfinal].
Defined.

(** ** The window of lines *)

Lemma getLines_loop_slice rest : forall currentLine startLine count,
  getLines_loop rest currentLine startLine count
  = imap (fun i l => mkScreenLine (Z.max currentLine startLine + Z.of_nat i) l)
      (take (Z.to_nat (startLine + count - Z.max currentLine startLine))
         (drop (Z.to_nat (Z.max currentLine startLine - currentLine)) rest)).
Proof.
  induction rest as [|l rest IH]; intros cur start count.
  - rewrite drop_nil, take_nil. reflexivity.
  - cbn [getLines_loop].
    destruct (Z.leb_spec (start + count) cur) as [Hstop|Hgo].
    + rewrite (proj2 (Z.ltb_ge cur (start + count)) Hstop), andb_false_r.
      replace (Z.to_nat (start + count - Z.max cur start)) with 0%nat by lia.
      reflexivity.
    + destruct (Z.leb_spec start cur) as [Hin|Hbefore].
      * destruct (Z.ltb_spec cur (start + count)); [|lia]. cbn [andb app].
        rewrite IH.
        replace (Z.max cur start) with cur by lia.
        replace (Z.max (cur + 1) start) with (cur + 1) by lia.
        replace (Z.to_nat (cur - cur)) with 0%nat by lia.
        replace (Z.to_nat (cur + 1 - (cur + 1))) with 0%nat by lia.
        replace (Z.to_nat (start + count - cur))
          with (S (Z.to_nat (start + count - (cur + 1)))) by lia.
        cbn [drop take imap]. rewrite Z.add_0_r. f_equal.
        apply imap_ext. intros i x _. cbn. f_equal. lia.
      * cbn [andb app]. rewrite IH.
        replace (Z.max cur start) with start by lia.
        replace (Z.max (cur + 1) start) with start by lia.
        replace (Z.to_nat (start - cur))
          with (S (Z.to_nat (start - (cur + 1)))) by lia.
        reflexivity.
Qed.

(** X4. On a readable file, [getLines] from [startLine], at least 1,
    returns the [count] lines that follow the first [startLine - 1] lines,
    or as many as the file still has, numbered from [startLine] on; the
    state is not touched. *)
Theorem getLines_is_slice :
  forall (fs : string -> option (list string)) (filePath : string)
         (lines : list string) (startLine count : Z)
         (st : FileNavigatorState),
    fs filePath = Some lines ->
    1 <= startLine ->
    getLines fs filePath startLine count st
    = (inr (imap (fun i l => mkScreenLine (startLine + Z.of_nat i) l)
              (take (Z.to_nat count) (drop (Z.to_nat (startLine - 1)) lines))),
       st).
Proof.
  intros fs filePath lines startLine count st Hfile Hstart.
  unfold getLines, bind.
  rewrite (readFileLines_readable fs filePath lines Hfile). cbn [ret].
  rewrite getLines_loop_slice.
  replace (Z.max 1 startLine) with startLine by lia.
  replace (startLine + count - startLine) with count by lia.
  reflexivity.
Qed.

Lemma getLines_is_slice_witness :
  getLines (one_file seven_lines) "f" 6 30 searching
  = (inr [mkScreenLine 6 "z"; mkScreenLine 7 "a foo"], searching).
Proof.
  rewrite (getLines_is_slice (one_file seven_lines) "f" seven_lines 6 30
             searching eq_refl) by lia.
  reflexivity.
Defined.

(** X5. The number of lines [getLines] returns on a readable file of
    [totalLines] lines, from a [startLine] between 1 and [totalLines + 1]
    and for a [count] that is not negative: [count], or the
    [totalLines - startLine + 1] lines left when they are fewer. *)
Theorem getLines_length :
  forall (fs : string -> option (list string)) (filePath : string)
         (lines : list string) (startLine count : Z)
         (st : FileNavigatorState) (window : list ScreenLine),
    fs filePath = Some lines ->
    1 <= startLine <= Z.of_nat (length lines) + 1 ->
    0 <= count ->
    (getLines fs filePath startLine count st).1 = inr window ->
    Z.of_nat (length window)
    = Z.min count (Z.of_nat (length lines) - startLine + 1).
Proof.
  intros fs filePath lines startLine count st window Hfile Hstart Hcount Hw.
  unfold getLines, bind in Hw.
  rewrite (readFileLines_readable fs filePath lines Hfile) in Hw.
  cbn in Hw. injection Hw as <-.
  rewrite getLines_loop_slice, length_imap, length_take, length_drop. lia.
Qed.

Lemma getLines_length_witness :
  Z.of_nat (length [mkScreenLine 6 "z"; mkScreenLine 7 "a foo"])
  = Z.min 30 (Z.of_nat (length seven_lines) - 6 + 1).
Proof.
  apply (getLines_length (one_file seven_lines) "f" seven_lines 6 30 searching).
  - reflexivity.
  - cbn. lia.
  - lia.
  - reflexivity.
Defined.

(** X6. A [count] of 0 or less, or a [startLine] beyond the last line,
    gives the empty window, which [formatScreen] renders as the marker of
    an empty file, whatever the file holds. *)
Theorem getLines_empty_window :
  forall (fs : string -> option (list string)) (filePath : string)
         (lines : list string) (startLine count totalLines : Z)
         (st : FileNavigatorState),
    fs filePath = Some lines ->
    count <= 0 \/ Z.of_nat (length lines) < startLine ->
    getLines fs filePath startLine count st = (inr [], st)
    /\ formatScreen [] totalLines = "~" +:+ String Str.newline "(empty file)".
Proof.
  intros fs filePath lines startLine count totalLines st Hfile Hout.
  split; [|reflexivity].
  unfold getLines, bind.
  rewrite (readFileLines_readable fs filePath lines Hfile). cbn [ret].
  rewrite getLines_loop_slice. f_equal. f_equal.
  destruct Hout as [Hcount|Hbeyond].
  - replace (Z.to_nat (startLine + count - Z.max 1 startLine)) with 0%nat by lia.
    reflexivity.
  - rewrite drop_ge by lia. rewrite take_nil. reflexivity.
Qed.

Lemma getLines_empty_window_witness :
  getLines (one_file seven_lines) "f" 3 (-5) searching = (inr [], searching)
  /\ formatScreen [] 7 = "~" +:+ String Str.newline "(empty file)".
Proof.
  apply (getLines_empty_window (one_file seven_lines) "f" seven_lines).
  - reflexivity.
  - left. lia.
Defined.

(** ** The screen at the end of the file *)

Lemma join_snoc sep ls x :
  ls <> [] -> Str.join sep (ls ++ [x]) = Str.join sep ls +:+ sep +:+ x.
Proof.
  induction ls as [|r ls IH]; intros Hne; [contradiction|].
  destruct ls as [|r' ls]; [reflexivity|].
  change ((r :: r' :: ls) ++ [x]) with (r :: r' :: (ls ++ [x])).
  rewrite !join_cons_cons.
  change (r' :: ls ++ [x]) with ((r' :: ls) ++ [x]).
  rewrite IH by discriminate. rewrite !append_assoc. reflexivity.
Qed.

Lemma formatScreen_banner_last lines totalLines :
  lines <> [] ->
  totalLines <= last_lineNumber lines ->
  ends_with_banner (formatScreen lines totalLines) totalLines.
Proof.
  intros Hne Hlast.
  destruct lines as [|l lines]; [contradiction|].
  rewrite formatScreen_at_eof by exact Hlast. cbv zeta.
  rewrite app_assoc, join_snoc by discriminate.
  eexists. rewrite <- append_assoc. reflexivity.
Qed.

(** X7. When the last line of a non-empty window is at or beyond the last
    line of the file, the rendered screen ends with the banner
    [[END OF FILE - N lines total]]. *)
Theorem formatScreen_ends_with_banner :
  forall (lines : list ScreenLine) (totalLines : Z),
    lines <> [] ->
    totalLines <= last_lineNumber lines ->
    exists before,
      formatScreen lines totalLines = before +:+ eof_banner totalLines.
Proof.
  intros lines totalLines Hne Hlast.
  apply formatScreen_banner_last; assumption.
Qed.

Lemma formatScreen_ends_with_banner_witness :
  exists before,
    formatScreen [mkScreenLine 6 "z"; mkScreenLine 7 "a foo"] 7
    = before +:+ eof_banner 7.
Proof.
  apply formatScreen_ends_with_banner; [discriminate|cbn; lia].
Defined.

(** The window of a state whose page runs to the end of the file or
    beyond: it is not empty and its last line is the last line of the
    file. *)
Lemma window_reaches_eof lines st :
  1 <= currentLine st <= Z.of_nat (length lines) ->
  Z.of_nat (length lines) < currentLine st + screenHeight st ->
  window lines st <> []
  /\ last_lineNumber (window lines st) = Z.of_nat (length lines).
Proof.
  intros Hcur Hpage. unfold window. rewrite getLines_loop_slice.
  replace (Z.max 1 (currentLine st)) with (currentLine st) by lia.
  replace (currentLine st + screenHeight st - currentLine st)
    with (screenHeight st) by lia.
  set (rest := drop (Z.to_nat (currentLine st - 1)) lines).
  assert (Hlen : length rest
                 = (length lines - Z.to_nat (currentLine st - 1))%nat)
    by apply length_drop.
  rewrite take_ge by lia.
  set (w := imap (fun i l => mkScreenLine (currentLine st + Z.of_nat i) l) rest).
  assert (Hw : length w = length rest) by apply length_imap.
  split.
  - intros Hnil. rewrite Hnil in Hw. cbn in Hw. lia.
  - unfold last_lineNumber. rewrite last_lookup.
    destruct (lookup_lt_is_Some_2 rest (pred (length w))) as [l Hl]; [lia|].
    subst w. rewrite list_lookup_imap, Hl. cbn. rewrite length_imap. lia.
Qed.

(** X8. [go_to_line] at or beyond the last line of a readable, non-empty
    file puts the cursor on the last line and, the page size in force being
    at least 1, returns a screen that ends with the end-of-file banner. *)
Theorem go_to_line_beyond_eof :
  forall (fs : string -> option (list string)) (engine : RegExpEngine)
         (filename : string) (lines : list string)
         (L : Z) (screen_height : option Z)
         (states : gmap string FileNavigatorState),
    fs filename = Some lines ->
    lines <> [] ->
    Z.of_nat (length lines) <= L ->
    let r := callTool fs (GoToLine L screen_height) filename states in
    1 <= screenHeight (state_of filename r.2) ->
    currentLine (state_of filename r.2) = Z.of_nat (length lines)
    /\ exists text, r.1 = inr text
                    /\ ends_with_banner text (Z.of_nat (length lines)).
Proof.
  intros fs engine filename lines L h states Hfile Hne Hbeyond r.
  subst r.
  rewrite (callTool_step fs filename lines) by (exact Hfile || discriminate).
  cbn [run_tool]. rewrite (go_to_line_readable fs filename lines Hfile).
  cbv zeta. cbn [fst snd]. rewrite state_of_insert.
  set (st' := moved_to (Z.of_nat (length lines)) L h (state_of filename states)).
  intros Hheight.
  assert (Htotal : 1 <= Z.of_nat (length lines))
    by (destruct lines; [contradiction|cbn; lia]).
  assert (Hcur : currentLine st' = Z.of_nat (length lines))
    by (subst st'; rewrite currentLine_moved_to; lia).
  split; [exact Hcur|]. eexists. split; [reflexivity|].
  destruct (window_reaches_eof lines st') as [Hw Hlast]; [lia..|].
  apply formatScreen_banner_last; [exact Hw|lia].
Qed.

Lemma go_to_line_beyond_eof_witness :
  let r := callTool (one_file seven_lines) (engine := literal_engine)
                    (GoToLine 500000 None) "f" ∅ in
  currentLine (state_of "f" r.2) = 7
  /\ exists text, r.1 = inr text /\ ends_with_banner text 7.
Proof.
  apply (go_to_line_beyond_eof (one_file seven_lines) literal_engine "f"
           seven_lines 500000 None ∅).
  - reflexivity.
  - discriminate.
  - cbn. lia.
  - vm_compute. discriminate.
Defined.

(** ** Paging *)

Lemma page_up_state fs {engine : RegExpEngine} filename lines states :
  fs filename = Some lines ->
  state_of filename (callTool fs PageUp filename states).2
  = set_currentLine
      (Z.max 1 (currentLine (state_of filename states)
                - screenHeight (state_of filename states)))
      (state_of filename states).
Proof.
  intros Hfile.
  rewrite (callTool_state fs filename lines) by (exact Hfile || discriminate).
  cbn [run_tool]. rewrite (page_up_readable fs filename lines Hfile).
  reflexivity.
Qed.

Lemma page_down_state fs {engine : RegExpEngine} filename lines states :
  fs filename = Some lines ->
  state_of filename (callTool fs PageDown filename states).2
  = set_currentLine
      (Z.min (Z.of_nat (length lines))
             (currentLine (state_of filename states)
              + screenHeight (state_of filename states)))
      (state_of filename states).
Proof.
  intros Hfile.
  rewrite (callTool_state fs filename lines) by (exact Hfile || discriminate).
  cbn [run_tool]. rewrite (page_down_readable fs filename lines Hfile).
  reflexivity.
Qed.

(** X9. [page_down] on a readable, non-empty file, from a page that
    reaches the last line or goes beyond it, puts the cursor on the last
    line and returns a screen that ends with the end-of-file banner; the
    page size is at least 1. *)
Theorem page_down_final_page :
  forall (fs : string -> option (list string)) (engine : RegExpEngine)
         (filename : string) (lines : list string)
         (states : gmap string FileNavigatorState),
    fs filename = Some lines ->
    lines <> [] ->
    let st := state_of filename states in
    1 <= screenHeight st ->
    Z.of_nat (length lines) <= currentLine st + screenHeight st ->
    let r := callTool fs PageDown filename states in
    currentLine (state_of filename r.2) = Z.of_nat (length lines)
    /\ exists text, r.1 = inr text
                    /\ ends_with_banner text (Z.of_nat (length lines)).
Proof.
  intros fs engine filename lines states Hfile Hne st Hheight Hlast r.
  subst r.
  rewrite (callTool_step fs filename lines) by (exact Hfile || discriminate).
  cbn [run_tool]. rewrite (page_down_readable fs filename lines Hfile).
  cbv zeta. cbn [fst snd]. rewrite state_of_insert. fold st.
  assert (Htotal : 1 <= Z.of_nat (length lines))
    by (destruct lines; [contradiction|cbn; lia]).
  split; [cbn; lia|]. eexists. split; [reflexivity|].
  match goal with
  | |- context [window lines ?s] =>
      destruct (window_reaches_eof lines s) as [Hw Hl]; [cbn; lia..|]
  end.
  apply formatScreen_banner_last; [exact Hw|lia].
Qed.

Lemma page_down_final_page_witness :
  let r := callTool (one_file seven_lines) (engine := literal_engine)
                    PageDown "f" ∅ in
  currentLine (state_of "f" r.2) = 7
  /\ exists text, r.1 = inr text /\ ends_with_banner text 7.
Proof.
  apply (page_down_final_page (one_file seven_lines) literal_engine "f"
           seven_lines ∅).
  - reflexivity.
  - discriminate.
  - vm_compute. discriminate.
  - vm_compute. discriminate.
Defined.

(** X10. [page_up] after a [page_down] that was not cut at the end of the
    file gives back the state the file had: from a cursor of at least 1
    and a page size that is not negative, when the next page starts within
    a file of at most 2^53 lines. *)
Theorem page_up_undoes_page_down :
  forall (fs : string -> option (list string)) (engine : RegExpEngine)
         (filename : string) (lines : list string)
         (states : gmap string FileNavigatorState),
    fs filename = Some lines ->
    let st := state_of filename states in
    1 <= currentLine st ->
    0 <= screenHeight st ->
    Z.of_nat (length lines) <= 2 ^ 53 ->
    currentLine st + screenHeight st <= Z.of_nat (length lines) ->
    let down := (callTool fs PageDown filename states).2 in
    state_of filename down
    = set_currentLine (currentLine st + screenHeight st) st
    /\ state_of filename (callTool fs PageUp filename down).2 = st.
Proof.
  intros fs engine filename lines states Hfile st Hcur Hheight Hsize Hroom
         down.
  assert (Hdown : state_of filename down
                  = set_currentLine (currentLine st + screenHeight st) st).
  { subst down. rewrite (page_down_state fs filename lines states Hfile).
    fold st. f_equal. lia. }
  split; [exact Hdown|].
  rewrite (page_up_state fs filename lines down Hfile), Hdown. cbn.
  replace (Z.max 1 (currentLine st + screenHeight st - screenHeight st))
    with (currentLine st) by lia.
  destruct st; reflexivity.
Qed.

Lemma page_up_undoes_page_down_witness :
  let states : gmap string FileNavigatorState :=
    {["f" := mkState (Some "f") 2 3 None [] (-1)]} in
  let down := (callTool (one_file seven_lines) (engine := literal_engine)
                        PageDown "f" states).2 in
  currentLine (state_of "f" down) = 5
  /\ state_of "f" (callTool (one_file seven_lines) (engine := literal_engine)
                            PageUp "f" down).2
     = mkState (Some "f") 2 3 None [] (-1).
Proof.
  intros states down.
  destruct (page_up_undoes_page_down (one_file seven_lines) literal_engine "f"
              seven_lines states eq_refl) as [Hdown Hup].
  - vm_compute. discriminate.
  - vm_compute. discriminate.
  - vm_compute. discriminate.
  - vm_compute. discriminate.
  - fold down in Hdown, Hup. split; [rewrite Hdown; reflexivity|exact Hup].
Defined.

(** The cursor after [k] requests of one kind. *)
Lemma page_iter fs {engine : RegExpEngine} filename lines tool
    (step : Z -> Z -> Z) states (k : nat) :
  fs filename = Some lines ->
  (forall s, state_of filename (callTool fs tool filename s).2
             = set_currentLine
                 (step (currentLine (state_of filename s))
                       (screenHeight (state_of filename s)))
                 (state_of filename s)) ->
  let st := state_of filename states in
  state_of filename
    (Nat.iter k (fun s => (callTool fs tool filename s).2) states)
  = set_currentLine
      (Nat.iter k (fun c => step c (screenHeight st)) (currentLine st)) st.
Proof.
  intros Hfile Hstep st. induction k as [|k IH].
  - cbn. subst st. destruct (state_of filename states); reflexivity.
  - rewrite !Nat.iter_succ, Hstep, IH. reflexivity.
Qed.

(** X11. [k] requests [page_up] in a row on a readable file move a cursor
    of at least 1 up by [k] pages, stopping at line 1; [k] requests
    [page_down] move a cursor within the file down by [k] pages, stopping
    at the last line.  The page size is not negative. *)
Theorem paging_k_times :
  forall (fs : string -> option (list string)) (engine : RegExpEngine)
         (filename : string) (lines : list string)
         (states : gmap string FileNavigatorState) (k : nat),
    fs filename = Some lines ->
    let st := state_of filename states in
    0 <= screenHeight st ->
    (1 <= currentLine st ->
     currentLine
       (state_of filename
          (Nat.iter k (fun s => (callTool fs PageUp filename s).2) states))
     = Z.max 1 (currentLine st - Z.of_nat k * screenHeight st))
    /\ (currentLine st <= Z.of_nat (length lines) ->
        currentLine
          (state_of filename
             (Nat.iter k (fun s => (callTool fs PageDown filename s).2) states))
        = Z.min (Z.of_nat (length lines))
                (currentLine st + Z.of_nat k * screenHeight st)).
Proof.
  intros fs engine filename lines states k Hfile st Hheight. split.
  - intros Hcur.
    rewrite (page_iter fs filename lines PageUp (fun c h => Z.max 1 (c - h))
               states k Hfile)
      by (intros s; apply (page_up_state fs filename lines s Hfile)).
    fold st. cbn [currentLine set_currentLine].
    induction k as [|k IH]; [cbn; lia|].
    rewrite Nat.iter_succ, IH. nia.
  - intros Hcur.
    rewrite (page_iter fs filename lines PageDown
               (fun c h => Z.min (Z.of_nat (length lines)) (c + h))
               states k Hfile)
      by (intros s; apply (page_down_state fs filename lines s Hfile)).
    fold st. cbn [currentLine set_currentLine].
    induction k as [|k IH]; [cbn; lia|].
    rewrite Nat.iter_succ, IH. nia.
Qed.

Lemma paging_k_times_witness :
  currentLine
    (state_of "f"
       (Nat.iter 2 (fun s => (callTool (one_file seven_lines)
                                       (engine := literal_engine)
                                       PageDown "f" s).2)
                 {["f" := mkState (Some "f") 2 2 None [] (-1)]}))
  = 6.
Proof.
  destruct (paging_k_times (one_file seven_lines) literal_engine "f"
              seven_lines {["f" := mkState (Some "f") 2 2 None [] (-1)]}
              2 eq_refl) as [_ Hdown].
  - vm_compute. discriminate.
  - rewrite Hdown; [reflexivity|vm_compute; discriminate].
Defined.

(** ** Forth and back through the matches *)

Lemma prev_next_state fs filename lines st :
  fs filename = Some lines ->
  searchMatches st <> [] ->
  0 <= currentMatchIndex st < Z.of_nat (length (searchMatches st)) ->
  at_index (currentMatchIndex st) st = st ->
  (prev_match fs filename (next_match fs filename st).2).2 = st
  /\ (next_match fs filename (prev_match fs filename st).2).2 = st.
Proof.
  intros Hfile Hne Hidx Hat.
  set (n := Z.of_nat (length (searchMatches st))) in *.
  assert (Hmoved : forall j, 0 <= j < n ->
            searchMatches (at_index j st) = searchMatches st
            /\ currentMatchIndex (at_index j st) = j).
  { intros j Hj.
    destruct (lookup_lt_is_Some_2 (searchMatches st) (Z.to_nat j)) as [m Hm];
      [lia|].
    destruct (at_index_fields j st m Hm) as (H1 & H2 & _). split; assumption. }
  assert (Hback : forall j, 0 <= j < n ->
            at_index (currentMatchIndex st) (at_index j st) = st).
  { intros j Hj. rewrite at_index_at_index; [exact Hat|].
    apply lookup_lt_is_Some_2. lia. }
  split.
  - destruct (next_match_readable fs filename lines st Hfile Hne Hidx)
      as [text ->]. cbn [snd]. fold n.
    set (j := (currentMatchIndex st + 1) `mod` n).
    assert (Hj : 0 <= j < n) by (apply Z.mod_pos_bound; lia).
    destruct (Hmoved j Hj) as [Hms Hi].
    destruct (prev_match_readable fs filename lines (at_index j st) Hfile)
      as [text' ->]; [rewrite Hms; exact Hne|rewrite Hms, Hi; exact Hj|].
    cbn [snd]. rewrite Hms, Hi. fold n.
    replace (if j - 1 <? 0 then n - 1 else j - 1) with (currentMatchIndex st).
    + apply Hback, Hj.
    + subst j. destruct (decide (currentMatchIndex st + 1 = n)) as [Heq|Hneq].
      * rewrite Heq, Z.mod_same by lia.
        destruct (Z.ltb_spec (0 - 1) 0); lia.
      * rewrite Z.mod_small by lia.
        destruct (Z.ltb_spec (currentMatchIndex st + 1 - 1) 0); lia.
  - destruct (prev_match_readable fs filename lines st Hfile Hne Hidx)
      as [text ->]. cbn [snd]. fold n.
    set (j := if currentMatchIndex st - 1 <? 0 then n - 1
              else currentMatchIndex st - 1).
    assert (Hj : 0 <= j < n)
      by (subst j; destruct (Z.ltb_spec (currentMatchIndex st - 1) 0); lia).
    destruct (Hmoved j Hj) as [Hms Hi].
    destruct (next_match_readable fs filename lines (at_index j st) Hfile)
      as [text' ->]; [rewrite Hms; exact Hne|rewrite Hms, Hi; exact Hj|].
    cbn [snd]. rewrite Hms, Hi. fold n.
    replace ((j + 1) `mod` n) with (currentMatchIndex st).
    + apply Hback, Hj.
    + subst j. destruct (Z.ltb_spec (currentMatchIndex st - 1) 0).
      * replace (n - 1 + 1) with n by lia. rewrite Z.mod_same by lia. lia.
      * rewrite Z.mod_small by lia. lia.
Qed.

(** X12. After a [find] on an accessible file that leaves a non-empty
    match list, [next_match] followed by [prev_match], and [prev_match]
    followed by [next_match], bring the table of states back to what it
    was, wrap-around included. *)
Theorem prev_match_undoes_next_match :
  forall (fs : string -> option (list string)) (engine : RegExpEngine)
         (filename pattern : string) (isRegex : bool)
         (states : gmap string FileNavigatorState),
    accessible fs filename ->
    let after_find := (callTool fs (Find pattern isRegex) filename states).2 in
    searchMatches (state_of filename after_find) <> [] ->
    (callTool fs PrevMatch filename
       (callTool fs NextMatch filename after_find).2).2 = after_find
    /\ (callTool fs NextMatch filename
          (callTool fs PrevMatch filename after_find).2).2 = after_find.
Proof.
  intros fs engine filename pattern isRegex states Hacc after_find Hne.
  destruct (find_landed fs filename pattern isRegex states Hacc Hne)
    as (Hidx & landed & Hlook & Hcur).
  fold after_find in Hidx, Hlook, Hcur.
  destruct Hacc as [lines Hfile].
  set (st := state_of filename after_find) in *.
  assert (Htable : after_find = <[filename := st]> states).
  { subst st after_find.
    rewrite (callTool_step fs filename lines) by (exact Hfile || discriminate).
    cbn [snd]. rewrite state_of_insert. reflexivity. }
  assert (Hi : 0 <= currentMatchIndex st < Z.of_nat (length (searchMatches st))).
  { rewrite Hidx. apply lookup_lt_Some in Hlook. lia. }
  assert (Hat : at_index (currentMatchIndex st) st = st).
  { apply (at_index_current st landed); [|exact Hcur].
    rewrite Hidx, Nat2Z.id. exact Hlook. }
  destruct (prev_next_state fs filename lines st Hfile Hne Hi Hat)
    as [Hpn Hnp].
  assert (Hstep : forall tool s, tool = NextMatch \/ tool = PrevMatch ->
            (callTool fs tool filename (<[filename := s]> states)).2
            = <[filename := (run_tool fs filename tool s).2]> states).
  { intros tool s [-> | ->];
      rewrite (callTool_step fs filename lines) by (exact Hfile || discriminate);
      cbn [snd]; rewrite state_of_insert, insert_insert_eq; reflexivity. }
  rewrite Htable.
  rewrite !Hstep by auto. cbn [run_tool]. rewrite Hpn, Hnp. split; reflexivity.
Qed.

Lemma prev_match_undoes_next_match_witness :
  let after_find :=
    (callTool (one_file seven_lines) (engine := literal_engine)
              (Find "foo" false) "f" ∅).2 in
  (callTool (one_file seven_lines) (engine := literal_engine) PrevMatch "f"
     (callTool (one_file seven_lines) (engine := literal_engine)
               NextMatch "f" after_find).2).2 = after_find
  /\ (callTool (one_file seven_lines) (engine := literal_engine) NextMatch "f"
        (callTool (one_file seven_lines) (engine := literal_engine)
                  PrevMatch "f" after_find).2).2 = after_find.
Proof.
  apply (prev_match_undoes_next_match (one_file seven_lines) literal_engine
           "f" "foo" false ∅).
  - exists seven_lines. reflexivity.
  - vm_compute. discriminate.
Defined.

(** ** What a literal search finds *)

Lemma scan_no_hit rest : forall r lineNum cursor first matches index,
  Forall (fun l => ~ occurs (matcher r) l) rest ->
  scan rest r lineNum cursor first matches index = (first, matches, index).
Proof.
  induction rest as [|l rest IH]; intros r lineNum cursor first matches index Hno;
    [reflexivity|].
  inversion Hno as [|? ? Hl Hrest]; subst. cbn [scan].
  destruct (test r l).1 eqn:Hhit.
  - contradiction Hl. apply test_true_occurs, Hhit.
  - apply IH. rewrite test_matcher. exact Hrest.
Qed.

(** X13. For an ASCII pattern and a readable file of ASCII lines: a
    literal-mode [find] on a file none of whose lines contains the
    pattern, in any letter case, answers [Pattern not found: "pattern"];
    it leaves the match list empty, the match index at -1 and the cursor
    where it was, and stores the pattern. *)
Theorem find_pattern_not_found :
  forall (fs : string -> option (list string)) (engine : RegExpEngine)
         (filename pattern : string) (lines : list string)
         (states : gmap string FileNavigatorState),
    fs filename = Some lines ->
    Str.is_ascii pattern = true ->
    Forall (fun l => Str.is_ascii l = true) lines ->
    Forall (fun l => ~ contains_ci pattern l) lines ->
    let st := state_of filename states in
    let r := callTool fs (Find pattern false) filename states in
    r.1 = inr (not_found pattern)
    /\ state_of filename r.2
       = mkState (currentFile st) (currentLine st) (screenHeight st)
                 (Some pattern) [] (-1).
Proof.
  intros fs engine filename pattern lines states Hfile Hp Hascii Hno st r.
  subst r.
  rewrite (callTool_step fs filename lines) by (exact Hfile || discriminate).
  cbn [run_tool fst snd]. rewrite state_of_insert. fold st.
  rewrite (find_literal_readable fs filename lines pattern st Hfile Hp Hascii).
  unfold find_outcome. rewrite scan_no_hit.
  - split; reflexivity.
  - eapply Forall_impl; [exact Hno|]. intros l Hl Hocc. apply Hl.
    apply contains_ci_occurs. exact Hocc.
Qed.

Lemma find_pattern_not_found_witness :
  let r := callTool (one_file seven_lines) (engine := literal_engine)
                    (Find "bar" false) "f" ∅ in
  r.1 = inr (not_found "bar")
  /\ state_of "f" r.2 = mkState (Some "f") 1 30 (Some "bar") [] (-1).
Proof.
  destruct (find_pattern_not_found (one_file seven_lines) literal_engine
              "f" "bar" seven_lines ∅ eq_refl eq_refl)
    as [Htext Hstate].
  - unfold seven_lines. repeat constructor.
  - unfold seven_lines. repeat constructor;
      intros Hc; apply includes_ci_contains in Hc; vm_compute in Hc;
      discriminate.
  - split; [exact Htext|]. rewrite Hstate. reflexivity.
Defined.

Lemma scan_first_hit p rest :
  forall r lineNum cursor first matches index (n : nat) l,
    matcher r = literal_matcher p ->
    lastIndex r = 0%nat ->
    rest !! n = Some l ->
    includes_ci p l = true ->
    (forall k l', (k < n)%nat -> rest !! k = Some l' ->
                  includes_ci p l' = false) ->
    (scan rest r lineNum cursor first matches index).1.2 !! length matches
    = Some (mkMatch (lineNum + Z.of_nat n) l).
Proof.
  induction rest as [|l0 rest IH];
    intros r lineNum cursor first matches index n l Hr Hfresh Hn Hl Hbefore;
    [discriminate|].
  cbn [scan]. destruct n as [|n].
  - cbn in Hn. injection Hn as ->.
    rewrite test_fresh_occurs
      by (auto; rewrite Hr; apply includes_ci_occurs, Hl).
    rewrite Z.add_0_r.
    assert (Hat : (matches ++ [mkMatch lineNum l]) !! length matches
                  = Some (mkMatch lineNum l))
      by (rewrite lookup_app_r, Nat.sub_diag by lia; reflexivity).
    destruct (MAX_SEARCH_RESULTS <=? _); [exact Hat|].
    match goal with
    | |- context [scan rest ?r' ?n' cursor ?f' ?ms' ?i'] =>
        destruct (scan_collects rest r' n' cursor f' ms' i') as (new & -> & _)
    end.
    rewrite lookup_app_l
      by (rewrite length_app; cbn; lia). exact Hat.
  - cbn [lookup list_lookup] in Hn.
    assert (Hmiss : (test r l0).1 = false).
    { apply not_true_is_false. intros Hhit.
      apply test_true_occurs in Hhit. rewrite Hr in Hhit.
      apply includes_ci_occurs in Hhit.
      rewrite (Hbefore 0%nat l0) in Hhit by (lia || reflexivity).
      discriminate. }
    rewrite Hmiss.
    replace (lineNum + Z.of_nat (S n)) with (lineNum + 1 + Z.of_nat n) by lia.
    apply IH; try assumption.
    + rewrite test_matcher. exact Hr.
    + apply test_false_lastIndex, Hmiss.
    + intros k l' Hk Hl'. apply (Hbefore (S k) l'); [lia|exact Hl'].
Qed.

(** X14. For an ASCII pattern and a readable file of ASCII lines, in
    literal mode: the first line that contains the pattern, in any letter
    case, is the first recorded match, under its line number and with its
    text; so a pattern that some line contains is never reported as not
    found. *)
Theorem find_records_first_occurrence :
  forall (fs : string -> option (list string)) (engine : RegExpEngine)
         (filename pattern : string) (lines : list string)
         (states : gmap string FileNavigatorState) (n : nat) (l : string),
    fs filename = Some lines ->
    Str.is_ascii pattern = true ->
    Forall (fun l => Str.is_ascii l = true) lines ->
    lines !! n = Some l ->
    contains_ci pattern l ->
    (forall k l', (k < n)%nat -> lines !! k = Some l' ->
                  ~ contains_ci pattern l') ->
    searchMatches
      (state_of filename
         (callTool fs (Find pattern false) filename states).2) !! 0%nat
    = Some (mkMatch (Z.of_nat n + 1) l).
Proof.
  intros fs engine filename pattern lines states n l Hfile Hp Hascii Hn Hl
         Hbefore.
  rewrite (literal_find_state fs filename lines pattern states Hfile Hp Hascii).
  destruct (find_outcome_state lines pattern (literal_matcher pattern)
              (state_of filename states)) as (-> & _).
  replace (Z.of_nat n + 1) with (1 + Z.of_nat n) by lia.
  apply (scan_first_hit pattern lines (mkRegExp (literal_matcher pattern) 0)
           1 _ None [] (-1) n l); try reflexivity; try assumption.
  - apply includes_ci_contains, Hl.
  - intros k l' Hk Hl'. apply not_true_is_false. intros Hinc.
    apply (Hbefore k l' Hk Hl'). apply includes_ci_contains, Hinc.
Qed.

Lemma find_records_first_occurrence_witness :
  searchMatches
    (state_of "f"
       (callTool (one_file seven_lines) (engine := literal_engine)
                 (Find "Foo" false) "f" ∅).2) !! 0%nat
  = Some (mkMatch 3 "foo").
Proof.
  apply (find_records_first_occurrence (one_file seven_lines) literal_engine
           "f" "Foo" seven_lines ∅ 2 "foo").
  - reflexivity.
  - reflexivity.
  - unfold seven_lines. repeat constructor.
  - reflexivity.
  - exists "", "foo", "". split; reflexivity.
  - intros k l' Hk Hl' Hc. apply includes_ci_contains in Hc.
    destruct k as [|[|k]]; [| |lia]; vm_compute in Hl'; injection Hl' as <-;
      vm_compute in Hc; discriminate.
Defined.

(** X15. On a readable file, in either mode, every match that [find]
    records is a line of the file under its own line number and with its
    own text; the matches are in the order of the file, and there are at
    most 1000 of them.  In literal mode with an ASCII pattern, each recorded
    line that is ASCII contains the pattern up to letter case. *)
Theorem find_records_lines_of_file :
  forall (fs : string -> option (list string)) (engine : RegExpEngine)
         (filename pattern : string) (isRegex : bool) (lines : list string)
         (states : gmap string FileNavigatorState),
    fs filename = Some lines ->
    let ms := searchMatches
                (state_of filename
                   (callTool fs (Find pattern isRegex) filename states).2) in
    Forall (fun m => exists k : nat,
              lines !! k = Some (content m)
              /\ line m = Z.of_nat k + 1
              /\ (isRegex = false ->
                  Str.is_ascii pattern = true ->
                  Str.is_ascii (content m) = true ->
                  contains_ci pattern (content m))) ms
    /\ StronglySorted (fun a b => line a < line b) ms
    /\ Z.of_nat (length ms) <= MAX_SEARCH_RESULTS.
Proof.
  intros fs engine filename pattern isRegex lines states Hfile ms. subst ms.
  rewrite (callTool_state fs filename lines) by (exact Hfile || discriminate).
  cbn [run_tool].
  destruct (compile_cases pattern isRegex) as [[-> Hbad] | [m Hm]].
  - rewrite find_compile_failure by exact Hbad. cbn.
    repeat split; try constructor. unfold MAX_SEARCH_RESULTS. lia.
  - rewrite (find_readable fs filename lines pattern isRegex m _ Hfile Hm).
    destruct (find_records_matching_lines lines pattern m
                (state_of filename states)) as (Hall & Hsorted & Hcap).
    split; [|split; [exact Hsorted|exact Hcap]].
    eapply Forall_impl; [exact Hall|].
    intros x (k & Hk & Hline & Hocc). exists k.
    split; [exact Hk|]. split; [exact Hline|].
    intros -> Hp Hx. apply contains_ci_occurs.
    destruct (compile_literal pattern) as (m' & Hnew & Hm').
    pose proof (Hm (initialState "")) as Hc.
    rewrite Hm' in Hc. injection Hc as <-.
    destruct Hocc as (i & e & Hi & He). exists i, e. split; [exact Hi|].
    rewrite <- (RegExp_new_ascii pattern m' (content x) i Hnew Hp Hx Hi).
    exact He.
Qed.

Lemma find_records_lines_of_file_witness :
  let ms := searchMatches
              (state_of "f"
                 (callTool (one_file seven_lines) (engine := literal_engine)
                           (Find "foo" false) "f" ∅).2) in
  Forall (fun m => exists k : nat,
            seven_lines !! k = Some (content m)
            /\ line m = Z.of_nat k + 1
            /\ (false = false ->
                Str.is_ascii "foo" = true ->
                Str.is_ascii (content m) = true ->
                contains_ci "foo" (content m))) ms
  /\ StronglySorted (fun a b => line a < line b) ms
  /\ Z.of_nat (length ms) <= MAX_SEARCH_RESULTS.
Proof.
  apply (find_records_lines_of_file (one_file seven_lines) literal_engine
           "f" "foo" false seven_lines ∅).
  reflexivity.
Defined.

Lemma filter_take_length {A} (f : A -> bool) (l : list A) n :
  (length (List.filter f (take n l)) <= length (List.filter f l))%nat.
Proof.
  rewrite <- (take_drop n l) at 2. rewrite List.filter_app, length_app. lia.
Qed.

(** X16. For an ASCII pattern and a readable file of ASCII lines, in
    literal mode: when fewer than 1000 lines contain the pattern and no two
    lines in a row contain it, the recorded matches are exactly the lines
    that contain the pattern, up to letter case, each under its line
    number. *)
Theorem find_exact_when_matches_apart :
  forall (fs : string -> option (list string)) (engine : RegExpEngine)
         (filename pattern : string) (lines : list string)
         (states : gmap string FileNavigatorState),
    fs filename = Some lines ->
    Str.is_ascii pattern = true ->
    Forall (fun l => Str.is_ascii l = true) lines ->
    Z.of_nat (length (List.filter (includes_ci pattern) lines))
      < MAX_SEARCH_RESULTS ->
    (forall k l l', lines !! k = Some l -> lines !! S k = Some l' ->
                    ~ (contains_ci pattern l /\ contains_ci pattern l')) ->
    forall (n : nat) (l : string),
      mkMatch (Z.of_nat n + 1) l
        ∈ searchMatches
            (state_of filename
               (callTool fs (Find pattern false) filename states).2)
      <-> lines !! n = Some l /\ contains_ci pattern l.
Proof.
  intros fs engine filename pattern lines states Hfile Hp Hascii Hcount Hapart
         n l.
  rewrite (literal_find_state fs filename lines pattern states Hfile Hp Hascii).
  split.
  - intros Hin.
    destruct (find_records_matching_lines lines pattern
                (literal_matcher pattern) (state_of filename states))
      as (Hall & _ & _).
    rewrite Forall_forall in Hall.
    destruct (Hall _ Hin) as (k & Hk & Hline & Hc). cbn in Hk, Hline, Hc.
    assert (k = n) as -> by lia.
    split; [exact Hk|apply contains_ci_occurs, Hc].
  - intros [Hn Hl].
    destruct (find_outcome_state lines pattern (literal_matcher pattern)
                (state_of filename states)) as (-> & _).
    replace (Z.of_nat n + 1) with (1 + Z.of_nat n) by lia.
    apply (scan_reports pattern); try assumption; try reflexivity.
    + apply includes_ci_contains, Hl.
    + intros n' l' -> Hl'. apply not_true_is_false. intros Hinc.
      apply (Hapart n' l' l Hl' Hn). split; [|exact Hl].
      apply includes_ci_contains, Hinc.
    + cbn [length Nat.add].
      pose proof (filter_take_length (includes_ci pattern) lines n). lia.
Qed.

Lemma find_exact_when_matches_apart_witness :
  mkMatch 7 "a foo"
    ∈ searchMatches
        (state_of "f"
           (callTool (one_file seven_lines) (engine := literal_engine)
                     (Find "foo" false) "f" ∅).2)
  <-> seven_lines !! 6%nat = Some "a foo" /\ contains_ci "foo" "a foo".
Proof.
  refine (find_exact_when_matches_apart (one_file seven_lines) literal_engine
            "f" "foo" seven_lines ∅ eq_refl eq_refl _ _ _ 6%nat "a foo").
  - unfold seven_lines. repeat constructor.
  - vm_compute. reflexivity.
  - intros k l l' Hk Hk' [Hc Hc'].
    apply includes_ci_contains in Hc, Hc'.
    destruct k as [|[|[|[|[|[|[|k]]]]]]]; vm_compute in Hk, Hk';
      try discriminate; injection Hk as <-; injection Hk' as <-;
      vm_compute in Hc, Hc'; discriminate.
Defined.

(** X17. Two literal patterns that differ in letter case only give, from
    the same table and on the same readable file, the same match list, the
    same match index and the same cursor. *)
Theorem find_pattern_case_irrelevant :
  forall (fs : string -> option (list string)) (engine : RegExpEngine)
         (filename p p' : string) (lines : list string)
         (states : gmap string FileNavigatorState),
    fs filename = Some lines ->
    Str.fold_case p = Str.fold_case p' ->
    let a := state_of filename (callTool fs (Find p false) filename states).2 in
    let b := state_of filename (callTool fs (Find p' false) filename states).2 in
    searchMatches a = searchMatches b
    /\ currentMatchIndex a = currentMatchIndex b
    /\ currentLine a = currentLine b.
Proof.
  intros fs engine filename p p' lines states Hfile Hcase a b. subst a b.
  rewrite !(callTool_state fs filename lines) by (exact Hfile || discriminate).
  cbn [run_tool].
  destruct (compile_literal p) as (m & Hnew & Hm).
  destruct (compile_literal p') as (m' & Hnew' & Hm').
  rewrite (find_readable fs filename lines p false m _ Hfile Hm).
  rewrite (find_readable fs filename lines p' false m' _ Hfile Hm').
  apply find_outcome_pattern_case.
  apply Forall_forall. intros l _ j Hj.
  apply (RegExp_new_case p p' m m' l j Hcase Hnew Hnew' Hj).
Qed.

Lemma find_pattern_case_irrelevant_witness :
  let a := state_of "f" (callTool (one_file seven_lines)
                                  (engine := literal_engine)
                                  (Find "foo" false) "f" ∅).2 in
  let b := state_of "f" (callTool (one_file seven_lines)
                                  (engine := literal_engine)
                                  (Find "FoO" false) "f" ∅).2 in
  searchMatches a = searchMatches b
  /\ currentMatchIndex a = currentMatchIndex b
  /\ currentLine a = currentLine b.
Proof.
  apply (find_pattern_case_irrelevant (one_file seven_lines) literal_engine
           "f" "foo" "FoO" seven_lines ∅); reflexivity.
Defined.

(** ** The empty pattern *)

Lemma test_empty_pattern r l :
  (forall s i, (i <= String.length s)%nat -> matcher r s i = Some i) ->
  lastIndex r = 0%nat ->
  (test r l).1 = true /\ lastIndex (test r l).2 = 0%nat.
Proof.
  intros Hm Hfresh. unfold test. rewrite Hfresh.
  cbn [Nat.ltb Nat.leb exec_scan]. rewrite (Hm l 0%nat) by lia.
  split; reflexivity.
Qed.

Lemma scan_empty_pattern rest :
  forall r lineNum cursor first matches index,
    (forall s i, (i <= String.length s)%nat -> matcher r s i = Some i) ->
    lastIndex r = 0%nat ->
    Z.of_nat (length matches) < MAX_SEARCH_RESULTS ->
    (scan rest r lineNum cursor first matches index).1.2
    = matches
      ++ imap (fun i l => mkMatch (lineNum + Z.of_nat i) l)
           (take (Z.to_nat (MAX_SEARCH_RESULTS - Z.of_nat (length matches)))
                 rest).
Proof.
  induction rest as [|l rest IH];
    intros r lineNum cursor first matches index Hm Hfresh Hroom.
  - rewrite take_nil. cbn. rewrite app_nil_r. reflexivity.
  - cbn [scan]. destruct (test_empty_pattern r l Hm Hfresh) as [-> Hlast].
    replace (Z.to_nat (MAX_SEARCH_RESULTS - Z.of_nat (length matches)))
      with (S (Z.to_nat (MAX_SEARCH_RESULTS - Z.of_nat (length matches) - 1)))
      by lia.
    cbn [take imap]. rewrite Z.add_0_r.
    assert (Hlen : Z.of_nat (length (matches ++ [mkMatch lineNum l]))
                   = Z.of_nat (length matches) + 1)
      by (rewrite length_app; cbn; lia).
    destruct (Z.leb_spec MAX_SEARCH_RESULTS
                (Z.of_nat (length (matches ++ [mkMatch lineNum l]))))
      as [Hfull|Hmore].
    + cbn [fst snd].
      replace (Z.to_nat (MAX_SEARCH_RESULTS - Z.of_nat (length matches) - 1))
        with 0%nat by lia.
      reflexivity.
    + rewrite IH by (rewrite ?test_matcher; assumption).
      rewrite <- app_assoc. cbn [app]. f_equal. f_equal.
      rewrite Hlen.
      replace (MAX_SEARCH_RESULTS - (Z.of_nat (length matches) + 1))
        with (MAX_SEARCH_RESULTS - Z.of_nat (length matches) - 1) by lia.
      apply imap_ext. intros i x _. cbn. f_equal. lia.
Qed.

(** X18. A literal-mode [find] with the empty pattern on a readable file
    records every line, in order and under its line number, up to the
    first 1000. *)
Theorem find_empty_pattern_records_all :
  forall (fs : string -> option (list string)) (engine : RegExpEngine)
         (filename : string) (lines : list string)
         (states : gmap string FileNavigatorState),
    fs filename = Some lines ->
    searchMatches
      (state_of filename (callTool fs (Find "" false) filename states).2)
    = imap (fun i l => mkMatch (Z.of_nat i + 1) l) (take 1000 lines).
Proof.
  intros fs engine filename lines states Hfile.
  rewrite (callTool_state fs filename lines) by (exact Hfile || discriminate).
  cbn [run_tool].
  destruct (compile_literal "") as (m & Hnew & Hm).
  rewrite (find_readable fs filename lines "" false m _ Hfile Hm).
  destruct (find_outcome_state lines "" m (state_of filename states))
    as (-> & _).
  rewrite scan_empty_pattern;
    [|intros s i Hi; apply (RegExp_new_empty m s i Hnew Hi)
     |reflexivity
     |cbn; unfold MAX_SEARCH_RESULTS; lia].
  cbn [app length]. apply imap_ext. intros i x _. f_equal. lia.
Qed.

Lemma find_empty_pattern_records_all_witness :
  searchMatches
    (state_of "f"
       (callTool (one_file ["a"; "b"]) (engine := literal_engine)
                 (Find "" false) "f" ∅).2)
  = [mkMatch 1 "a"; mkMatch 2 "b"].
Proof.
  rewrite (find_empty_pattern_records_all (one_file ["a"; "b"]) literal_engine
             "f" ["a"; "b"] ∅ eq_refl).
  reflexivity.
Defined.

(** ** Requests that fail at the door *)

(** X19. A request with a non-empty file name under which no file exists
    (the access check fails with [ENOENT]) is answered by the
    invalid-parameter error [File not found: filename], whatever the tool,
    known or not, and the table of states is left as it was: no entry is
    created. *)
Theorem callTool_file_not_found :
  forall (fs : string -> option (list string)) (engine : RegExpEngine)
         (tool : Tool) (filename : string)
         (states : gmap string FileNavigatorState),
    filename <> "" ->
    fs filename = None ->
    callTool fs tool filename states
    = (inl (McpError InvalidParams ("File not found: " +:+ filename)), states).
Proof.
  intros fs engine tool filename states Hname Hmissing. unfold callTool.
  rewrite Hmissing.
  rewrite (proj2 (String.eqb_neq filename "") Hname).
  rewrite bool_decide_eq_false_2 by (intros [x Hx]; discriminate Hx).
  reflexivity.
Qed.

Lemma callTool_file_not_found_witness :
  callTool (one_file seven_lines) (engine := literal_engine)
           (Find "foo" false) "g" ∅
  = (inl (McpError InvalidParams ("File not found: " +:+ "g")), ∅).
Proof.
  apply callTool_file_not_found; [discriminate|reflexivity].
Defined.

(** A request for a tool that the handler does not know is answered
    by the method-not-found error [Unknown tool: name] when the file can be
    accessed, and the table of states is left as it was. *)
Theorem callTool_unknown_tool :
  forall (fs : string -> option (list string)) (engine : RegExpEngine)
         (name filename : string)
         (states : gmap string FileNavigatorState),
    accessible fs filename ->
    callTool fs (Unknown name) filename states
    = (inl (McpError MethodNotFound ("Unknown tool: " +:+ name)), states).
Proof.
  intros fs engine name filename states Hacc. unfold callTool.
  rewrite bool_decide_eq_true_2 by exact Hacc.
  rewrite andb_false_r. reflexivity.
Qed.

Lemma callTool_unknown_tool_witness :
  callTool (one_file seven_lines) (engine := literal_engine)
           (Unknown "delete") "f" ∅
  = (inl (McpError MethodNotFound ("Unknown tool: " +:+ "delete")), ∅).
Proof.
  apply callTool_unknown_tool. exists seven_lines. reflexivity.
Defined.

(** X20. No request removes an entry from the table of states, and a
    request for a known tool on an accessible file leaves an entry for its
    file: the entries after it are those before it and that one. *)
Theorem callTool_table_grows :
  forall (fs : string -> option (list string)) (engine : RegExpEngine)
         (tool : Tool) (filename : string)
         (states : gmap string FileNavigatorState),
    dom states ⊆ dom (callTool fs tool filename states).2
    /\ (accessible fs filename ->
        (forall name, tool <> Unknown name) ->
        dom (callTool fs tool filename states).2 = {[filename]} ∪ dom states).
Proof.
  intros fs engine tool filename states. split.
  - unfold callTool.
    destruct (negb (filename =? "")%string
              && negb (bool_decide (is_Some (fs filename)))); [reflexivity|].
    destruct tool; try reflexivity;
      rewrite getNavigatorState_pair;
      match goal with
      | |- context [run_tool ?a ?b ?c ?d] =>
          destruct (run_tool a b c d) as [[e|text] st']
      end; cbn [snd]; rewrite insert_insert_eq, dom_insert_L; set_solver.
  - intros [lines Hfile] Hknown.
    rewrite (callTool_step fs filename lines tool states Hfile Hknown).
    cbn [snd]. apply dom_insert_L.
Qed.

Lemma callTool_table_grows_witness :
  dom (callTool (one_file seven_lines) (engine := literal_engine)
                PageDown "f" {["g" := searching]}).2
  = ({["f"]} ∪ dom ({["g" := searching]} : gmap string FileNavigatorState)
     : gset string).
Proof.
  apply (callTool_table_grows (one_file seven_lines) literal_engine
           PageDown "f" {["g" := searching]}).
  - exists seven_lines. reflexivity.
  - discriminate.
Defined.

(** ** No read outside the match list *)

Lemma index_valid_same st st' :
  searchMatches st' = searchMatches st ->
  currentMatchIndex st' = currentMatchIndex st ->
  index_valid st -> index_valid st'.
Proof. unfold index_valid. intros -> ->. auto. Qed.

Lemma show_match_safe fs filename st :
  0 <= currentMatchIndex st < Z.of_nat (length (searchMatches st)) ->
  safe_outcome (show_match fs filename st).
Proof.
  intros Hidx.
  destruct (lookup_lt_is_Some_2 (searchMatches st)
              (Z.to_nat (currentMatchIndex st))) as [m Hm]; [lia|].
  unfold show_match, current_match.
  unfold bind at 1. unfold bind at 1. cbn [get]. unfold bind at 1. cbn [get].
  rewrite (proj2 (Z.ltb_ge _ _) (proj1 Hidx)), Hm. cbn [ret].
  unfold bind at 1. cbn [modify].
  unfold getLines_at_cursor, getLines, getTotalLines, readFileLines.
  unfold bind, get, ret, throw.
  destruct (fs filename); cbn; (split; [|split; discriminate]);
    intros _; exact Hidx.
Qed.

Lemma run_tool_safe fs {engine : RegExpEngine} filename tool st :
  index_valid st -> safe_outcome (run_tool fs filename tool st).
Proof.
  intros Hvalid. destruct tool as [l h|p isRegex| | | | |name]; cbn [run_tool].
  - unfold go_to_line, getLines_at_cursor, getLines, getTotalLines,
      readFileLines, bind, get, ret, throw, modify.
    destruct (fs filename); [|split; [exact Hvalid|split; discriminate]].
    destruct h as [h|]; [destruct (h =? 0)|]; cbn;
      (split; [exact Hvalid|split; discriminate]).
  - destruct (compile_cases p isRegex) as [[-> Hbad] | [m Hm]].
    + rewrite find_compile_failure by exact Hbad.
      split; [|split; discriminate]. intros Hne. contradiction Hne. reflexivity.
    + destruct (fs filename) as [lines|] eqn:Hfile.
      * rewrite (find_readable fs filename lines p isRegex m st Hfile Hm).
        assert (Htext : exists text, (find_outcome lines p m st).1 = inr text).
        { unfold find_outcome, land.
          destruct (scan lines _ 1 (currentLine st) None [] (-1))
            as [[[landed|] [|m0 ms]] index]; eexists; reflexivity. }
        destruct Htext as [text Htext]. unfold safe_outcome. rewrite Htext.
        split; [|split; discriminate].
        destruct (find_outcome_state lines p m st)
          as (Hms & _ & _ & _ & _ & Hland).
        intros Hne. rewrite Hms in Hne. destruct (Hland Hne)
          as (-> & landed & Hlook & _).
        rewrite Hms. apply lookup_lt_Some in Hlook. lia.
      * unfold find, bind, modify. rewrite Hm.
        unfold readFileLines. rewrite Hfile. cbn.
        split; [|split; discriminate]. intros Hne. contradiction Hne. reflexivity.
  - unfold next_match. unfold bind at 1. cbn [get].
    destruct (Z.eqb_spec (Z.of_nat (length (searchMatches st))) 0) as [Hz|Hz].
    { split; [exact Hvalid|split; discriminate]. }
    unfold bind at 1. cbn [modify]. apply show_match_safe. cbn.
    rewrite Z.rem_mod_nonneg;
      [apply Z.mod_pos_bound; lia| |lia].
    assert (Hne : searchMatches st <> [])
      by (intros Hnil; rewrite Hnil in Hz; contradiction Hz; reflexivity).
    specialize (Hvalid Hne). lia.
  - unfold prev_match. unfold bind at 1. cbn [get].
    destruct (Z.eqb_spec (Z.of_nat (length (searchMatches st))) 0) as [Hz|Hz].
    { split; [exact Hvalid|split; discriminate]. }
    assert (Hne : searchMatches st <> [])
      by (intros Hnil; rewrite Hnil in Hz; contradiction Hz; reflexivity).
    specialize (Hvalid Hne).
    unfold bind at 1. cbn [modify]. unfold bind at 1. cbn [get].
    cbn [set_currentMatchIndex currentMatchIndex].
    destruct (Z.ltb_spec (currentMatchIndex st - 1) 0);
      unfold bind at 1; cbn [modify ret]; apply show_match_safe; cbn; lia.
  - unfold page_up, getLines_at_cursor, getLines, getTotalLines,
      readFileLines, bind, get, ret, throw, modify.
    destruct (fs filename); cbn; (split; [exact Hvalid|split; discriminate]).
  - unfold page_down, getLines_at_cursor, getLines, getTotalLines,
      readFileLines, bind, get, ret, throw, modify.
    destruct (fs filename); cbn; (split; [exact Hvalid|split; discriminate]).
  - split; [exact Hvalid|split; discriminate].
Qed.

Lemma callTool_safe fs {engine : RegExpEngine} tool filename states :
  map_Forall (fun _ st => index_valid st) states ->
  let r := callTool fs tool filename states in
  map_Forall (fun _ st => index_valid st) r.2
  /\ r.1 <> inl TypeError /\ r.1 <> inl SyntaxError.
Proof.
  intros Hall r. subst r. unfold callTool.
  destruct (negb (filename =? "")%string
            && negb (bool_decide (is_Some (fs filename))));
    [split; [exact Hall|split; discriminate]|].
  assert (Hst : index_valid (state_of filename states)).
  { unfold state_of, getNavigatorState.
    destruct (states !! filename) as [st|] eqn:Hlook; cbn.
    - exact (Hall filename st Hlook).
    - intros Hne. contradiction Hne. reflexivity. }
  destruct tool as [l h|p isRegex| | | | |name];
    [..|split; [exact Hall|split; discriminate]];
    rewrite getNavigatorState_pair;
    match goal with
    | |- context [run_tool ?a ?b ?c ?d] =>
        pose proof (run_tool_safe a b c d Hst) as (Hvalid & Hte & Hse);
        destruct (run_tool a b c d) as [[e|text] st']
    end; cbn [fst snd] in *; rewrite insert_insert_eq;
    (split; [apply map_Forall_insert_2; assumption|]);
    try (split; discriminate);
    (split; intros Heq; [apply Hte|apply Hse]; destruct e; try discriminate;
     reflexivity).
Qed.

(** X21. In any sequence of requests from the empty table, on whatever
    files and with the files changing between the requests, no request ends
    in a read of a match that does not exist (a type error) nor in a syntax
    error of the escaped literal pattern; and in every state of the final
    table the match index is an index of the match list when the list is
    not empty. *)
Theorem requests_never_read_missing_match :
  forall (engine : RegExpEngine) (requests : list Request),
    let r := run_requests requests ∅ in
    Forall (fun response => response <> inl TypeError
                            /\ response <> inl SyntaxError) r.1
    /\ map_Forall (fun _ st => index_valid st) r.2.
Proof.
  intros engine requests.
  assert (Hgen : forall states,
            map_Forall (fun _ st => index_valid st) states ->
            Forall (fun response => response <> inl TypeError
                                    /\ response <> inl SyntaxError)
                   (run_requests requests states).1
            /\ map_Forall (fun _ st => index_valid st)
                          (run_requests requests states).2).
  { induction requests as [|[[fs tool] filename] rest IH]; intros states Hall.
    - split; [constructor|exact Hall].
    - cbn [run_requests fst snd].
      destruct (callTool_safe fs tool filename states Hall) as (Hall' & Hr).
      destruct (IH _ Hall') as [Hrest Hfinal].
      split; [constructor; [exact Hr|exact Hrest]|exact Hfinal]. }
  apply Hgen. apply map_Forall_empty.
Qed.

(** ** The state invariant along a session *)

Lemma state_of_other_path fs {engine : RegExpEngine} tool p q states :
  p <> q ->
  state_of q (callTool fs tool p states).2 = state_of q states.
Proof.
  intros Hpq.
  assert (Hlook : (callTool fs tool p states).2 !! q = states !! q).
  { unfold callTool.
    destruct (negb (p =? "")%string && negb (bool_decide (is_Some (fs p))));
      [reflexivity|].
    destruct tool; try reflexivity;
      rewrite getNavigatorState_pair;
      match goal with
      | |- context [run_tool ?a ?b ?c ?d] =>
          destruct (run_tool a b c d) as [[e|text] st']
      end; cbn [snd]; rewrite !lookup_insert_ne by exact Hpq; reflexivity. }
  unfold state_of, getNavigatorState. rewrite Hlook.
  destruct (states !! q); reflexivity.
Qed.

(** X22. Take a file system that does not change and a file of it with at
    least one line.  After any sequence of requests from the empty table,
    for this file and for others, none of them with a negative page size,
    the state of the file has its cursor on a line of the file, a page size
    of at least 1, a match index that is an index of the match list when
    the list is not empty, at most 1000 matches, and only matches whose
    line is a line of the file. *)
Theorem session_keeps_state_invariant :
  forall (fs : string -> option (list string)) (engine : RegExpEngine)
         (filename : string) (lines : list string)
         (requests : list (Tool * string)),
    fs filename = Some lines ->
    lines <> [] ->
    Forall (fun request => height_ok request.1) requests ->
    let final :=
      (run_requests (map (fun request => (fs, request.1, request.2)) requests)
                    ∅).2 in
    let st := state_of filename final in
    let totalLines := Z.of_nat (length lines) in
    1 <= currentLine st <= totalLines
    /\ 1 <= screenHeight st
    /\ (searchMatches st <> [] ->
        0 <= currentMatchIndex st < Z.of_nat (length (searchMatches st)))
    /\ Z.of_nat (length (searchMatches st)) <= 1000
    /\ Forall (fun m => 1 <= line m <= totalLines) (searchMatches st).
Proof.
  intros fs engine filename lines requests Hfile Hne Hheights.
  assert (Htotal : 1 <= Z.of_nat (length lines))
    by (destruct lines; [contradiction|cbn; lia]).
  assert (Hgen : forall states,
            state_ok (Z.of_nat (length lines)) (state_of filename states) ->
            state_ok (Z.of_nat (length lines))
              (state_of filename
                 (run_requests
                    (map (fun request => (fs, request.1, request.2)) requests)
                    states).2)).
  { induction Hheights as [|[tool path] rest Hh _ IH]; intros states Hok;
      [exact Hok|].
    cbn [map run_requests fst snd]. apply IH.
    destruct (decide (path = filename)) as [->|Hother].
    - apply (state_ok_preserved fs filename lines tool states Hfile Hh Hok).
    - rewrite state_of_other_path by exact Hother. exact Hok. }
  apply (Hgen ∅). apply state_ok_initial, Htotal.
Qed.

Lemma session_keeps_state_invariant_witness :
  let final :=
    (run_requests (engine := literal_engine)
       (map (fun request => (one_file seven_lines, request.1, request.2))
            [(Find "foo" false, "f"); (NextMatch, "f"); (PageDown, "f")])
       ∅).2 in
  1 <= currentLine (state_of "f" final) <= 7.
Proof.
  destruct (session_keeps_state_invariant (one_file seven_lines)
              literal_engine "f" seven_lines
              [(Find "foo" false, "f"); (NextMatch, "f"); (PageDown, "f")]
              eq_refl) as (Hcur & _).
  - discriminate.
  - repeat constructor.
  - exact Hcur.
Defined.

(** ** One step through the matches *)

Lemma show_match_text fs filename lines st m :
  fs filename = Some lines ->
  0 <= currentMatchIndex st ->
  searchMatches st !! Z.to_nat (currentMatchIndex st) = Some m ->
  show_match fs filename st
  = (inr (match_header (currentMatchIndex st) (length (searchMatches st))
          +:+ formatScreen (window lines (set_currentLine (line m) st))
                           (Z.of_nat (length lines))),
     set_currentLine (line m) st).
Proof. intros. apply show_match_readable; assumption. Qed.

(** X23. [next_match] on a readable file, from a state whose match index
    [i] is an index of its [n] matches, moves the index to [(i + 1) mod n]
    and the cursor to the line of the match at that index, leaves the match
    list, the pattern and the page size as they are, and answers
    [Match k of n], [k] being the new index plus 1, above the screen at the
    new cursor. *)
Theorem next_match_step :
  forall (fs : string -> option (list string)) (engine : RegExpEngine)
         (filename : string) (lines : list string)
         (states : gmap string FileNavigatorState),
    fs filename = Some lines ->
    let st := state_of filename states in
    let n := Z.of_nat (length (searchMatches st)) in
    0 <= currentMatchIndex st < n ->
    let i' := (currentMatchIndex st + 1) `mod` n in
    exists m,
      searchMatches st !! Z.to_nat i' = Some m
      /\ let st' := mkState (currentFile st) (line m) (screenHeight st)
                            (searchPattern st) (searchMatches st) i' in
         callTool fs NextMatch filename states
         = (inr (match_header i' (length (searchMatches st))
                 +:+ formatScreen (window lines st')
                                  (Z.of_nat (length lines))),
            <[filename := st']> states).
Proof.
  intros fs engine filename lines states Hfile st n Hidx i'.
  assert (Hi' : 0 <= i' < n) by (apply Z.mod_pos_bound; lia).
  destruct (lookup_lt_is_Some_2 (searchMatches st) (Z.to_nat i')) as [m Hm];
    [lia|].
  exists m. split; [exact Hm|]. cbv zeta.
  assert (Hrun : next_match fs filename st
                 = (inr (match_header i' (length (searchMatches st))
                         +:+ formatScreen
                               (window lines
                                  (mkState (currentFile st) (line m)
                                     (screenHeight st) (searchPattern st)
                                     (searchMatches st) i'))
                               (Z.of_nat (length lines))),
                    mkState (currentFile st) (line m) (screenHeight st)
                            (searchPattern st) (searchMatches st) i')).
  { unfold next_match. unfold bind at 1. cbn [get]. fold n.
    destruct (Z.eqb_spec n 0) as [Hz|_]; [lia|].
    unfold bind at 1. cbn [modify]. fold n.
    rewrite Z.rem_mod_nonneg by lia. fold i'.
    rewrite (show_match_text fs filename lines _ m Hfile);
      [reflexivity|cbn; lia|exact Hm]. }
  rewrite (callTool_step fs filename lines) by (exact Hfile || discriminate).
  cbn [run_tool]. fold st. rewrite Hrun. reflexivity.
Qed.

Lemma next_match_step_witness :
  let states : gmap string FileNavigatorState := {["f" := searching]} in
  exists m,
    searchMatches searching !! 1%nat = Some m
    /\ (callTool (one_file seven_lines) (engine := literal_engine)
                 NextMatch "f" states).2
       = <["f" := mkState (Some "f") (line m) 30 (Some "foo")
                          (searchMatches searching) 1]> states.
Proof.
  intros states.
  destruct (next_match_step (one_file seven_lines) literal_engine "f"
              seven_lines states eq_refl) as (m & Hm & Hcall).
  - vm_compute. split; [discriminate|reflexivity].
  - exists m. split; [exact Hm|]. cbv zeta in Hcall. rewrite Hcall. reflexivity.
Defined.

(** X24. [prev_match] on a readable file, from a state whose match index
    [i] is an index of its [n] matches, moves the index to [i - 1], or to
    [n - 1] from index 0, and the cursor to the line of the match at that
    index, leaves the match list, the pattern and the page size as they
    are, and answers [Match k of n], [k] being the new index plus 1, above
    the screen at the new cursor. *)
Theorem prev_match_step :
  forall (fs : string -> option (list string)) (engine : RegExpEngine)
         (filename : string) (lines : list string)
         (states : gmap string FileNavigatorState),
    fs filename = Some lines ->
    let st := state_of filename states in
    let n := Z.of_nat (length (searchMatches st)) in
    0 <= currentMatchIndex st < n ->
    let i' := (currentMatchIndex st - 1 + n) `mod` n in
    (currentMatchIndex st = 0 -> i' = n - 1)
    /\ (0 < currentMatchIndex st -> i' = currentMatchIndex st - 1)
    /\ exists m,
         searchMatches st !! Z.to_nat i' = Some m
         /\ let st' := mkState (currentFile st) (line m) (screenHeight st)
                               (searchPattern st) (searchMatches st) i' in
            callTool fs PrevMatch filename states
            = (inr (match_header i' (length (searchMatches st))
                    +:+ formatScreen (window lines st')
                                     (Z.of_nat (length lines))),
               <[filename := st']> states).
Proof.
  intros fs engine filename lines states Hfile st n Hidx i'.
  assert (Hwrap : currentMatchIndex st = 0 -> i' = n - 1).
  { intros H0. subst i'. rewrite H0.
    replace (0 - 1 + n) with (n - 1) by lia. apply Z.mod_small. lia. }
  assert (Hback : 0 < currentMatchIndex st -> i' = currentMatchIndex st - 1).
  { intros Hpos. subst i'.
    replace (currentMatchIndex st - 1 + n)
      with (currentMatchIndex st - 1 + 1 * n) by lia.
    rewrite Z.mod_add by lia. apply Z.mod_small. lia. }
  split; [exact Hwrap|]. split; [exact Hback|].
  assert (Hi' : 0 <= i' < n) by (apply Z.mod_pos_bound; lia).
  destruct (lookup_lt_is_Some_2 (searchMatches st) (Z.to_nat i')) as [m Hm];
    [lia|].
  exists m. split; [exact Hm|]. cbv zeta.
  assert (Hrun : prev_match fs filename st
                 = (inr (match_header i' (length (searchMatches st))
                         +:+ formatScreen
                               (window lines
                                  (mkState (currentFile st) (line m)
                                     (screenHeight st) (searchPattern st)
                                     (searchMatches st) i'))
                               (Z.of_nat (length lines))),
                    mkState (currentFile st) (line m) (screenHeight st)
                            (searchPattern st) (searchMatches st) i')).
  { unfold prev_match. unfold bind at 1. cbn [get]. fold n.
    destruct (Z.eqb_spec n 0) as [Hz|_]; [lia|].
    unfold bind at 1. cbn [modify]. unfold bind at 1. cbn [get].
    cbn [set_currentMatchIndex currentMatchIndex].
    destruct (Z.ltb_spec (currentMatchIndex st - 1) 0) as [Hneg|Hpos];
      unfold bind at 1; cbn [modify ret].
    - assert (Heq : i' = n - 1) by (apply Hwrap; lia).
      rewrite (show_match_text fs filename lines _ m Hfile);
        [|cbn; lia|cbn; rewrite <- Heq; exact Hm].
      cbn. rewrite <- Heq. reflexivity.
    - assert (Heq : i' = currentMatchIndex st - 1) by (apply Hback; lia).
      rewrite (show_match_text fs filename lines _ m Hfile);
        [|cbn; lia|cbn; rewrite <- Heq; exact Hm].
      cbn. rewrite <- Heq. reflexivity. }
  rewrite (callTool_step fs filename lines) by (exact Hfile || discriminate).
  cbn [run_tool]. fold st. rewrite Hrun. reflexivity.
Qed.

Lemma prev_match_step_witness :
  let states : gmap string FileNavigatorState := {["f" := searching]} in
  exists m,
    searchMatches searching !! 1%nat = Some m
    /\ (callTool (one_file seven_lines) (engine := literal_engine)
                 PrevMatch "f" states).2
       = <["f" := mkState (Some "f") (line m) 30 (Some "foo")
                          (searchMatches searching) 1]> states.
Proof.
  intros states.
  destruct (prev_match_step (one_file seven_lines) literal_engine "f"
              seven_lines states eq_refl) as (_ & _ & m & Hm & Hcall).
  - vm_compute. split; [discriminate|reflexivity].
  - exists m. split; [exact Hm|]. cbv zeta in Hcall. rewrite Hcall. reflexivity.
Defined.

(** ** The answer of find *)

(** X25. A [find] on a readable file whose pattern compiles answers in
    one of two ways.  When it leaves no match, the answer is
    [Pattern not found: "pattern"].  When it leaves [N] matches, the answer
    is [Found match 1 of N], whatever the index of the match it landed on,
    followed by an empty line and the screen at the new cursor. *)
Theorem find_answer :
  forall (fs : string -> option (list string)) (engine : RegExpEngine)
         (filename pattern : string) (isRegex : bool) (lines : list string)
         (states : gmap string FileNavigatorState),
    fs filename = Some lines ->
    (isRegex = true -> is_Some (RegExp_new pattern)) ->
    let r := callTool fs (Find pattern isRegex) filename states in
    let st' := state_of filename r.2 in
    (searchMatches st' = [] -> r.1 = inr (not_found pattern))
    /\ (searchMatches st' <> [] ->
        r.1 = inr ("Found match 1 of "
                   +:+ pretty (Z.of_nat (length (searchMatches st')))
                   +:+ String Str.newline (String Str.newline "")
                   +:+ formatScreen (window lines st')
                                    (Z.of_nat (length lines)))).
Proof.
  intros fs engine filename pattern isRegex lines states Hfile Hcompiles r st'.
  subst st' r.
  rewrite (callTool_step fs filename lines) by (exact Hfile || discriminate).
  cbn [run_tool fst snd]. rewrite state_of_insert.
  destruct (compile_cases pattern isRegex) as [[-> Hbad] | [m Hm]].
  { destruct (Hcompiles eq_refl) as [m Hm]. congruence. }
  rewrite (find_readable fs filename lines pattern isRegex m _ Hfile Hm).
  unfold find_outcome, land, found_header.
  destruct (scan lines (mkRegExp m 0) 1 _ None [] (-1))
    as [[[landed|] [|m0 ms]] index] eqn:Hscan; cbn [fst snd];
    (split; [intros Hnil|intros Hne]);
    try discriminate Hnil; try (contradiction Hne; reflexivity);
    try reflexivity;
    try (rewrite !append_assoc; reflexivity).
  (* a landed match with an empty list does not occur *)
  pose proof (scan_landing_inv lines (mkRegExp m 0) 1
                (currentLine (state_of filename states)) None [] (-1) eq_refl)
    as Hinv.
  rewrite Hscan in Hinv. destruct Hinv as (i & _ & Hfind). discriminate Hfind.
Qed.

Lemma find_answer_witness :
  let r := callTool (one_file seven_lines) (engine := literal_engine)
                    (Find "foo" false) "f"
                    {["f" := mkState (Some "f") 5 30 None [] (-1)]} in
  currentMatchIndex (state_of "f" r.2) = 1
  /\ exists screen,
       r.1 = inr ("Found match 1 of " +:+ pretty (2 : Z)
                  +:+ String Str.newline (String Str.newline "")
                  +:+ screen).
Proof.
  intros r. split; [vm_compute; reflexivity|].
  destruct (find_answer (one_file seven_lines) literal_engine "f" "foo" false
              seven_lines {["f" := mkState (Some "f") 5 30 None [] (-1)]}
              eq_refl) as [_ Hfound]; [discriminate|].
  eexists. fold r in Hfound. rewrite Hfound by (vm_compute; discriminate).
  replace (length (searchMatches (state_of "f" r.2))) with 2%nat
    by (vm_compute; reflexivity).
  reflexivity.
Defined.

(** ** The tools by name *)

(** X26. The names that the handler dispatches to a tool are exactly the
    six names of the tool list; a call under any other name on an
    accessible file is answered by the method-not-found error with that
    name, and the table of states is left as it was. *)
Theorem listed_tools_are_dispatched :
  forall (name : string) (args : Args),
    (name ∈ listed_tools.*1 <-> forall u, dispatch name args <> Unknown u)
    /\ (name ∉ listed_tools.*1 ->
        forall (fs : string -> option (list string)) (engine : RegExpEngine)
               (states : gmap string FileNavigatorState),
          accessible fs (arg_filename args) ->
          handleCall fs name args states
          = (inl (McpError MethodNotFound ("Unknown tool: " +:+ name)),
             states)).
Proof.
  intros name args.
  assert (Hcases : name ∈ listed_tools.*1 \/ dispatch name args = Unknown name).
  { unfold dispatch.
    destruct (String.eqb_spec name "go_to_line") as [->|_];
      [left; set_solver|].
    destruct (String.eqb_spec name "find") as [->|_]; [left; set_solver|].
    destruct (String.eqb_spec name "next_match") as [->|_];
      [left; set_solver|].
    destruct (String.eqb_spec name "prev_match") as [->|_];
      [left; set_solver|].
    destruct (String.eqb_spec name "page_up") as [->|_]; [left; set_solver|].
    destruct (String.eqb_spec name "page_down") as [->|_];
      [left; set_solver|].
    right. reflexivity. }
  assert (Hlisted : name ∈ listed_tools.*1 ->
                    forall u, dispatch name args <> Unknown u).
  { intros Hin u. cbn in Hin.
    repeat (apply elem_of_cons in Hin as [->|Hin]; [discriminate|]).
    inversion Hin. }
  split; [split; [exact Hlisted|]|].
  - intros Hknown. destruct Hcases as [Hin|Hunknown]; [exact Hin|].
    contradiction (Hknown name).
  - intros Hout fs engine states [lines Hfile].
    destruct Hcases as [Hin|Hunknown]; [contradiction|].
    unfold handleCall. rewrite Hunknown. unfold callTool. rewrite Hfile.
    rewrite bool_decide_eq_true_2 by (eexists; reflexivity).
    rewrite andb_false_r. reflexivity.
Qed.

(** ** The column of line numbers *)

Lemma pretty_N_go_length_mono (y : N) :
  forall (x : N) (s s' : string),
    (x <= y)%N ->
    (String.length s <= String.length s')%nat ->
    (String.length (pretty_N_go x s) <= String.length (pretty_N_go y s'))%nat.
Proof.
  induction (N.lt_wf_0 y) as [y _ IH]. intros x s s' Hxy Hlen.
  destruct (decide (y = 0%N)) as [->|Hy].
  - assert (x = 0%N) as -> by lia. rewrite !pretty_N_go_0. exact Hlen.
  - rewrite (pretty_N_go_step y) by lia.
    assert (Hdiv : (y `div` 10 < y)%N) by (apply N.div_lt; lia).
    destruct (decide (x = 0%N)) as [->|Hx].
    + rewrite <- (pretty_N_go_0 s) at 1.
      apply IH; [exact Hdiv|apply N.le_0_l|].
      rewrite ?pretty_N_go_0. cbn. lia.
    + rewrite (pretty_N_go_step x) by lia.
      apply IH; [exact Hdiv|apply N.Div0.div_le_mono; exact Hxy|cbn; lia].
Qed.

(** Of two line numbers, the smaller is not written with more digits. *)
Lemma pretty_length_mono (a b : Z) :
  1 <= a <= b ->
  (String.length (pretty a) <= String.length (pretty b))%nat.
Proof.
  intros Hab. destruct a as [|a|a]; try lia. destruct b as [|b|b]; try lia.
  change (String.length (pretty_N (N.pos a))
          <= String.length (pretty_N (N.pos b)))%nat.
  unfold pretty_N.
  destruct (decide (N.pos a = 0%N)) as [Ha|_]; [discriminate Ha|].
  destruct (decide (N.pos b = 0%N)) as [Hb|_]; [discriminate Hb|].
  apply pretty_N_go_length_mono; [lia|reflexivity].
Qed.

Lemma length_append (a b : string) :
  String.length (a +:+ b) = (String.length a + String.length b)%nat.
Proof.
  induction a as [|c a IH]; [reflexivity|].
  rewrite append_String. cbn [String.length]. rewrite IH. reflexivity.
Qed.

Lemma padStart_length w s :
  String.length (Str.padStart w s) = Nat.max w (String.length s).
Proof.
  unfold Str.padStart. rewrite length_append.
  assert (Hpad : forall k, String.length
                             (string_of_list_ascii (replicate k Str.space)) = k)
    by (induction k as [|k IH]; [reflexivity|cbn; rewrite IH; reflexivity]).
  rewrite Hpad. lia.
Qed.

(** The lines of a window are lines of the file. *)
Lemma window_line_numbers lines st :
  Forall (fun l => 1 <= lineNumber l <= Z.of_nat (length lines))
         (window lines st).
Proof.
  unfold window. rewrite getLines_loop_slice.
  apply Forall_lookup. intros i l Hl.
  rewrite list_lookup_imap in Hl.
  destruct (take _ _ !! i) as [x|] eqn:Hx; [|discriminate].
  cbn in Hl. injection Hl as <-. cbn.
  apply lookup_lt_Some in Hx. rewrite length_take, length_drop in Hx. lia.
Qed.

(** X27. On every screen of a file, the column of line numbers has the
    width of the number of lines of the file written in decimal: the screen
    is made of one row per line of the window, each a line number padded on
    the left to that width, the separator and the text of the line,
    followed by the end-of-file rows if any. *)
Theorem formatScreen_number_column :
  forall (lines : list string) (st : FileNavigatorState),
    window lines st <> [] ->
    let totalLines := Z.of_nat (length lines) in
    let width := String.length (pretty totalLines) in
    Forall (fun l => String.length (Str.padStart width (pretty (lineNumber l)))
                     = width) (window lines st)
    /\ exists eof_rows,
         formatScreen (window lines st) totalLines
         = Str.join (String Str.newline "")
             (map (fun l => Str.padStart width (pretty (lineNumber l))
                            +:+ " | " +:+ lineContent l) (window lines st)
              ++ eof_rows).
Proof.
  intros lines st Hne totalLines width.
  pose proof (window_line_numbers lines st) as Hnums. fold totalLines in Hnums.
  split.
  - eapply Forall_impl; [exact Hnums|]. intros l Hl. cbn in Hl.
    rewrite padStart_length.
    pose proof (pretty_length_mono (lineNumber l) totalLines Hl).
    subst width. lia.
  - assert (Hlast : 1 <= last_lineNumber (window lines st) <= totalLines).
    { unfold last_lineNumber.
      destruct (last (window lines st)) as [l|] eqn:Hl.
      - apply last_Some_elem_of in Hl. rewrite Forall_forall in Hnums.
        exact (Hnums l Hl).
      - apply last_None in Hl. contradiction. }
    assert (Hwidth : Nat.max (String.length (pretty totalLines))
                       (String.length
                          (pretty (last_lineNumber (window lines st))))
                     = width).
    { pose proof (pretty_length_mono _ totalLines Hlast). subst width. lia. }
    unfold formatScreen.
    destruct (window lines st) as [|l0 w] eqn:Hw; [contradiction|].
    rewrite Hwidth.
    destruct (totalLines <=? last_lineNumber (l0 :: w)).
    + eexists. reflexivity.
    + exists []. rewrite app_nil_r. reflexivity.
Qed.

Lemma formatScreen_number_column_witness :
  Forall (fun l => String.length (Str.padStart 1 (pretty (lineNumber l))) = 1%nat)
         (window seven_lines searching).
Proof.
  destruct (formatScreen_number_column seven_lines searching) as [Hcol _].
  - vm_compute. discriminate.
  - exact Hcol.
Defined.

(** ** The empty file name *)

(** X28. The access check is skipped for the empty file name.  When no
    file can be read under it, [go_to_line], [page_down] and [page_up]
    still fail with [File not found: ], but each leaves an entry for the
    empty name in the table, and [page_up] has moved the cursor of that
    entry before failing; [next_match] and [prev_match] on an entry
    without matches do not fail at all. *)
Theorem callTool_empty_filename :
  forall (fs : string -> option (list string)) (engine : RegExpEngine)
         (states : gmap string FileNavigatorState)
         (L : Z) (screen_height : option Z),
    fs "" = None ->
    let st := state_of "" states in
    let missing := inl (McpError InvalidParams ("File not found: " +:+ "")) in
    callTool fs (GoToLine L screen_height) "" states
    = (missing, <["" := st]> states)
    /\ callTool fs PageDown "" states = (missing, <["" := st]> states)
    /\ callTool fs PageUp "" states
       = (missing,
          <["" := set_currentLine
                    (Z.max 1 (currentLine st - screenHeight st)) st]> states)
    /\ (searchMatches st = [] ->
        callTool fs NextMatch "" states
        = (inr no_active_search, <["" := st]> states)
        /\ callTool fs PrevMatch "" states
           = (inr no_active_search, <["" := st]> states)).
Proof.
  intros fs engine states L h Hmissing st missing.
  assert (Hcall : forall tool, (forall name, tool <> Unknown name) ->
            callTool fs tool "" states
            = (match (run_tool fs "" tool st).1 with
               | inl e => inl (rethrow "" e)
               | inr text => inr text
               end, <["" := (run_tool fs "" tool st).2]> states)).
  { intros tool Hknown. unfold callTool. cbn [String.eqb negb andb].
    rewrite getNavigatorState_pair. fold st.
    destruct tool; try (exfalso; eapply Hknown; reflexivity);
      match goal with
      | |- context [run_tool ?a ?b ?c ?d] =>
          destruct (run_tool a b c d) as [[e|text] st']
      end; cbn [fst snd]; rewrite insert_insert_eq; reflexivity. }
  repeat split.
  - rewrite Hcall by discriminate. cbn [run_tool].
    unfold go_to_line, getTotalLines, readFileLines, bind.
    rewrite Hmissing. reflexivity.
  - rewrite Hcall by discriminate. cbn [run_tool].
    unfold page_down, getTotalLines, readFileLines, bind.
    rewrite Hmissing. reflexivity.
  - rewrite Hcall by discriminate. cbn [run_tool].
    unfold page_up, getLines_at_cursor, getLines, readFileLines, bind, modify,
      get.
    rewrite Hmissing. reflexivity.
  - rewrite Hcall by discriminate. cbn [run_tool].
    rewrite next_match_no_search by assumption. reflexivity.
  - rewrite Hcall by discriminate. cbn [run_tool].
    rewrite prev_match_no_search by assumption. reflexivity.
Qed.

Lemma callTool_empty_filename_witness :
  (callTool (one_file seven_lines) (engine := literal_engine) PageUp ""
            {["" := searching]}).1
  = inl (McpError InvalidParams ("File not found: " +:+ ""))
  /\ currentLine
       (state_of ""
          (callTool (one_file seven_lines) (engine := literal_engine) PageUp ""
                    {["" := mkState (Some "") 50 30 None [] (-1)]}).2)
     = 20.
Proof.
  split.
  - destruct (callTool_empty_filename (one_file seven_lines) literal_engine
                {["" := searching]} 1 None eq_refl) as (_ & _ & Hup & _).
    rewrite Hup. reflexivity.
  - destruct (callTool_empty_filename (one_file seven_lines) literal_engine
                {["" := mkState (Some "") 50 30 None [] (-1)]} 1 None eq_refl)
      as (_ & _ & Hup & _).
    rewrite Hup. reflexivity.
Defined.
